(** * hs-train-scraping: a shallow embedding and its verified properties

    The repository scrapes train services of two operators into a
    pipe-delimited ledger file (AVLO/main.py, common/) and later searches
    that ledger for the cheapest round trips (round_trips_finder/main.py).

    Part I embeds the Python sources, one module per source file, keeping
    the names of the source.  Part II states and proves the properties.

    Conventions of the embedding:
    - Python [str] is [string] (the UTF-8 bytes of the text);
    - Python [int] is [Z] for calendar arithmetic and [nat] for lengths
      and counters;
    - Python [float] is the kernel's binary64 [float]; dictionary keys
      are compared as Python compares them, with [==];
    - an exception is a value of [exn]; fallible code returns [result];
    - the file system is a finite map from paths to file contents. *)

From Stdlib Require Import ZArith QArith Uint63 Floats String Ascii List Lia.
From stdpp Require Import base decidable option list gmap strings.

Local Open Scope string_scope.
Local Open Scope list_scope.
Local Open Scope Z_scope.

(** * Part I: the embedding *)

(** ** Python builtins used by the sources *)

Module Py.

(** The exceptions the modelled code can raise. *)
Inductive exn : Type :=
  | ValueError
  | KeyError (key : string)
  | IndexError
  | TypeError
  | AttributeError
  | OverflowError
  | ZeroDivisionError
  | AssertionError
  | FileNotFoundError
  | TimeoutException
  | WebDriverException.

Inductive result (A : Type) : Type :=
  | Ok (a : A)
  | Raise (e : exn).
Arguments Ok {A} a.
Arguments Raise {A} e.

Definition bind {A B : Type} (m : result A) (k : A -> result B) : result B :=
  match m with
  | Ok a => k a
  | Raise e => Raise e
  end.

Definition is_Ok {A : Type} (m : result A) : bool :=
  match m with
  | Ok _ => true
  | Raise _ => false
  end.

(** [for x in l: acc = body(acc, x)], stopping at the first exception. *)
Fixpoint for_each {A S : Type} (l : list A) (body : S -> A -> result S)
    (acc : S) : result S :=
  match l with
  | [] => Ok acc
  | x :: l' => bind (body acc x) (for_each l' body)
  end.

(** *** Lists *)

(** [l[i]] for [i >= 0], and [l[-1]]: IndexError out of range. *)
Definition item {A : Type} (l : list A) (i : nat) : result A :=
  match l !! i with
  | Some x => Ok x
  | None => Raise IndexError
  end.

Definition item_last {A : Type} (l : list A) : result A :=
  match last l with
  | Some x => Ok x
  | None => Raise IndexError
  end.

(** *** Characters and strings *)

Definition is_digit (c : ascii) : bool :=
  (48 <=? nat_of_ascii c)%nat && (nat_of_ascii c <=? 57)%nat.

Definition digit_val (c : ascii) : Z := Z.of_nat (nat_of_ascii c) - 48.

Definition digit_char (d : Z) : ascii := ascii_of_nat (48 + Z.to_nat d).

(** The white space [str.strip] and [int] skip, among the ASCII
    characters: the space, the controls 9 to 13 and the separators 28 to
    31. *)
Definition is_space (c : ascii) : bool :=
  let n := nat_of_ascii c in
  (n =? 32)%nat || ((9 <=? n)%nat && (n <=? 13)%nat)
  || ((28 <=? n)%nat && (n <=? 31)%nat).

Fixpoint lstrip (s : string) : string :=
  match s with
  | EmptyString => EmptyString
  | String c r => if is_space c then lstrip r else s
  end.

Fixpoint rstrip (s : string) : string :=
  match s with
  | EmptyString => EmptyString
  | String c r =>
      match rstrip r with
      | EmptyString => if is_space c then EmptyString else String c EmptyString
      | r' => String c r'
      end
  end.

Definition strip (s : string) : string := rstrip (lstrip s).

(** [s[a:b]] for non-negative bounds: out-of-range bounds are clamped. *)
Definition slice (a b : nat) (s : string) : string := substring a (b - a) s.

(** [s.split(sep)] for a one-character separator. *)
Fixpoint split (sep : ascii) (s : string) : list string :=
  match s with
  | EmptyString => [EmptyString]
  | String c r =>
      if Ascii.eqb c sep then EmptyString :: split sep r
      else match split sep r with
           | [] => [String c EmptyString]
           | w :: ws => String c w :: ws
           end
  end.

(** [sep.join(l)]. *)
Fixpoint join (sep : string) (l : list string) : string :=
  match l with
  | [] => EmptyString
  | [x] => x
  | x :: l' => x +:+ sep +:+ join sep l'
  end.

(** [s.replace(old, new)] for a non-empty [old]: leftmost matches, not
    overlapping.  [skip] counts the characters of a match still to drop. *)
Fixpoint replace_from (old new : string) (skip : nat) (s : string) : string :=
  match s with
  | EmptyString => EmptyString
  | String c r =>
      match skip with
      | S k => replace_from old new k r
      | O =>
          if String.prefix old s
          then new +:+ replace_from old new (String.length old - 1) r
          else String c (replace_from old new 0 r)
      end
  end.

Definition replace (old new s : string) : string := replace_from old new 0 s.

Fixpoint zeros (n : nat) : string :=
  match n with
  | O => EmptyString
  | S k => String "0" (zeros k)
  end.

(** [s.zfill(width)]: zeros go after a leading sign. *)
Definition zfill (width : nat) (s : string) : string :=
  let pad := zeros (width - String.length s) in
  match s with
  | String c r =>
      if Ascii.eqb c "+" || Ascii.eqb c "-" then String c (pad +:+ r)
      else pad +:+ s
  | EmptyString => pad
  end.

(** *** [int(s)] and [str(n)] *)

(** The digits of an [int] literal: decimal digits, with single
    underscores allowed between digits. *)
Fixpoint digits_value (after_digit : bool) (acc : Z) (s : string) : option Z :=
  match s with
  | EmptyString => if after_digit then Some acc else None
  | String c r =>
      if is_digit c then digits_value true (acc * 10 + digit_val c) r
      else if Ascii.eqb c "_" && after_digit then digits_value false acc r
      else None
  end.

(** [int(s)]: white space around, an optional sign, then the digits;
    anything else raises ValueError. *)
Definition int (s : string) : result Z :=
  let t := strip s in
  let '(negative, body) :=
    match t with
    | String c r =>
        if Ascii.eqb c "-" then (true, r)
        else if Ascii.eqb c "+" then (false, r)
        else (false, t)
    | EmptyString => (false, t)
    end in
  match digits_value false 0 body with
  | Some n => Ok (if negative then - n else n)
  | None => Raise ValueError
  end.

(** The decimal digits of a non-negative number, most significant first;
    [fuel] bounds the number of digits. *)
Fixpoint str_digits (fuel : nat) (n : Z) (acc : string) : string :=
  match fuel with
  | O => acc
  | S f =>
      let acc' := String (digit_char (n mod 10)) acc in
      if n <? 10 then acc' else str_digits f (n / 10) acc'
  end.

(** [str(n)] for an integer. *)
Definition str (n : Z) : string :=
  if n <? 0
  then String "-" (str_digits (S (Z.to_nat (Z.log2 (- n)))) (- n) EmptyString)
  else str_digits (S (Z.to_nat (Z.log2 n))) n EmptyString.

End Py.

Export Py (exn(..), result(..)).

#[export] Instance result_ret : MRet result := fun A a => Ok a.
#[export] Instance result_bind : MBind result := fun A B k m => Py.bind m k.

(** [stored == key], as a dictionary compares a key it holds with a key
    looked up.  Strings, None and tuples of them are equal when they are
    the same value.  Floats are compared as numbers: 0.0 and -0.0 are
    equal, and NaN is equal to nothing.  (Python takes an object for equal
    to itself before it compares values; the embedding has values and no
    objects, so here a key that holds NaN is never found again.) *)
Class PyEq (K : Type) := py_eq : K -> K -> bool.
#[global] Hint Mode PyEq ! : typeclass_instances.

#[global] Instance py_eq_decide {K : Type} `{EqDecision K} : PyEq K | 10 :=
  fun stored key => bool_decide (stored = key).

#[global] Instance py_eq_float : PyEq float | 20 := PrimFloat.eqb.

#[global] Instance py_eq_prod {A B : Type} `{PyEq A} `{PyEq B}
    : PyEq (A * B) | 30 :=
  fun stored key => py_eq stored.1 key.1 && py_eq stored.2 key.2.

(** ** common/dates.py *)

Module dates.

(** A [datetime.date]: the constructor [date_new] only builds valid ones. *)
Record date : Type := mk_date { year : Z; month : Z; day : Z }.

(** The calendar of the datetime module. *)
Definition MAXYEAR : Z := 9999.
Definition MAXORDINAL : Z := 3652059.
Definition DAYS_IN_MONTH : list Z :=
  [-1; 31; 28; 31; 30; 31; 30; 31; 31; 30; 31; 30; 31].
Definition DAYS_BEFORE_MONTH : list Z :=
  [-1; 0; 31; 59; 90; 120; 151; 181; 212; 243; 273; 304; 334].

Definition is_leap (y : Z) : bool :=
  (y mod 4 =? 0) && (negb (y mod 100 =? 0) || (y mod 400 =? 0)).

Definition days_before_year (y : Z) : Z :=
  let y := y - 1 in y * 365 + y / 4 - y / 100 + y / 400.

Definition days_in_month (y m : Z) : Z :=
  if (m =? 2) && is_leap y then 29 else nth (Z.to_nat m) DAYS_IN_MONTH 0.

Definition days_before_month (y m : Z) : Z :=
  nth (Z.to_nat m) DAYS_BEFORE_MONTH 0
  + (if (2 <? m) && is_leap y then 1 else 0).

Definition valid_date (d : date) : bool :=
  (1 <=? year d) && (year d <=? MAXYEAR)
  && (1 <=? month d) && (month d <=? 12)
  && (1 <=? day d) && (day d <=? days_in_month (year d) (month d)).

(** [date(year=y, month=m, day=d)]: ValueError outside the calendar. *)
Definition date_new (y m d : Z) : result date :=
  let r := mk_date y m d in
  if valid_date r then Ok r else Raise ValueError.

Definition toordinal (d : date) : Z :=
  days_before_year (year d) + days_before_month (year d) (month d) + day d.

(** [date.fromordinal(n)] for [1 <= n <= MAXORDINAL], after the datetime
    module's [_ord2ymd]. *)
Definition fromordinal (n : Z) : date :=
  let n := n - 1 in
  let n400 := n / 146097 in
  let n := n mod 146097 in
  let y := n400 * 400 + 1 in
  let n100 := n / 36524 in
  let n := n mod 36524 in
  let n4 := n / 1461 in
  let n := n mod 1461 in
  let n1 := n / 365 in
  let n := n mod 365 in
  let y := y + n100 * 100 + n4 * 4 + n1 in
  if (n1 =? 4) || (n100 =? 4) then mk_date (y - 1) 12 31
  else
    let leapyear := (n1 =? 3) && (negb (n4 =? 24) || (n100 =? 3)) in
    let m := Z.shiftr (n + 50) 5 in
    let preceding :=
      nth (Z.to_nat m) DAYS_BEFORE_MONTH 0
      + (if (2 <? m) && leapyear then 1 else 0) in
    if n <? preceding then
      let m := m - 1 in
      let preceding :=
        preceding
        - (nth (Z.to_nat m) DAYS_IN_MONTH 0
           + (if (m =? 2) && leapyear then 1 else 0)) in
      mk_date y m (n - preceding + 1)
    else mk_date y m (n - preceding + 1).

(** [d + timedelta(days=n)]: OverflowError when the result leaves the
    calendar (or [n] leaves the range of a timedelta). *)
Definition add_timedelta_days (d : date) (n : Z) : result date :=
  let o := toordinal d + n in
  if (0 <? o) && (o <=? MAXORDINAL) then Ok (fromordinal o)
  else Raise OverflowError.

(** [d1 <= d2] on dates. *)
Definition date_le (d1 d2 : date) : bool := toordinal d1 <=? toordinal d2.

Definition string_date_to_date_object (string_date : string) : result date :=
  y ← Py.int (Py.slice 6 10 string_date);
  m ← Py.int (Py.slice 3 5 string_date);
  d ← Py.int (Py.slice 0 2 string_date);
  date_new y m d.

Definition date_object_to_string_date (date_object : date) : string :=
  Py.zfill 2 (Py.str (day date_object)) +:+ "/" +:+
  Py.zfill 2 (Py.str (month date_object)) +:+ "/" +:+
  Py.str (year date_object).

(** The [while current_date_object <= last_date_object] loop; the number
    of days left bounds its iterations. *)
Fixpoint inbetween_loop (fuel : nat) (current_date_object last_date_object : date)
    (inbetween_dates : list string) : result (list string) :=
  match fuel with
  | O => Ok inbetween_dates
  | S f =>
      if date_le current_date_object last_date_object then
        let current_date :=
          Py.zfill 2 (Py.str (day current_date_object)) +:+ "/" +:+
          Py.zfill 2 (Py.str (month current_date_object)) +:+ "/" +:+
          Py.str (year current_date_object) in
        next ← add_timedelta_days current_date_object 1;
        inbetween_loop f next last_date_object (inbetween_dates ++ [current_date])
      else Ok inbetween_dates
  end.

Definition load_dates_inbetween (first_date last_date : string)
    : result (list string) :=
  first_date_object ← string_date_to_date_object first_date;
  last_date_object ← string_date_to_date_object last_date;
  if negb (date_le first_date_object last_date_object) then Raise AssertionError
  else
    inbetween_loop
      (Z.to_nat (toordinal last_date_object - toordinal first_date_object + 2))
      first_date_object last_date_object [].

Definition add_days_to_date (original_date : string) (days_to_add : Z)
    : result string :=
  original_date_obj ← string_date_to_date_object original_date;
  final_date_obj ← add_timedelta_days original_date_obj days_to_add;
  Ok (date_object_to_string_date final_date_obj).

End dates.

(** ** Files and the csv module *)

(** The file system: the content of every file that exists. *)
Abbreviation fs := (gmap string string).

(** A scraped service is requested for an origin station, a destination
    station, a travel date and a search date. *)
Abbreviation task := (string * string * string * string)%type.

Module csv.

Definition NEWLINE : ascii := ascii_of_nat 10.

(** The one-character string written as a backslash followed by n in Python. *)
Definition nl : string := String NEWLINE EmptyString.

(** The lines a text file yields when iterated, without their newline. *)
Definition file_lines (text : string) : list string :=
  match text with
  | EmptyString => []
  | _ =>
      let pieces := Py.split NEWLINE text in
      if decide (last pieces = Some EmptyString) then removelast pieces
      else pieces
  end.

(** [csv.reader(f, delimiter='|')]: a blank line is the empty row.  Quoted
    fields (the quote character of the csv module) are not modelled. *)
Definition reader (text : string) : list (list string) :=
  map (fun line => if decide (line = EmptyString) then [] else Py.split "|" line)
      (file_lines text).

(** [dict(zip(fieldnames, row))], the missing fields of a short row set to
    None; the surplus fields of a long row are dropped. *)
Fixpoint zip_row (fieldnames row : list string) : list (string * option string) :=
  match fieldnames with
  | [] => []
  | f :: fieldnames' =>
      match row with
      | [] => (f, None) :: zip_row fieldnames' []
      | v :: row' => (f, Some v) :: zip_row fieldnames' row'
      end
  end.

(** A dictionary built from pairs: a later pair overwrites an earlier one. *)
Definition dict_of (l : list (string * option string)) : gmap string (option string) :=
  foldl (fun d kv => <[kv.1 := kv.2]> d) ∅ l.

(** [DictReader(f, delimiter='|')]: the first row names the fields, blank
    rows are skipped, every other row becomes a dictionary. *)
Definition DictReader (text : string) : list (gmap string (option string)) :=
  match reader text with
  | [] => []
  | fieldnames :: rows =>
      map (fun row => dict_of (zip_row fieldnames row))
          (filter (fun row => row ≠ []) rows)
  end.

(** [line[key]]. *)
Definition getitem (line : gmap string (option string)) (key : string)
    : result (option string) :=
  match line !! key with
  | Some v => Ok v
  | None => Raise (KeyError key)
  end.

(** [open(path, 'r')] and reading the whole file. *)
Definition read (files : fs) (path : string) : result string :=
  match files !! path with
  | Some text => Ok text
  | None => Raise FileNotFoundError
  end.

End csv.

(** ** common/existing_output.py *)

Module existing_output.

(** [open(output_path, 'w')], one [write], [close]: the file is created or
    truncated and holds the header line. *)
Definition initialize_output_file (output_path : string) (files : fs) : fs :=
  <[output_path :=
      "origin_station|destination_station|travel_date|" +:+
      "departure_time|arrival_time|price|company|" +:+
      "search_date|search_time" +:+ csv.nl]> files.

(** A key of the set [existing_requested_services]: the four fields read
    from a ledger row, each a string or None. *)
Abbreviation row_key :=
  (option string * option string * option string * option string)%type.

(** A task as it compares with a [row_key]: a tuple of four strings. *)
Definition task_key (ser : task) : row_key :=
  let '(o_s, d_s, t_d, s_d) := ser in (Some o_s, Some d_s, Some t_d, Some s_d).

(** The first loop of [discard_existing_services]. *)
Definition existing_services (lines : list (gmap string (option string)))
    : result (gset row_key) :=
  Py.for_each lines
    (fun (existing_requested_services : gset row_key) line =>
       o_station ← csv.getitem line "origin_station";
       d_station ← csv.getitem line "destination_station";
       t_date ← csv.getitem line "travel_date";
       s_date ← csv.getitem line "search_date";
       Ok ({[ (o_station, d_station, t_date, s_date) ]}
             ∪ existing_requested_services))
    ∅.

Definition discard_existing_services (services_to_request : list task)
    (output_path : string) (files : fs) : result (list task) :=
  text ← csv.read files output_path;
  existing_requested_services ← existing_services (csv.DictReader text);
  Ok (filter (fun ser => task_key ser ∉ existing_requested_services)
             services_to_request).

(** The two nested loops that build [services_to_request]. *)
Definition all_services (station_ods : list (string * string))
    (travel_dates : list string) (search_date : string) : list task :=
  flat_map (fun '(o_s, d_s) =>
              map (fun t_d => (o_s, d_s, t_d, search_date)) travel_dates)
           station_ods.

(** [exists(output_path)]. *)
Definition exists_ (output_path : string) (files : fs) : bool :=
  bool_decide (is_Some (files !! output_path)).

(** Returns the remaining services and the file system it leaves. *)
Definition load_services_to_request (station_ods : list (string * string))
    (travel_dates : list string) (search_date : string)
    (output_path : string) (repeat_services : bool) (files : fs)
    : result (list task) * fs :=
  let services_to_request := all_services station_ods travel_dates search_date in
  if exists_ output_path files then
    if repeat_services then (Ok services_to_request, files)
    else (discard_existing_services services_to_request output_path files, files)
  else
    (Ok services_to_request, initialize_output_file output_path files).

End existing_output.

(** ** common/write_missing_services.py *)

Module write_missing_services.

Section os_path.

(** [os.path.join] of the platform the program runs on. *)
Variable join : string -> string -> string.

(** One report line per missing service. *)
Definition report_line (operator : string) (ser : task) : string :=
  let '(o_station, d_station, t_date, _) := ser in
  o_station +:+ "|" +:+ d_station +:+ "|" +:+ operator +:+ "|" +:+ t_date
  +:+ csv.nl.

Definition write_missing_services (missing_services : list task)
    (operator output_dir : string) (files : fs) : fs :=
  let output_path := join output_dir "missing_services.txt" in
  <[output_path :=
      fold_left (fun content ser => content +:+ report_line operator ser)
        missing_services
        ("origin_station|destination_station|operator|travel_date" +:+ csv.nl)]>
    files.

(** The arguments a caller passes. *)
Inductive arg : Type :=
  | Services (l : list task)
  | Str (s : string).

(** A call [write_missing_services(args...)] with positional arguments:
    they bind [missing_services], [operator] and [output_dir] from left to
    right, and a required parameter left unbound raises TypeError before
    the body runs. *)
Definition call (args : list arg) (files : fs) : result unit * fs :=
  match args with
  | [Services missing_services; Str operator; Str output_dir] =>
      (Ok tt, write_missing_services missing_services operator output_dir files)
  | _ => (Raise TypeError, files)
  end.

End os_path.

End write_missing_services.

(** ** common/remaining_time.py *)

Module remaining_time.

(** [x / n] for a float [x] and an int [n].  The floats of this module
    (elapsed wall-clock time) are idealised as rationals. *)
Definition truediv (x : Q) (n : Z) : result Q :=
  if n =? 0 then Raise ZeroDivisionError else Ok (x / inject_Z n)%Q.

(** [int(x)] for a float: truncation towards zero. *)
Definition trunc (x : Q) : Z := Z.quot (Qnum x) (Z.pos (Qden x)).

(** The two datetimes are given in seconds.  Returns what the call
    prints: nothing, or the estimate in minutes with the number of
    remaining processes. *)
Definition print_remaining_time (start_datetime : Q) (total_num_processes : Z)
    (current_datetime : Q) (remaining_num_processes : Z)
    : result (option (Z * Z)) :=
  if remaining_num_processes =? total_num_processes then Ok None
  else
    let elapsed_minutes := ((current_datetime - start_datetime) / 60)%Q in
    minutes_per_successful_search ←
      truediv elapsed_minutes (total_num_processes - remaining_num_processes);
    let remaining_time :=
      (minutes_per_successful_search * inject_Z remaining_num_processes)%Q in
    Ok (Some (trunc remaining_time + 1, remaining_num_processes)).

End remaining_time.

(** ** AVLO/web_request.py *)

Module web_request.

(** [datetime.now()]: the date, the hour and the minute. *)
Record datetime : Type :=
  mk_datetime { dt_date : dates.date; hour : Z; minute : Z }.

(** The loop over the [contHistorial] elements of the results page, given
    the text of each element. *)
Definition parse_train_services (origin_station destination_station travel_date
    search_date search_time : string) (services : list string)
    : result (list (list string)) :=
  Py.for_each services
    (fun (parsed_train_services : list (list string)) service =>
       let service_info_list := Py.split csv.NEWLINE service in
       if decide (service_info_list = [EmptyString]) then Ok parsed_train_services
       else
         departure_time ← Py.item service_info_list 0;
         arrival_time ← Py.item service_info_list 1;
         price ← Py.item_last service_info_list;
         let train_service :=
           [origin_station; destination_station; travel_date;
            departure_time; arrival_time; price; "AVLO";
            search_date; search_time] in
         Ok (parsed_train_services ++ [train_service])%list)
    [].

(** [avlo_services]: [browser] is what driving the web site yields, the
    texts of the [contHistorial] elements or the exception raised on the
    way.  Returns the lines written to [output_file]; nothing is written
    when an exception is raised, since the writes come last. *)
Definition avlo_services (origin_station destination_station travel_date : string)
    (dt_now : datetime) (browser : result (list string)) : result (list string) :=
  let search_date := dates.date_object_to_string_date (dt_date dt_now) in
  let search_time :=
    Py.zfill 2 (Py.str (hour dt_now)) +:+ ":" +:+ Py.zfill 2 (Py.str (minute dt_now)) in
  services ← browser;
  parsed_train_services ←
    parse_train_services origin_station destination_station travel_date
      search_date search_time services;
  if decide (length parsed_train_services = 0%nat) then Raise TimeoutException
  else
    Ok (map (fun train_service => Py.join "|" train_service +:+ csv.nl)
            parsed_train_services).

(** The exceptions of the [except] clause of [avlo_services_try]; every
    selenium exception is a WebDriverException. *)
Definition caught (e : exn) : bool :=
  match e with
  | TimeoutException | WebDriverException | IndexError => true
  | _ => false
  end.

(** Returns the boolean of the source and the lines written. *)
Definition avlo_services_try (origin_station destination_station travel_date : string)
    (dt_now : datetime) (browser : result (list string))
    : result bool * list string :=
  match avlo_services origin_station destination_station travel_date
          dt_now browser with
  | Ok written => (Ok true, written)
  | Raise e => if caught e then (Ok false, []) else (Raise e, [])
  end.

End web_request.

(** ** AVLO/main.py *)

Module AVLO.

(** What one iteration of the loop takes from outside the program. *)
Record event : Type := mk_event {
  ev_random : nat;                       (* the draw of random.choice *)
  ev_now : web_request.datetime;         (* datetime.now() in avlo_services *)
  ev_browser : result (list string);     (* what the web site yields *)
  ev_clock : Q                           (* datetime.now() for the estimate *)
}.

(** The variables of the loop; [written] holds the lines written to
    [output_file] since it was opened and [remaining_time_calls] the
    arguments (total, remaining) of every call of print_remaining_time. *)
Record state : Type := mk_state {
  services_to_request : list task;
  last_services_not_found_count : nat;
  written : list string;
  remaining_time_calls : list (nat * nat)
}.

(** [random.choice(seq)] with the draw [r]. *)
Definition choice {A : Type} (r : nat) (seq : list A) : result A :=
  match seq !! (r mod length seq)%nat with
  | Some x => Ok x
  | None => Raise IndexError
  end.

(** [l.remove(x)]: the first occurrence goes; ValueError without one. *)
Fixpoint list_remove (x : task) (l : list task) : result (list task) :=
  match l with
  | [] => Raise ValueError
  | y :: l' =>
      if decide (x = y) then Ok l'
      else l'' ← list_remove x l'; Ok (y :: l'')
  end.

(** The body of the [while] loop up to the test of the threshold. *)
Definition iteration (initial_remaining_services : nat) (start_dt : Q)
    (ev : event) (st : state) : result state :=
  s_to_request ← choice (ev_random ev) (services_to_request st);
  let '(o_station, d_station, t_date, _) := s_to_request in
  let '(services_found, lines) :=
    web_request.avlo_services_try o_station d_station t_date
      (ev_now ev) (ev_browser ev) in
  services_found ← services_found;
  if services_found : bool then
    remaining ← list_remove s_to_request (services_to_request st);
    _ ← remaining_time.print_remaining_time start_dt
          (Z.of_nat initial_remaining_services) (ev_clock ev)
          (Z.of_nat (length remaining));
    Ok {| services_to_request := remaining;
          last_services_not_found_count := 0;
          written := (written st ++ lines)%list;
          remaining_time_calls :=
            (remaining_time_calls st
             ++ [(initial_remaining_services, length remaining)])%list |}
  else
    Ok {| services_to_request := services_to_request st;
          last_services_not_found_count := S (last_services_not_found_count st);
          written := (written st ++ lines)%list;
          remaining_time_calls := remaining_time_calls st |}.

(** How the loop stands: still running (the events ran out), left because
    no service is pending, or left through the threshold branch. *)
Inductive status : Type := RUNNING | DRAINED | ABORTED.

(** The [while len(services_to_request) > 0] loop over the events given;
    the state returned with an exception is the one the failing iteration
    started from. *)
Fixpoint main_loop (initial_remaining_services : nat) (start_dt : Q)
    (evs : list event) (st : state) : result status * state :=
  match services_to_request st with
  | [] => (Ok DRAINED, st)
  | _ :: _ =>
      match evs with
      | [] => (Ok RUNNING, st)
      | ev :: evs' =>
          match iteration initial_remaining_services start_dt ev st with
          | Raise e => (Raise e, st)
          | Ok st' =>
              if (20 <? last_services_not_found_count st')%nat
              then (Ok ABORTED, st')
              else main_loop initial_remaining_services start_dt evs' st'
          end
      end
  end.

(** How a run of [main_function] ends. *)
Record run : Type := mk_run {
  run_result : result status;   (* the exception raised, if any *)
  run_files : fs;               (* the file system left behind *)
  run_pending : list task;      (* the services still to request *)
  run_buffered : list string;   (* written to output_file, which was not closed *)
  run_closed : bool             (* whether output_file.close() was reached *)
}.

Section os_path.

Variable join : string -> string -> string.
Variable dirname : string -> string.

(** The writes to [output_file] are buffered: the buffer is passed on to
    the file as it fills, so that a file which is not closed holds the
    first characters of the text written, [flushed text] of them; the
    number is up to the buffer of the platform. *)
Variable flushed : string -> nat.

(** [output_file.close()]: the lines written reach the file. *)
Definition close (output_path : string) (lines : list string) (files : fs) : fs :=
  <[output_path := default EmptyString (files !! output_path)
                   +:+ fold_right String.append EmptyString lines]> files.

(** [output_file] left open: [open(output_path, 'a')] has created the file
    if there was none, and the file holds what the buffer has passed on. *)
Definition left_open (output_path : string) (lines : list string) (files : fs)
    : fs :=
  let text := fold_right String.append EmptyString lines in
  <[output_path := default EmptyString (files !! output_path)
                   +:+ substring 0 (flushed text) text]> files.

(** The run from [initial_remaining_services = len(services_to_request)]
    on: the ledger is opened for appending, the loop runs, the threshold
    branch reports the missing services, the ledger is closed. *)
Definition request_services (services : list task) (output_path : string)
    (start_dt : Q) (evs : list event) (files : fs) : run :=
  let initial_remaining_services := length services in
  let st0 := mk_state services 0 [] [] in
  match main_loop initial_remaining_services start_dt evs st0 with
  | (Raise e, st) =>
      mk_run (Raise e) (left_open output_path (written st) files)
        (services_to_request st) (written st) false
  | (Ok ABORTED, st) =>
      match write_missing_services.call join
              [write_missing_services.Services (services_to_request st);
               write_missing_services.Str (dirname output_path)] files with
      | (Ok _, files') =>
          mk_run (Ok ABORTED) (close output_path (written st) files')
            (services_to_request st) [] true
      | (Raise e, files') =>
          mk_run (Raise e) (left_open output_path (written st) files')
            (services_to_request st) (written st) false
      end
  | (Ok DRAINED, st) =>
      mk_run (Ok DRAINED) (close output_path (written st) files)
        (services_to_request st) [] true
  | (Ok RUNNING, st) =>
      mk_run (Ok RUNNING) (left_open output_path (written st) files)
        (services_to_request st) (written st) false
  end.

(** [main_function] after the configuration file is read: [now] is
    today's date. *)
Definition main_function (station_ods : list (string * string))
    (travel_dates : list string) (output_path : string) (now : dates.date)
    (start_dt : Q) (evs : list event) (files : fs) : run :=
  let search_date := dates.date_object_to_string_date now in
  let checked :=
    first_date ← Py.item travel_dates 0;
    first_date_object ← dates.string_date_to_date_object first_date;
    search_date_object ← dates.string_date_to_date_object search_date;
    if dates.date_le search_date_object first_date_object then Ok tt
    else Raise AssertionError in
  match checked with
  | Raise e => mk_run (Raise e) files [] [] false
  | Ok _ =>
      match existing_output.load_services_to_request station_ods travel_dates
              search_date output_path true files with
      | (Raise e, files') => mk_run (Raise e) files' [] [] false
      | (Ok services, files') =>
          request_services services output_path start_dt evs files'
      end
  end.

End os_path.

End AVLO.

(** ** round_trips_finder/main.py *)

Module round_trips_finder.

(** A train of [load_trains]: the departure and arrival times, the price,
    the operator and the travel date.  The fields a short ledger row lacks
    are None. *)
Abbreviation train :=
  ((option string * option string) * float * option string * string)%type.

Definition train_price (t : train) : float := t.1.1.2.

(** An insertion-ordered dictionary with float values. *)
Abbreviation dict K := (list (K * float)).

(** [d[k] = v]: the first key equal to [k] keeps its place and takes the new
    value, and without one [k] goes last. *)
Fixpoint dict_set {K : Type} `{PyEq K} (k : K) (v : float) (d : dict K)
    : dict K :=
  match d with
  | [] => [(k, v)]
  | (k', v') :: d' =>
      if py_eq k' k then (k', v) :: d' else (k', v') :: dict_set k v d'
  end.

(** [d[k]], when bound. *)
Fixpoint dict_get {K : Type} `{PyEq K} (k : K) (d : dict K) : option float :=
  match d with
  | [] => None
  | (k', v') :: d' => if py_eq k' k then Some v' else dict_get k d'
  end.

Section load.

(** [float(s)] of Python: None stands for ValueError. *)
Variable float_of_str : string -> option float.

(** The body of the loop of [load_trains] for one ledger row. *)
Definition load_line (origin_station destination_station : string)
    (travel_dates : list string) (trains : gmap string (list train))
    (line : gmap string (option string)) : result (gmap string (list train)) :=
  o ← csv.getitem line "origin_station";
  if decide (o ≠ Some origin_station) then Ok trains
  else
    d ← csv.getitem line "destination_station";
    if decide (d ≠ Some destination_station) then Ok trains
    else
      travel_date ← csv.getitem line "travel_date";
      match travel_date with
      | None => Ok trains
      | Some travel_date =>
          if decide (travel_date ∉ travel_dates) then Ok trains
          else
            price_text ← csv.getitem line "price";
            match price_text with
            | None => Raise AttributeError
            | Some price_text =>
                match float_of_str
                        (Py.replace "€" "" (Py.replace "," "." price_text)) with
                | None => Ok trains
                | Some price =>
                    departure_time ← csv.getitem line "departure_time";
                    arrival_time ← csv.getitem line "arrival_time";
                    company ← csv.getitem line "company";
                    Ok (<[travel_date :=
                            (default [] (trains !! travel_date)
                             ++ [((departure_time, arrival_time), price,
                                  company, travel_date)])%list]> trains)
                end
            end
      end.

Definition load_trains (input_path origin_station destination_station : string)
    (travel_dates : list string) (files : fs)
    : result (gmap string (list train)) :=
  text ← csv.read files input_path;
  Py.for_each (csv.DictReader text)
    (load_line origin_station destination_station travel_dates) ∅.

End load.

(** The two innermost loops: every go train with every return train. *)
Definition add_combinations (go_trains return_trains : list train)
    (combinations : dict (train * train)) : dict (train * train) :=
  fold_left
    (fun combinations go_train =>
       fold_left
         (fun combinations return_train =>
            let total_price :=
              (train_price go_train + train_price return_train)%float in
            dict_set (go_train, return_train) total_price combinations)
         return_trains combinations)
    go_trains combinations.

Definition possible_train_combinations
    (available_go_trains available_return_trains : gmap string (list train))
    (travel_dates : list string) (trip_days : list Z)
    : result (dict (train * train)) :=
  Py.for_each travel_dates
    (fun (combinations : dict (train * train)) go_date =>
       match available_go_trains !! go_date with
       | None => Ok combinations
       | Some go_trains =>
           Py.for_each trip_days
             (fun (combinations : dict (train * train)) t_day =>
                return_date ← dates.add_days_to_date go_date t_day;
                if decide (return_date ∉ travel_dates) then Ok combinations
                else
                  match available_return_trains !! return_date with
                  | None => Ok combinations
                  | Some return_trains =>
                      Ok (add_combinations go_trains return_trains combinations)
                  end)
             combinations
       end)
    [].

(** [sorted(items, key=lambda item: item[1])]: a stable sort by [<]. *)
Fixpoint insert_by_price {K : Type} (x : K * float) (l : list (K * float))
    : list (K * float) :=
  match l with
  | [] => [x]
  | y :: l' =>
      if (y.2 <? x.2)%float then y :: insert_by_price x l' else x :: y :: l'
  end.

Definition sorted_by_price {K : Type} (items : list (K * float)) : list (K * float) :=
  fold_right insert_by_price [] items.

(** The loop of [select_cheapest].  The source sets [i = 0] before the
    loop and never assigns it again, so [i] is passed on unchanged. *)
Fixpoint select_loop {K : Type} `{PyEq K} (min_i i : nat) (max_price : float)
    (items : list (K * float)) (cheapest_combinations : dict K) : dict K :=
  match items with
  | [] => cheapest_combinations
  | (combi, price) :: items' =>
      let max_price := if decide (i = min_i) then price else max_price in
      if (max_price <? price)%float then cheapest_combinations
      else select_loop min_i i max_price items'
             (dict_set combi price cheapest_combinations)
  end.

Definition select_cheapest {K : Type} `{PyEq K} (combinations : dict K)
    (min_i : nat) : dict K :=
  select_loop min_i 0 infinity (sorted_by_price combinations) [].

End round_trips_finder.

(** ** round_trips_finder/main.py: [main_function] *)

Module finder.

Import round_trips_finder.

Section formats.

(** [float(s)] and [str(x)] of Python for floats: '{}'.format writes a
    float as [str] does. *)
Variable float_of_str : string -> option float.
Variable str_of_float : float -> string.

(** '{}'.format of a field of a ledger row: None is written as its name. *)
Definition format_field (field : option string) : string :=
  default "None" field.

(** The line written for the combination [combi], the [i]-th of the
    selection.  The arrival time of the return train is not written, and
    the column before the operator of the return train is empty. *)
Definition output_line (origin_station destination_station : string) (i : nat)
    (combi : train * train) (price : float) : string :=
  let '((go_departure, go_arrival), go_price, go_company, go_date) := combi.1 in
  let '((return_departure, _), return_price, return_company, return_date) :=
    combi.2 in
  (Py.str (Z.of_nat i) +:+ "|" +:+ str_of_float price +:+ "€|")
  +:+ (format_field go_company +:+ "|" +:+ str_of_float go_price +:+ "€|"
       +:+ format_field go_departure +:+ "|" +:+ go_date +:+ "|"
       +:+ origin_station +:+ "|")
  +:+ (format_field go_arrival +:+ "|" +:+ destination_station +:+ "|")
  +:+ ("|" +:+ format_field return_company +:+ "|"
       +:+ str_of_float return_price +:+ "€|"
       +:+ format_field return_departure +:+ "|" +:+ return_date +:+ "|"
       +:+ destination_station +:+ csv.nl).

(** The loop that writes the selection, from the counter [i] on. *)
Fixpoint output_text (origin_station destination_station : string) (i : nat)
    (cheapest_combinations : dict (train * train)) : string :=
  match cheapest_combinations with
  | [] => EmptyString
  | (combi, price) :: rest =>
      output_line origin_station destination_station i combi price
      +:+ output_text origin_station destination_station (S i) rest
  end.

(** [main_function] after the configuration file is read: [first_date]
    and [last_date] are the two parts of [travel_date_boundaries],
    [trip_days] the numbers of [trip_days].  The output file is opened
    for writing once the selection is made, and closed by [with]. *)
Definition main_function (origin_station destination_station : string)
    (trip_days : list Z) (first_date last_date : string)
    (train_services_info_file_path output_path : string) (files : fs)
    : result fs :=
  travel_dates ← dates.load_dates_inbetween first_date last_date;
  available_go_trains ←
    load_trains float_of_str train_services_info_file_path
      origin_station destination_station travel_dates files;
  available_return_trains ←
    load_trains float_of_str train_services_info_file_path
      destination_station origin_station travel_dates files;
  combinations ←
    possible_train_combinations available_go_trains available_return_trains
      travel_dates trip_days;
  let cheapest_combinations := select_cheapest combinations 50 in
  Ok (<[output_path :=
          output_text origin_station destination_station 0
            cheapest_combinations]> files).

End formats.

End finder.

(** * Part II: properties *)

(** Linear arithmetic with division and remainder by constants. *)
Ltac div_lia := Z.div_mod_to_equations; lia.

(** ** Decimal digits *)

Section digits.

Import Py.

Lemma digit_char_is_digit (v : Z) :
  0 <= v < 10 -> is_digit (digit_char v) = true /\ digit_val (digit_char v) = v.
Proof.
  intros Hv.
  assert (v = 0 \/ v = 1 \/ v = 2 \/ v = 3 \/ v = 4 \/ v = 5 \/ v = 6
          \/ v = 7 \/ v = 8 \/ v = 9) as Hc by lia.
  repeat (destruct Hc as [-> | Hc]; [split; reflexivity |]).
  subst v. split; reflexivity.
Qed.

(** What a decimal digit is not, and what it is. *)
Lemma is_digit_inv (c : ascii) :
  is_digit c = true ->
  is_space c = false /\ Ascii.eqb c "-" = false /\ Ascii.eqb c "+" = false
  /\ 0 <= digit_val c < 10 /\ digit_char (digit_val c) = c
  /\ (Ascii.eqb c "0" = false -> 1 <= digit_val c).
Proof.
  destruct c as [[] [] [] [] [] [] [] []]; vm_compute; intros H;
    try discriminate H; repeat split; congruence.
Qed.

Lemma int_two_digits (a b : ascii) :
  is_digit a = true -> is_digit b = true ->
  int (String a (String b EmptyString)) = Ok (10 * digit_val a + digit_val b).
Proof.
  intros Ha Hb.
  destruct (is_digit_inv a Ha) as (Hsa & Hma & Hpa & _).
  destruct (is_digit_inv b Hb) as (Hsb & _).
  unfold int, strip. cbn [lstrip rstrip]. rewrite Hsa. cbn [rstrip].
  rewrite Hsb, Hma, Hpa. cbn [digits_value]. rewrite Ha, Hb.
  f_equal. lia.
Qed.

Lemma int_four_digits (a b c d : ascii) :
  is_digit a = true -> is_digit b = true ->
  is_digit c = true -> is_digit d = true ->
  int (String a (String b (String c (String d EmptyString))))
  = Ok (1000 * digit_val a + 100 * digit_val b + 10 * digit_val c + digit_val d).
Proof.
  intros Ha Hb Hc Hd.
  destruct (is_digit_inv a Ha) as (Hsa & Hma & Hpa & _).
  destruct (is_digit_inv b Hb) as (Hsb & _).
  destruct (is_digit_inv c Hc) as (Hsc & _).
  destruct (is_digit_inv d Hd) as (Hsd & _).
  unfold int, strip. cbn [lstrip rstrip]. rewrite Hsa. cbn [rstrip].
  rewrite Hsd, Hma, Hpa. cbn [digits_value]. rewrite Ha, Hb, Hc, Hd.
  f_equal. lia.
Qed.

Lemma str_digits_step (f : nat) (n : Z) (acc : string) :
  str_digits (S f) n acc
  = if n <? 10 then String (digit_char (n mod 10)) acc
    else str_digits f (n / 10) (String (digit_char (n mod 10)) acc).
Proof. reflexivity. Qed.

Lemma str_one_digit (n : Z) :
  0 <= n < 10 -> str n = String (digit_char n) EmptyString.
Proof.
  intros Hn. unfold str.
  destruct (Z.ltb_spec n 0) as [|_]; [div_lia |].
  rewrite str_digits_step.
  destruct (Z.ltb_spec n 10) as [_|]; [| div_lia].
  rewrite Z.mod_small by div_lia. reflexivity.
Qed.

Lemma str_two_digits (n : Z) :
  10 <= n < 100 ->
  str n = String (digit_char (n / 10)) (String (digit_char (n mod 10)) EmptyString).
Proof.
  intros Hn. unfold str.
  destruct (Z.ltb_spec n 0) as [|_]; [div_lia |].
  assert (3 <= Z.log2 n) as Hlog.
  { change 3 with (Z.log2 8). apply Z.log2_le_mono. lia. }
  destruct (Z.to_nat (Z.log2 n)) as [|f] eqn:Hf; [div_lia |].
  rewrite !str_digits_step.
  destruct (Z.ltb_spec n 10) as [|_]; [div_lia |].
  destruct (Z.ltb_spec (n / 10) 10) as [_|]; [| div_lia].
  replace (n / 10 mod 10) with (n / 10) by (rewrite Z.mod_small; div_lia).
  reflexivity.
Qed.

Lemma str_four_digits (n : Z) :
  1000 <= n < 10000 ->
  str n = String (digit_char (n / 1000))
            (String (digit_char (n / 100 mod 10))
               (String (digit_char (n / 10 mod 10))
                  (String (digit_char (n mod 10)) EmptyString))).
Proof.
  intros Hn. unfold str.
  destruct (Z.ltb_spec n 0) as [|_]; [div_lia |].
  assert (9 <= Z.log2 n) as Hlog.
  { change 9 with (Z.log2 512). apply Z.log2_le_mono. lia. }
  destruct (Z.to_nat (Z.log2 n)) as [|[|[|f]]] eqn:Hf; [lia | lia | lia |].
  rewrite !str_digits_step.
  destruct (Z.ltb_spec n 10) as [|_]; [div_lia |].
  destruct (Z.ltb_spec (n / 10) 10) as [|_]; [div_lia |].
  destruct (Z.ltb_spec (n / 10 / 10) 10) as [|_]; [div_lia |].
  destruct (Z.ltb_spec (n / 10 / 10 / 10) 10) as [_|]; [| div_lia].
  replace (n / 10 / 10 / 10 mod 10) with (n / 1000) by div_lia.
  replace (n / 10 / 10 mod 10) with (n / 100 mod 10) by div_lia.
  reflexivity.
Qed.

Lemma zfill_two (n : Z) :
  0 <= n < 100 ->
  zfill 2 (str n)
  = String (digit_char (n / 10)) (String (digit_char (n mod 10)) EmptyString).
Proof.
  intros Hn. destruct (Z.lt_ge_cases n 10) as [Hlt | Hge].
  - rewrite str_one_digit by div_lia.
    destruct (digit_char_is_digit n ltac:(div_lia)) as [Hd _].
    destruct (is_digit_inv _ Hd) as (_ & Hm & Hp & _).
    unfold zfill. rewrite Hm, Hp.
    rewrite Z.div_small, Z.mod_small by div_lia. reflexivity.
  - rewrite str_two_digits by div_lia.
    destruct (digit_char_is_digit (n / 10) ltac:(div_lia)) as [Hd _].
    destruct (is_digit_inv _ Hd) as (_ & Hm & Hp & _).
    unfold zfill. rewrite Hm, Hp. reflexivity.
Qed.

End digits.

(** ** C9: the two date conversions are mutually inverse *)

Section date_conversions.

Import Py dates.

Lemma days_in_month_le (y m : Z) : 1 <= m <= 12 -> days_in_month y m <= 31.
Proof.
  intros Hm. unfold days_in_month.
  assert (m = 1 \/ m = 2 \/ m = 3 \/ m = 4 \/ m = 5 \/ m = 6 \/ m = 7
          \/ m = 8 \/ m = 9 \/ m = 10 \/ m = 11 \/ m = 12) as Hc by lia.
  destruct (is_leap y);
    repeat (destruct Hc as [-> | Hc];
            [apply Z.leb_le; vm_compute; reflexivity |]);
    subst m; apply Z.leb_le; vm_compute; reflexivity.
Qed.

Lemma valid_date_bounds (d : date) :
  valid_date d = true ->
  1 <= year d <= 9999 /\ 1 <= month d <= 12 /\ 1 <= day d <= 31.
Proof.
  unfold valid_date, MAXYEAR. rewrite !andb_true_iff, !Z.leb_le.
  intros (((((Hy1 & Hy2) & Hm1) & Hm2) & Hd1) & Hd2).
  pose proof (days_in_month_le (year d) (month d) (conj Hm1 Hm2)).
  lia.
Qed.

(** A valid zero-padded DD/MM/YYYY string: ten characters, digits around
    two slashes, and a day that exists in its month, in a year from 0001
    to 9999. *)
Definition valid_date_string (s : string) : bool :=
  match s with
  | String d1 (String d2 (String s1 (String m1 (String m2 (String s2
      (String y1 (String y2 (String y3 (String y4 EmptyString))))))))) =>
      is_digit d1 && is_digit d2 && Ascii.eqb s1 "/"
      && is_digit m1 && is_digit m2 && Ascii.eqb s2 "/"
      && is_digit y1 && is_digit y2 && is_digit y3 && is_digit y4
      && valid_date
           (mk_date (1000 * digit_val y1 + 100 * digit_val y2
                     + 10 * digit_val y3 + digit_val y4)
                    (10 * digit_val m1 + digit_val m2)
                    (10 * digit_val d1 + digit_val d2))
  | _ => false
  end.

Lemma date_to_string_to_date (d : date) :
  valid_date d = true -> 1000 <= year d ->
  string_date_to_date_object (date_object_to_string_date d) = Ok d.
Proof.
  intros Hvalid Hyear.
  destruct (valid_date_bounds d Hvalid) as (Hy & Hm & Hd).
  unfold string_date_to_date_object, date_object_to_string_date.
  rewrite (zfill_two (day d)), (zfill_two (month d)) by lia.
  rewrite (str_four_digits (year d)) by lia.
  destruct (digit_char_is_digit (day d / 10) ltac:(div_lia)) as [Hi1 Hv1].
  destruct (digit_char_is_digit (day d mod 10) ltac:(div_lia)) as [Hi2 Hv2].
  destruct (digit_char_is_digit (month d / 10) ltac:(div_lia)) as [Hi3 Hv3].
  destruct (digit_char_is_digit (month d mod 10) ltac:(div_lia)) as [Hi4 Hv4].
  destruct (digit_char_is_digit (year d / 1000) ltac:(div_lia)) as [Hi5 Hv5].
  destruct (digit_char_is_digit (year d / 100 mod 10) ltac:(div_lia)) as [Hi6 Hv6].
  destruct (digit_char_is_digit (year d / 10 mod 10) ltac:(div_lia)) as [Hi7 Hv7].
  destruct (digit_char_is_digit (year d mod 10) ltac:(div_lia)) as [Hi8 Hv8].
  revert Hi1 Hv1 Hi2 Hv2 Hi3 Hv3 Hi4 Hv4 Hi5 Hv5 Hi6 Hv6 Hi7 Hv7 Hi8 Hv8.
  generalize (digit_char (day d / 10)) (digit_char (day d mod 10))
    (digit_char (month d / 10)) (digit_char (month d mod 10))
    (digit_char (year d / 1000)) (digit_char (year d / 100 mod 10))
    (digit_char (year d / 10 mod 10)) (digit_char (year d mod 10)).
  intros c1 c2 c3 c4 c5 c6 c7 c8 Hi1 Hv1 Hi2 Hv2 Hi3 Hv3 Hi4 Hv4
    Hi5 Hv5 Hi6 Hv6 Hi7 Hv7 Hi8 Hv8.
  cbv [String.append slice substring Nat.sub].
  rewrite int_four_digits, int_two_digits, int_two_digits by assumption.
  cbn [mbind result_bind bind].
  rewrite Hv1, Hv2, Hv3, Hv4, Hv5, Hv6, Hv7, Hv8.
  replace (1000 * (year d / 1000) + 100 * (year d / 100 mod 10)
           + 10 * (year d / 10 mod 10) + year d mod 10)
    with (year d) by div_lia.
  replace (10 * (month d / 10) + month d mod 10) with (month d) by div_lia.
  replace (10 * (day d / 10) + day d mod 10) with (day d) by div_lia.
  unfold date_new. destruct d as [y m dd]. cbn [year month day] in *.
  rewrite Hvalid. reflexivity.
Qed.

(** The year of a date string is written with four digits when its first
    digit, the seventh character of the string, is not a zero. *)
Definition four_digit_year (s : string) : bool :=
  match String.get 6 s with
  | Some y1 => negb (Ascii.eqb y1 "0")
  | None => false
  end.

Lemma string_to_date_to_string (s : string) :
  valid_date_string s = true -> four_digit_year s = true ->
  exists d, string_date_to_date_object s = Ok d
            /\ date_object_to_string_date d = s.
Proof.
  destruct s as [|d1 [|d2 [|s1 [|m1 [|m2 [|s2 [|y1 [|y2 [|y3 [|y4 [|]]]]]]]]]]];
    try discriminate.
  cbn [valid_date_string]. unfold four_digit_year. cbn [String.get].
  rewrite !andb_true_iff, negb_true_iff.
  intros ((((((((((Hd1 & Hd2) & Hs1) & Hm1) & Hm2) & Hs2)
                 & Hy1) & Hy2) & Hy3) & Hy4) & Hvalid) Hy0.
  apply Ascii.eqb_eq in Hs1, Hs2. subst s1 s2.
  destruct (is_digit_inv d1 Hd1) as (_ & _ & _ & Hb1 & Hc1 & _).
  destruct (is_digit_inv d2 Hd2) as (_ & _ & _ & Hb2 & Hc2 & _).
  destruct (is_digit_inv m1 Hm1) as (_ & _ & _ & Hb3 & Hc3 & _).
  destruct (is_digit_inv m2 Hm2) as (_ & _ & _ & Hb4 & Hc4 & _).
  destruct (is_digit_inv y1 Hy1) as (_ & _ & _ & Hb5 & Hc5 & Hnz).
  destruct (is_digit_inv y2 Hy2) as (_ & _ & _ & Hb6 & Hc6 & _).
  destruct (is_digit_inv y3 Hy3) as (_ & _ & _ & Hb7 & Hc7 & _).
  destruct (is_digit_inv y4 Hy4) as (_ & _ & _ & Hb8 & Hc8 & _).
  specialize (Hnz Hy0).
  eexists. split.
  - unfold string_date_to_date_object.
    cbv [slice substring Nat.sub].
    rewrite int_four_digits, int_two_digits, int_two_digits by assumption.
    cbn [mbind result_bind bind]. unfold date_new. rewrite Hvalid. reflexivity.
  - unfold date_object_to_string_date. cbn [year month day].
    rewrite !zfill_two by lia. rewrite str_four_digits by lia.
    replace ((10 * digit_val d1 + digit_val d2) / 10) with (digit_val d1)
      by div_lia.
    replace ((10 * digit_val d1 + digit_val d2) mod 10) with (digit_val d2)
      by div_lia.
    replace ((10 * digit_val m1 + digit_val m2) / 10) with (digit_val m1)
      by div_lia.
    replace ((10 * digit_val m1 + digit_val m2) mod 10) with (digit_val m2)
      by div_lia.
    set (y := 1000 * digit_val y1 + 100 * digit_val y2
              + 10 * digit_val y3 + digit_val y4).
    replace (y / 1000) with (digit_val y1) by (subst y; div_lia).
    replace (y / 100 mod 10) with (digit_val y2) by (subst y; div_lia).
    replace (y / 10 mod 10) with (digit_val y3) by (subst y; div_lia).
    replace (y mod 10) with (digit_val y4) by (subst y; div_lia).
    rewrite Hc1, Hc2, Hc3, Hc4, Hc5, Hc6, Hc7, Hc8. reflexivity.
Qed.

(** C9 (the code departs from it).  "01/01/0999" is a valid zero-padded
    DD/MM/YYYY string; it is read as the first of January of the year 999,
    and the string of that date is "01/01/999": the day and the month are
    padded to two digits, the year is not padded, so the string does not
    come back. *)
Theorem zero_padded_year_not_restored :
  valid_date_string "01/01/0999" = true
  /\ string_date_to_date_object "01/01/0999" = Ok (mk_date 999 1 1)
  /\ date_object_to_string_date (mk_date 999 1 1) = "01/01/999".
Proof. repeat split; reflexivity. Qed.

End date_conversions.

(** ** C1, C6: what [select_cheapest] keeps *)

Section cheapest.

Import round_trips_finder.

(** Nothing is greater than infinity, and nothing greater than itself. *)
Lemma ltb_infinity (p : float) : (infinity <? p)%float = false.
Proof.
  rewrite ltb_spec. change (Prim2SF infinity) with (S754_infinity false).
  destruct (Prim2SF p) as [s | [] | | s m e]; reflexivity.
Qed.

Lemma ltb_irrefl (p : float) : (p <? p)%float = false.
Proof.
  rewrite ltb_spec. unfold SFltb, SFcompare.
  destruct (Prim2SF p) as [s | [] | | [] m e]; try reflexivity;
    rewrite Z.compare_refl, Pos.compare_cont_refl; reflexivity.
Qed.

Context {K : Type} `{EqDecision K}.

Lemma dict_set_fresh (k : K) (v : float) (d : dict K) :
  k ∉ d.*1 -> dict_set k v d = d ++ [(k, v)].
Proof.
  induction d as [|[k' v'] d IH]; intros Hk; [reflexivity |].
  cbn [dict_set]. rewrite fmap_cons, not_elem_of_cons in Hk.
  destruct Hk as [Hne Hk]. cbn [fst] in Hne.
  change (py_eq k' k) with (bool_decide (k' = k)).
  rewrite bool_decide_eq_false_2 by congruence.
  rewrite IH by assumption. reflexivity.
Qed.

Lemma insert_by_price_perm (x : K * float) (l : list (K * float)) :
  insert_by_price x l ≡ₚ x :: l.
Proof.
  induction l as [|y l IH]; [reflexivity |]. cbn [insert_by_price].
  destruct (y.2 <? x.2)%float; [| reflexivity].
  rewrite IH. apply Permutation_swap.
Qed.

Lemma sorted_by_price_perm (l : list (K * float)) : sorted_by_price l ≡ₚ l.
Proof.
  induction l as [|x l IH]; [reflexivity |].
  cbn [sorted_by_price fold_right]. rewrite insert_by_price_perm.
  apply Permutation_skip, IH.
Qed.

(** Whatever [min_i], [max_price] is infinity or the price at hand, so the
    loop never breaks: with fresh keys every item is appended. *)
Lemma select_loop_all (min_i : nat) (max_price : float)
    (items : list (K * float)) (acc : dict K) :
  NoDup (acc ++ items).*1 ->
  (0%nat = min_i \/ max_price = infinity) ->
  select_loop min_i 0 max_price items acc = acc ++ items.
Proof.
  revert max_price acc.
  induction items as [|[k v] items IH]; intros max_price acc Hnd Hmax.
  - rewrite app_nil_r. reflexivity.
  - cbn [select_loop].
    assert (PrimFloat.ltb (if decide (0%nat = min_i) then v else max_price) v
            = false) as Hkeep.
    { destruct (decide (0%nat = min_i)) as [_ | Hne].
      - apply ltb_irrefl.
      - destruct Hmax as [| ->]; [contradiction | apply ltb_infinity]. }
    rewrite Hkeep.
    assert (k ∉ acc.*1) as Hfresh.
    { rewrite fmap_app, fmap_cons in Hnd. apply NoDup_app in Hnd.
      destruct Hnd as (_ & Hdisj & _). intros Hin.
      apply (Hdisj k Hin). left. }
    rewrite dict_set_fresh by assumption.
    rewrite IH.
    + rewrite <- app_assoc. reflexivity.
    + rewrite <- app_assoc. exact Hnd.
    + destruct (decide (0%nat = min_i)); [left; assumption |].
      right. destruct Hmax; [contradiction | assumption].
Qed.

(** X1.  [select_cheapest] drops nothing: on a dictionary (distinct keys)
    it returns every item, in the order of [sorted], for every [min_i]. *)
Theorem select_cheapest_all (combinations : dict K) (min_i : nat) :
  NoDup combinations.*1 ->
  select_cheapest combinations min_i = sorted_by_price combinations.
Proof.
  intros Hnd. unfold select_cheapest. rewrite select_loop_all.
  - reflexivity.
  - cbn [app]. rewrite (sorted_by_price_perm combinations). exact Hnd.
  - right. reflexivity.
Qed.

End cheapest.

Section cheapest_examples.

Import round_trips_finder.

Lemma select_cheapest_all_witness :
  select_cheapest
    [("D", 20%float); ("A", 10%float); ("C", 15%float); ("B", 10%float)] 1
  = sorted_by_price
      [("D", 20%float); ("A", 10%float); ("C", 15%float); ("B", 10%float)].
Proof.
  apply select_cheapest_all.
  refine (bool_decide_unpack _ _). vm_compute. exact I.
Defined.

(** [sorted] keeps the items of equal price in their order. *)
Example sorted_by_price_stable :
  sorted_by_price
    [("D", 20%float); ("A", 10%float); ("C", 15%float); ("B", 10%float)]
  = [("A", 10%float); ("B", 10%float); ("C", 15%float); ("D", 20%float)].
Proof. vm_compute. reflexivity. Qed.

(** C1 (the code departs from it).  Over A:10, B:10, C:15, D:20 with
    [min_i = 2] the claim expects exactly A:10 and B:10; the loop never
    advances [i], never sets [max_price], and returns all four items,
    C:15 and D:20 included. *)
Theorem select_cheapest_two_keeps_all :
  select_cheapest
    [("A", 10%float); ("B", 10%float); ("C", 15%float); ("D", 20%float)] 2
  = [("A", 10%float); ("B", 10%float); ("C", 15%float); ("D", 20%float)]
  /\ select_cheapest
       [("A", 10%float); ("B", 10%float); ("C", 15%float); ("D", 20%float)] 2
     <> [("A", 10%float); ("B", 10%float)].
Proof. split; [vm_compute; reflexivity | vm_compute; discriminate]. Qed.

(** C6 (the code departs from it).  With [min_i = 0] the claim expects
    only the items priced as the cheapest; since [i] stays 0, every item
    sets [max_price] to its own price and is kept: over A:10, B:15 the
    result holds B:15, priced strictly above the minimum. *)
Theorem select_cheapest_zero_keeps_all :
  select_cheapest [("A", 10%float); ("B", 15%float)] 0
  = [("A", 10%float); ("B", 15%float)]
  /\ (10 <? 15)%float = true.
Proof. split; vm_compute; reflexivity. Qed.

End cheapest_examples.

(** ** C4, C7: planning the services to request *)

Section planning.

Import csv existing_output.

(** The cross product of the station pairs and the travel dates, each
    tagged with the search date. *)
Lemma all_services_elem (station_ods : list (string * string))
    (travel_dates : list string) (search_date : string) (ser : task) :
  ser ∈ all_services station_ods travel_dates search_date
  <-> (ser.1.1.1, ser.1.1.2) ∈ station_ods /\ ser.1.2 ∈ travel_dates
      /\ ser.2 = search_date.
Proof.
  destruct ser as [[[o d] t] sd]. cbn [fst snd]. unfold all_services.
  rewrite list_elem_of_In, in_flat_map. split.
  - intros ([o' d'] & Hod & Hin). apply in_map_iff in Hin.
    destruct Hin as (t' & Heq & Ht). injection Heq as -> -> -> ->.
    rewrite !list_elem_of_In. auto.
  - rewrite !list_elem_of_In. intros (Hod & Ht & ->).
    exists (o, d). split; [assumption |].
    apply in_map_iff. exists t. auto.
Qed.

Lemma all_services_length (station_ods : list (string * string))
    (travel_dates : list string) (search_date : string) :
  length (all_services station_ods travel_dates search_date)
  = (length station_ods * length travel_dates)%nat.
Proof.
  unfold all_services. induction station_ods as [|[o d] ods IH]; [reflexivity |].
  cbn [flat_map]. rewrite length_app, IH, length_map. reflexivity.
Qed.

(** The columns a row dictionary binds are the field names of the header. *)
Lemma zip_row_keys (fieldnames row : list string) :
  (zip_row fieldnames row).*1 = fieldnames.
Proof.
  revert row. induction fieldnames as [|f fieldnames IH]; intros row;
    [reflexivity |].
  destruct row; cbn [zip_row]; rewrite fmap_cons, IH; reflexivity.
Qed.

Lemma dict_of_is_Some (l : list (string * option string)) (k : string) :
  k ∈ l.*1 -> is_Some (dict_of l !! k).
Proof.
  unfold dict_of.
  enough (forall acc : gmap string (option string),
             k ∈ l.*1 \/ is_Some (acc !! k) ->
             is_Some (foldl (fun d kv => <[kv.1 := kv.2]> d) acc l !! k))
    as Hgen by (intros Hk; apply Hgen; left; exact Hk).
  induction l as [|[k' v'] l IH]; intros acc Hk.
  - destruct Hk as [Hk | Hk]; [| exact Hk]. inversion Hk.
  - cbn [foldl fst snd]. apply IH.
    rewrite fmap_cons, elem_of_cons in Hk. cbn [fst] in Hk.
    destruct (decide (k = k')) as [-> | Hne].
    + right. rewrite lookup_insert_eq. eauto.
    + rewrite lookup_insert_ne by congruence.
      destruct Hk as [[Hk | Hk] | Hk]; [contradiction | left | right]; assumption.
Qed.

(** The four columns of the key by which a service counts as requested. *)
Definition key_columns : list string :=
  ["origin_station"; "destination_station"; "travel_date"; "search_date"].

(** The header of the ledger names the key columns (a file without any
    line has no row to read them from). *)
Definition has_key_columns (text : string) : bool :=
  match reader text with
  | [] => true
  | fieldnames :: _ => forallb (fun k => bool_decide (k ∈ fieldnames)) key_columns
  end.

Lemma DictReader_key_columns (text : string) (line : gmap string (option string))
    (k : string) :
  has_key_columns text = true -> line ∈ DictReader text -> k ∈ key_columns ->
  is_Some (line !! k).
Proof.
  unfold has_key_columns, DictReader.
  destruct (reader text) as [|fieldnames rows]; [intros _ Hin; inversion Hin |].
  intros Hcols Hin Hk.
  apply list_elem_of_In, in_map_iff in Hin. destruct Hin as (row & <- & _).
  apply dict_of_is_Some. rewrite zip_row_keys.
  rewrite forallb_forall in Hcols.
  apply list_elem_of_In, Hcols in Hk. apply bool_decide_eq_true in Hk. exact Hk.
Qed.

(** The key a ledger row stands for, when the row binds the key columns. *)
Definition line_key (line : gmap string (option string)) : option row_key :=
  o ← line !! "origin_station";
  d ← line !! "destination_station";
  t ← line !! "travel_date";
  s ← line !! "search_date";
  Some (o, d, t, s).

(** A service is in the ledger when some row carries its origin station,
    destination station, travel date and search date. *)
Definition in_ledger (text : string) (ser : task) : Prop :=
  exists line, line ∈ DictReader text /\ line_key line = Some (task_key ser).

Lemma existing_services_spec (lines : list (gmap string (option string))) :
  (forall line k, line ∈ lines -> k ∈ key_columns -> is_Some (line !! k)) ->
  exists existing : gset row_key,
    existing_services lines = Ok existing
    /\ forall key, key ∈ existing
                   <-> exists line, line ∈ lines /\ line_key line = Some key.
Proof.
  unfold existing_services.
  enough (forall acc : gset row_key,
    (forall line k, line ∈ lines -> k ∈ key_columns -> is_Some (line !! k)) ->
    exists existing : gset row_key,
      Py.for_each lines
        (fun (existing_requested_services : gset row_key) line =>
           o_station ← getitem line "origin_station";
           d_station ← getitem line "destination_station";
           t_date ← getitem line "travel_date";
           s_date ← getitem line "search_date";
           Ok ({[ (o_station, d_station, t_date, s_date) ]}
                 ∪ existing_requested_services)) acc = Ok existing
      /\ forall key, key ∈ existing
            <-> key ∈ acc
                \/ exists line, line ∈ lines /\ line_key line = Some key)
    as Hgen.
  { intros Hcols. destruct (Hgen ∅ Hcols) as (existing & Hrun & Hspec).
    exists existing. split; [exact Hrun |].
    intros key. rewrite Hspec. split; [| right; assumption].
    intros [Hin | Hin]; [| exact Hin]. apply not_elem_of_empty in Hin as []. }
  induction lines as [|line lines IH]; intros acc Hcols.
  - exists acc. split; [reflexivity |]. intros key. split; [auto |].
    intros [Hin | (line & Hin & _)]; [exact Hin | inversion Hin].
  - assert (forall k, k ∈ key_columns -> is_Some (line !! k)) as Hline
      by (intros k; apply Hcols; left).
    destruct (Hline "origin_station") as [o Ho]; [set_solver |].
    destruct (Hline "destination_station") as [d Hd]; [set_solver |].
    destruct (Hline "travel_date") as [t Ht]; [set_solver |].
    destruct (Hline "search_date") as [sd Hs]; [set_solver |].
    cbn [Py.for_each]. unfold getitem at 1 2 3 4. rewrite Ho, Hd, Ht, Hs.
    cbn [mbind result_bind Py.bind].
    destruct (IH ({[ (o, d, t, sd) ]} ∪ acc)) as (existing & Hrun & Hspec).
    { intros line' k Hin. apply Hcols. right. exact Hin. }
    exists existing. split; [exact Hrun |].
    intros key. rewrite Hspec, elem_of_union, elem_of_singleton.
    assert (line_key line = Some (o, d, t, sd)) as Hkey.
    { unfold line_key. rewrite Ho, Hd, Ht, Hs. reflexivity. }
    split.
    + intros [[-> | Hacc] | (line' & Hin & Hk)].
      * right. exists line. split; [left | exact Hkey].
      * left. exact Hacc.
      * right. exists line'. split; [right; exact Hin | exact Hk].
    + intros [Hacc | (line' & Hin & Hk)].
      * left. right. exact Hacc.
      * apply elem_of_cons in Hin. destruct Hin as [-> | Hin].
        -- left. left. congruence.
        -- right. exists line'. split; assumption.
Qed.

(** C4.  With repeat acquisition disabled and an existing ledger (its
    header naming the key columns), planning returns the tasks of the
    cross product of station pairs and travel dates, tagged with the search
    date, whose key no ledger row carries, and none whose key some row
    carries.  With repeat acquisition enabled, or without a ledger file, it
    returns the full cross product. *)
Theorem planning_discards_known_services
    (station_ods : list (string * string)) (travel_dates : list string)
    (search_date output_path : string) (files : fs) :
  (forall text,
      files !! output_path = Some text -> has_key_columns text = true ->
      exists remaining,
        (load_services_to_request station_ods travel_dates search_date
           output_path false files).1 = Ok remaining
        /\ forall ser : task,
             ser ∈ remaining
             <-> ((ser.1.1.1, ser.1.1.2) ∈ station_ods
                  /\ ser.1.2 ∈ travel_dates /\ ser.2 = search_date)
                 /\ ~ in_ledger text ser)
  /\ (forall repeat_services,
        repeat_services = true \/ files !! output_path = None ->
        exists remaining,
          (load_services_to_request station_ods travel_dates search_date
             output_path repeat_services files).1 = Ok remaining
          /\ (forall ser : task,
                ser ∈ remaining
                <-> (ser.1.1.1, ser.1.1.2) ∈ station_ods
                    /\ ser.1.2 ∈ travel_dates /\ ser.2 = search_date)
          /\ length remaining
             = (length station_ods * length travel_dates)%nat).
Proof.
  split.
  - intros text Hfile Hcols.
    unfold load_services_to_request, exists_.
    rewrite bool_decide_eq_true_2 by (rewrite Hfile; eauto).
    cbn [fst]. unfold discard_existing_services, read. rewrite Hfile.
    cbn [mbind result_bind Py.bind].
    destruct (existing_services_spec (DictReader text)) as (existing & -> & Hspec).
    { intros line k. apply DictReader_key_columns. exact Hcols. }
    cbn [Py.bind]. eexists. split; [reflexivity |].
    intros ser. rewrite list_elem_of_filter, all_services_elem, Hspec.
    unfold in_ledger. tauto.
  - intros repeat_services Hcase.
    exists (all_services station_ods travel_dates search_date).
    split; [| split].
    + unfold load_services_to_request, exists_.
      destruct Hcase as [-> | Hnone].
      * destruct (bool_decide _); reflexivity.
      * rewrite bool_decide_eq_false_2; [reflexivity |].
        rewrite Hnone. intros [? ?]. discriminate.
    + apply all_services_elem.
    + apply all_services_length.
Qed.

(** C7.  Without a ledger file, planning creates it holding exactly the
    header line, touches no other file and discards no task; with a ledger
    file, planning leaves the file system as it was. *)
Theorem planning_initializes_ledger
    (station_ods : list (string * string)) (travel_dates : list string)
    (search_date output_path : string) (repeat_services : bool) (files : fs) :
  let planned :=
    load_services_to_request station_ods travel_dates search_date
      output_path repeat_services files in
  (files !! output_path = None ->
     planned.2 !! output_path
     = Some ("origin_station|destination_station|travel_date|departure_time|arrival_time|price|company|search_date|search_time"
             +:+ nl)
     /\ (forall content, planned.2 !! output_path = Some content ->
          file_lines content
          = ["origin_station|destination_station|travel_date|departure_time|arrival_time|price|company|search_date|search_time"]
          /\ DictReader content = [])
     /\ (forall path, path <> output_path -> planned.2 !! path = files !! path)
     /\ planned.1 = Ok (all_services station_ods travel_dates search_date))
  /\ (is_Some (files !! output_path) -> planned.2 = files).
Proof.
  cbv zeta. unfold load_services_to_request, exists_. split.
  - intros Hnone.
    rewrite bool_decide_eq_false_2
      by (rewrite Hnone; intros [? ?]; discriminate).
    cbn [fst snd]. unfold initialize_output_file.
    rewrite lookup_insert_eq. split; [| split; [| split]].
    + reflexivity.
    + intros content [= <-]. split; vm_compute; reflexivity.
    + intros path Hne. apply lookup_insert_ne. congruence.
    + reflexivity.
  - intros Hsome. rewrite bool_decide_eq_true_2 by exact Hsome.
    destruct repeat_services; reflexivity.
Qed.

End planning.

Section planning_examples.

Import csv existing_output.

(** A ledger holding one service, scraped on 30/04/2024. *)
Definition ledger_one_service : string :=
  "origin_station|destination_station|travel_date|departure_time|arrival_time|price|company|search_date|search_time"
  +:+ nl +:+ "MADRID|BARCELONA|01/05/2024|07:05|09:50|9,00 €|AVLO|30/04/2024|10:15"
  +:+ nl.

Lemma planning_discards_known_services_witness :
  (exists remaining,
      (load_services_to_request [("MADRID", "BARCELONA")]
         ["01/05/2024"; "02/05/2024"] "30/04/2024" "out.txt" false
         {[ "out.txt" := ledger_one_service ]}).1 = Ok remaining
      /\ forall ser : task,
           ser ∈ remaining
           <-> ((ser.1.1.1, ser.1.1.2) ∈ [("MADRID", "BARCELONA")]
                /\ ser.1.2 ∈ ["01/05/2024"; "02/05/2024"]
                /\ ser.2 = "30/04/2024")
               /\ ~ in_ledger ledger_one_service ser)
  /\ (exists remaining,
        (load_services_to_request [("MADRID", "BARCELONA")]
           ["01/05/2024"; "02/05/2024"] "30/04/2024" "out.txt" true
           {[ "out.txt" := ledger_one_service ]}).1 = Ok remaining
        /\ (forall ser : task,
              ser ∈ remaining
              <-> (ser.1.1.1, ser.1.1.2) ∈ [("MADRID", "BARCELONA")]
                  /\ ser.1.2 ∈ ["01/05/2024"; "02/05/2024"]
                  /\ ser.2 = "30/04/2024")
        /\ length remaining = (1 * 2)%nat).
Proof.
  split.
  - apply (proj1 (planning_discards_known_services [("MADRID", "BARCELONA")]
                    ["01/05/2024"; "02/05/2024"] "30/04/2024" "out.txt"
                    {[ "out.txt" := ledger_one_service ]})).
    + apply lookup_singleton_eq.
    + vm_compute. reflexivity.
  - apply (proj2 (planning_discards_known_services [("MADRID", "BARCELONA")]
                    ["01/05/2024"; "02/05/2024"] "30/04/2024" "out.txt"
                    {[ "out.txt" := ledger_one_service ]})).
    left. reflexivity.
Defined.

(** On that ledger only the service of 02/05/2024 remains. *)
Example planning_discards_known_services_run :
  (load_services_to_request [("MADRID", "BARCELONA")]
     ["01/05/2024"; "02/05/2024"] "30/04/2024" "out.txt" false
     {[ "out.txt" := ledger_one_service ]}).1
  = Ok [("MADRID", "BARCELONA", "02/05/2024", "30/04/2024")].
Proof. vm_compute. reflexivity. Qed.

Lemma planning_initializes_ledger_witness :
  let planned :=
    load_services_to_request [("MADRID", "BARCELONA")] ["01/05/2024"]
      "30/04/2024" "out.txt" false ∅ in
  planned.2 !! "out.txt"
  = Some ("origin_station|destination_station|travel_date|departure_time|arrival_time|price|company|search_date|search_time"
          +:+ nl)
  /\ planned.1 = Ok [("MADRID", "BARCELONA", "01/05/2024", "30/04/2024")].
Proof.
  pose proof (proj1 (planning_initializes_ledger [("MADRID", "BARCELONA")]
                       ["01/05/2024"] "30/04/2024" "out.txt" false ∅)
                (lookup_empty _)) as (Hheader & _ & _ & Hall).
  split; [exact Hheader | exact Hall].
Defined.

End planning_examples.

(** ** C8: loading the trains of a query from the ledger *)

Section loading.

Import csv round_trips_finder.

Variable float_of_str : string -> option float.
Variables origin_station destination_station : string.
Variable travel_dates : list string.

(** The field of a ledger row: None when the row is too short to have it
    or the header does not name it. *)
Definition field (line : gmap string (option string)) (k : string) : option string :=
  match line !! k with
  | Some v => v
  | None => None
  end.

(** The train a row stands for on the travel date [date]: the row must
    match the stations of the query and the date, the date must be one of
    the travel dates, and the price must be a number once its comma is a
    point and the euro sign is gone. *)
Definition train_of_line (date : string) (line : gmap string (option string))
    : option train :=
  if decide (field line "origin_station" = Some origin_station
             /\ field line "destination_station" = Some destination_station
             /\ field line "travel_date" = Some date
             /\ date ∈ travel_dates)
  then
    price_text ← field line "price";
    price ← float_of_str (Py.replace "€" "" (Py.replace "," "." price_text));
    Some ((field line "departure_time", field line "arrival_time"), price,
          field line "company", date)
  else None.

(** The trains of a date, in the order of the ledger. *)
Definition trains_on (date : string) (lines : list (gmap string (option string)))
    : list train :=
  omap (train_of_line date) lines.

(** The columns [load_trains] reads. *)
Definition load_columns : list string :=
  ["origin_station"; "destination_station"; "travel_date"; "price";
   "departure_time"; "arrival_time"; "company"].

(** A row that matches the query: its stations are the ones asked for and
    its travel date is one of the travel dates. *)
Definition matches_query (line : gmap string (option string)) : Prop :=
  field line "origin_station" = Some origin_station
  /\ field line "destination_station" = Some destination_station
  /\ match field line "travel_date" with
     | Some date => date ∈ travel_dates
     | None => False
     end.

(** A row [load_trains] can read: the header names the columns read, and
    the row, if it matches the query, is long enough to have a price. *)
Definition readable (line : gmap string (option string)) : Prop :=
  Forall (fun k => is_Some (line !! k)) load_columns
  /\ (matches_query line -> is_Some (field line "price")).

#[global] Instance matches_query_dec line : Decision (matches_query line).
Proof.
  unfold matches_query. destruct (field line "travel_date"); apply _.
Defined.

#[global] Instance readable_dec line : Decision (readable line).
Proof. unfold readable. apply _. Defined.

(** A dictionary entry: absent for the empty list. *)
Definition entry (l : list train) : option (list train) :=
  match l with
  | [] => None
  | _ => Some l
  end.

Lemma entry_default (l : list train) : default [] (entry l) = l.
Proof. destruct l; reflexivity. Qed.

Lemma entry_fixed (o : option (list train)) :
  o <> Some [] -> entry (default [] o) = o.
Proof. destruct o as [[|]|]; intros H; try reflexivity. contradiction. Qed.

Lemma entry_not_empty (l : list train) : entry l <> Some [].
Proof. destruct l; discriminate. Qed.

Lemma readable_lookup (line : gmap string (option string)) (k : string) :
  readable line -> k ∈ load_columns ->
  exists v, line !! k = Some v /\ field line k = v.
Proof.
  intros [Hcols _] Hk. rewrite Forall_forall in Hcols.
  destruct (Hcols k Hk) as [v Hv]. exists v.
  unfold field. rewrite Hv. auto.
Qed.

Lemma load_line_spec (trains : gmap string (list train))
    (line : gmap string (option string)) :
  readable line -> (forall date, trains !! date <> Some []) ->
  exists trains',
    load_line float_of_str origin_station destination_station travel_dates
      trains line = Ok trains'
    /\ forall date,
         trains' !! date
         = entry (default [] (trains !! date)
                  ++ option_list (train_of_line date line)).
Proof.
  intros Hread Hne.
  assert (forall date, train_of_line date line = None ->
                       trains !! date
                       = entry (default [] (trains !! date)
                                ++ option_list (train_of_line date line)))
    as Hsame.
  { intros date ->. cbn [option_list]. rewrite app_nil_r, entry_fixed; auto. }
  destruct (readable_lookup line "origin_station" Hread) as (o & Ho & Fo);
    [set_solver |].
  destruct (readable_lookup line "destination_station" Hread) as (d & Hd & Fd);
    [set_solver |].
  destruct (readable_lookup line "travel_date" Hread) as (td & Ht & Ft);
    [set_solver |].
  destruct (readable_lookup line "price" Hread) as (pt & Hp & Fp);
    [set_solver |].
  destruct (readable_lookup line "departure_time" Hread) as (dep & Hdep & Fdep);
    [set_solver |].
  destruct (readable_lookup line "arrival_time" Hread) as (arr & Harr & Farr);
    [set_solver |].
  destruct (readable_lookup line "company" Hread) as (co & Hco & Fco);
    [set_solver |].
  destruct Hread as [_ Hpriced]. unfold matches_query in Hpriced.
  rewrite Fo, Fd, Ft, Fp in Hpriced.
  unfold load_line, getitem. rewrite Ho, Hd, Ht, Hp, Hdep, Harr, Hco.
  cbn [mbind result_bind Py.bind].
  assert (forall date,
             ~ (o = Some origin_station /\ d = Some destination_station
                /\ td = Some date /\ date ∈ travel_dates) ->
             train_of_line date line = None) as Hskip.
  { intros date Hno. unfold train_of_line. rewrite Fo, Fd, Ft.
    destruct (decide _) as [Hyes | _]; [contradiction | reflexivity]. }
  destruct (decide (o ≠ Some origin_station)) as [Hno | ->%dec_stable].
  { exists trains. split; [reflexivity |]. intros date. apply Hsame, Hskip.
    intros (Heq & _). contradiction. }
  destruct (decide (d ≠ Some destination_station)) as [Hnd | ->%dec_stable].
  { exists trains. split; [reflexivity |]. intros date. apply Hsame, Hskip.
    intros (_ & Heq & _). contradiction. }
  destruct td as [td|].
  2:{ exists trains. split; [reflexivity |]. intros date. apply Hsame, Hskip.
      intros (_ & _ & Heq & _). discriminate Heq. }
  destruct (decide (td ∉ travel_dates)) as [Hout | Hin%dec_stable].
  { exists trains. split; [reflexivity |]. intros date. apply Hsame, Hskip.
    intros (_ & _ & [= ->] & Hin). contradiction. }
  assert (forall date, date <> td -> train_of_line date line = None) as Hother.
  { intros date Hne'. apply Hskip. intros (_ & _ & [= ->] & _). contradiction. }
  destruct (Hpriced (conj eq_refl (conj eq_refl Hin))) as [price_text ->].
  destruct (float_of_str (Py.replace "€" "" (Py.replace "," "." price_text)))
    as [price|] eqn:Hprice.
  - eexists. split; [reflexivity |]. intros date.
    destruct (decide (date = td)) as [-> | Hne'].
    + rewrite lookup_insert_eq. unfold train_of_line.
      rewrite Fo, Fd, Ft, Fp, Fdep, Farr, Fco. rewrite decide_True by auto.
      cbn [mbind option_bind]. rewrite Hprice. cbn [option_list].
      destruct (default [] (trains !! td)); reflexivity.
    + rewrite lookup_insert_ne by congruence. apply Hsame, Hother, Hne'.
  - exists trains. split; [reflexivity |]. intros date. apply Hsame.
    unfold train_of_line. rewrite Fo, Fd, Ft, Fp.
    destruct (decide _); [| reflexivity].
    cbn [mbind option_bind]. rewrite Hprice. reflexivity.
Qed.

Lemma load_lines_spec (lines : list (gmap string (option string)))
    (trains : gmap string (list train)) :
  Forall readable lines -> (forall date, trains !! date <> Some []) ->
  exists trains',
    Py.for_each lines
      (load_line float_of_str origin_station destination_station travel_dates)
      trains = Ok trains'
    /\ forall date,
         trains' !! date
         = entry (default [] (trains !! date) ++ trains_on date lines).
Proof.
  revert trains. induction lines as [|line lines IH]; intros trains Hfull Hne.
  - exists trains. split; [reflexivity |]. intros date.
    unfold trains_on. cbn [omap list_omap]. rewrite app_nil_r, entry_fixed; auto.
  - apply Forall_cons in Hfull. destruct Hfull as [Hline Hfull].
    destruct (load_line_spec trains line Hline Hne) as (trains1 & Hrun1 & Hspec1).
    destruct (IH trains1 Hfull) as (trains2 & Hrun2 & Hspec2).
    { intros date. rewrite Hspec1. apply entry_not_empty. }
    exists trains2. split.
    + cbn [Py.for_each]. rewrite Hrun1. exact Hrun2.
    + intros date. rewrite Hspec2, Hspec1, entry_default, <- app_assoc.
      f_equal. f_equal. unfold trains_on. cbn [omap list_omap].
      destruct (train_of_line date line); reflexivity.
Qed.

(** C8, amended.  On a ledger whose header names the columns read and
    whose rows matching the query are long enough to have a price,
    [load_trains] returns, for every date, the trains of the rows that
    match the origin station, the destination station and that date (one
    of the travel dates) and whose price is a number once the comma is a
    point and the euro sign is removed, in ledger order; a date without
    such a row is not in the mapping.  A row whose price is not a number is
    skipped and raises nothing. *)
Theorem load_trains_filters_ledger (input_path : string) (files : fs)
    (text : string) :
  files !! input_path = Some text ->
  Forall readable (DictReader text) ->
  exists trains,
    load_trains float_of_str input_path origin_station destination_station
      travel_dates files = Ok trains
    /\ forall date,
         trains !! date = entry (trains_on date (DictReader text)).
Proof.
  intros Hfile Hfull. unfold load_trains, read. rewrite Hfile.
  cbn [mbind result_bind Py.bind].
  destruct (load_lines_spec (DictReader text) ∅ Hfull) as (trains & Hrun & Hspec).
  { intros date. rewrite lookup_empty. discriminate. }
  exists trains. split; [exact Hrun |].
  intros date. rewrite Hspec, lookup_empty. reflexivity.
Qed.

End loading.

Section loading_examples.

Import csv round_trips_finder.

(** A parser of plain decimals (digits, or digits around one point), which
    stands for [float] in the examples below: on these texts it returns the
    float that Python returns. *)
Definition decimal_float (s : string) : option float :=
  let digits (t : string) : option Z :=
    if forallb Py.is_digit (list_ascii_of_string t)
    then Py.digits_value false 0 t else None in
  let to_float (n : Z) : float := PrimFloat.of_uint63 (Uint63.of_Z n) in
  match Py.split "." (Py.strip s) with
  | [whole] => n ← digits whole; Some (to_float n)
  | [whole; frac] =>
      n ← digits (whole +:+ frac);
      Some (to_float n / to_float (10 ^ Z.of_nat (String.length frac)))%float
  | _ => None
  end.

(** Three services from Madrid to Barcelona: one priced, one sold out, one
    on a date outside the query. *)
Definition ledger_three_services : string :=
  "origin_station|destination_station|travel_date|departure_time|arrival_time|price|company|search_date|search_time"
  +:+ nl +:+ "MADRID|BARCELONA|01/05/2024|07:05|09:50|9,50 €|AVLO|30/04/2024|10:15"
  +:+ nl +:+ "MADRID|BARCELONA|01/05/2024|12:05|14:50|COMPLETO|AVLO|30/04/2024|10:15"
  +:+ nl +:+ "MADRID|BARCELONA|09/05/2024|07:05|09:50|7,00 €|AVLO|30/04/2024|10:15"
  +:+ nl.

Lemma load_trains_filters_ledger_witness :
  exists trains,
    load_trains decimal_float "in.txt" "MADRID" "BARCELONA"
      ["01/05/2024"; "02/05/2024"] {[ "in.txt" := ledger_three_services ]}
    = Ok trains
    /\ forall date,
         trains !! date
         = entry (trains_on decimal_float "MADRID" "BARCELONA"
                    ["01/05/2024"; "02/05/2024"] date
                    (DictReader ledger_three_services)).
Proof.
  apply (load_trains_filters_ledger decimal_float "MADRID" "BARCELONA"
           ["01/05/2024"; "02/05/2024"] "in.txt"
           {[ "in.txt" := ledger_three_services ]} ledger_three_services).
  - apply lookup_singleton_eq.
  - refine (bool_decide_unpack _ _). vm_compute. exact I.
Defined.

(** The sold-out service is skipped, the priced one is loaded. *)
Example load_trains_skips_text_price :
  load_trains decimal_float "in.txt" "MADRID" "BARCELONA"
    ["01/05/2024"; "02/05/2024"] {[ "in.txt" := ledger_three_services ]}
  = Ok {[ "01/05/2024" :=
            [((Some "07:05", Some "09:50"), 9.5%float, Some "AVLO",
              "01/05/2024")] ]}.
Proof. vm_compute. reflexivity. Qed.

(** A ledger whose last line was cut after the travel date. *)
Definition ledger_cut_line : string :=
  "origin_station|destination_station|travel_date|departure_time|arrival_time|price|company|search_date|search_time"
  +:+ nl +:+ "MADRID|BARCELONA|01/05/2024|07:05|09:50|9,50 €|AVLO|30/04/2024|10:15"
  +:+ nl +:+ "MADRID|BARCELONA|01/05/2024".

(** C8 as stated fails: the claim covers every ledger content and promises
    that a price which is not a number never makes the run fail.  The row
    cut after its travel date matches the query and has no price at all
    (DictReader gives None), and [load_trains] raises AttributeError on it
    instead of skipping it. *)
Lemma load_trains_cut_line_raises :
  load_trains decimal_float "in.txt" "MADRID" "BARCELONA" ["01/05/2024"]
    {[ "in.txt" := ledger_cut_line ]}
  = Raise AttributeError.
Proof. vm_compute. reflexivity. Qed.

End loading_examples.

(** ** C5: the possible round trips *)

Section dictionaries.

Import round_trips_finder.

Context {K : Type} `{PyEq K}.

(** Setting a key updates the first key of the dictionary that is equal
    to it, or appends the key when the dictionary has none. *)
Lemma dict_set_cases (k : K) (v : float) (d : dict K) :
  (exists d1 k0 v0 d2,
      d = d1 ++ (k0, v0) :: d2
      /\ py_eq k0 k = true
      /\ dict_set k v d = d1 ++ (k0, v) :: d2)
  \/ (Forall (fun kv => py_eq kv.1 k = false) d
      /\ dict_set k v d = d ++ [(k, v)]).
Proof.
  induction d as [|[k' v'] d IH].
  - right. split; [constructor | reflexivity].
  - cbn [dict_set]. destruct (py_eq k' k) eqn:Hk.
    + left. exists [], k', v', d. auto.
    + destruct IH as [(d1 & k0 & v0 & d2 & -> & Hk0 & ->) | [Hall ->]].
      * left. exists ((k', v') :: d1), k0, v0, d2. auto.
      * right. split; [constructor; [exact Hk | exact Hall] | reflexivity].
Qed.

(** No key of the dictionary is equal to a key that comes after it. *)
Definition distinct_keys (d : dict K) : Prop :=
  forall i j ki kj,
    (i < j)%nat -> d.*1 !! i = Some ki -> d.*1 !! j = Some kj ->
    py_eq ki kj = false.

Lemma distinct_keys_nil : distinct_keys [].
Proof. intros i j ki kj _ Hi. inversion Hi. Qed.

Lemma distinct_keys_snoc (k : K) (v : float) (d : dict K) :
  distinct_keys d -> Forall (fun kv => py_eq kv.1 k = false) d ->
  distinct_keys (d ++ [(k, v)]).
Proof.
  intros Hd Hall i j ki kj Hlt Hi Hj.
  rewrite fmap_app in Hi, Hj. cbn [fmap list_fmap fst] in Hi, Hj.
  destruct (decide (j < length d.*1)%nat) as [Hin | Hout].
  - rewrite lookup_app_l in Hi, Hj by lia. apply (Hd i j ki kj Hlt Hi Hj).
  - rewrite lookup_app_r in Hj by lia.
    destruct (j - length d.*1)%nat as [|n] eqn:Hn; [| inversion Hj].
    injection Hj as <-.
    rewrite lookup_app_l in Hi by lia.
    apply list_elem_of_lookup_2, list_elem_of_fmap in Hi.
    destruct Hi as (kv & -> & Hkv).
    rewrite Forall_forall in Hall. apply Hall, Hkv.
Qed.

End dictionaries.

Section combinations.

Import round_trips_finder.

(** The price of a pair: the sum of the prices of its two trains. *)
Definition price_of (key : train * train) : float :=
  (train_price key.1 + train_price key.2)%float.

(** The key [stored] stands for the pair [key]: it is the pair, or a pair
    stored before it that is equal to it as a dictionary key. *)
Definition same_key (stored key : train * train) : Prop :=
  stored = key \/ py_eq stored key = true.

(** [combinations] holds the pairs of [R]: its keys are pairs of [R], each
    priced as a pair of [R] that it stands for, no key is equal to a later
    one, and every pair of [R] has a key that stands for it. *)
Definition holds (R : train * train -> Prop) (combinations : dict (train * train))
    : Prop :=
  distinct_keys combinations
  /\ (forall key p,
        (key, p) ∈ combinations ->
        R key /\ exists key', R key' /\ same_key key key' /\ p = price_of key')
  /\ (forall key', R key' ->
        exists key p, (key, p) ∈ combinations /\ same_key key key').

Lemma holds_equiv (R R' : train * train -> Prop) (d : dict (train * train)) :
  (forall key, R key <-> R' key) -> holds R d -> holds R' d.
Proof.
  intros Heq (Hdist & Hin & Hcov). split; [exact Hdist |]. split.
  - intros key p Hel. destruct (Hin key p Hel) as (HR & key' & HR' & Hs & Hp).
    split; [apply Heq, HR |]. exists key'. split; [apply Heq, HR' | auto].
  - intros key' HR'. apply Hcov, Heq, HR'.
Qed.

Lemma holds_set (R : train * train -> Prop) (d : dict (train * train))
    (key : train * train) :
  holds R d -> holds (fun key' => R key' \/ key' = key)
                 (dict_set key (price_of key) d).
Proof.
  intros (Hdist & Hin & Hcov).
  destruct (dict_set_cases key (price_of key) d)
    as [(d1 & k0 & v0 & d2 & -> & Hk0 & ->) | [Hall ->]].
  - assert (forall key1 p, (key1, p) ∈ d1 ++ (k0, price_of key) :: d2 ->
              (key1, p) ∈ d1 ++ (k0, v0) :: d2
              \/ (key1 = k0 /\ p = price_of key)) as Hnew.
    { intros key1 p. rewrite !elem_of_app, !elem_of_cons.
      intros [Hel | [[= -> ->] | Hel]]; auto. }
    assert (forall key1 p, (key1, p) ∈ d1 ++ (k0, v0) :: d2 ->
              exists p', (key1, p') ∈ d1 ++ (k0, price_of key) :: d2) as Hold.
    { intros key1 p. rewrite elem_of_app, elem_of_cons.
      intros [Hel | [[= -> ->] | Hel]];
        eexists; rewrite elem_of_app, elem_of_cons; eauto. }
    assert (R k0) as HR0.
    { apply (Hin k0 v0). rewrite elem_of_app, elem_of_cons. auto. }
    split; [| split].
    + intros i j ki kj. rewrite fmap_app, fmap_cons. cbn [fst].
      specialize (Hdist i j ki kj). rewrite fmap_app, fmap_cons in Hdist.
      exact Hdist.
    + intros key1 p Hel. destruct (Hnew key1 p Hel) as [Hel' | [-> ->]].
      * destruct (Hin key1 p Hel') as (HR & key' & HR' & Hs & Hp).
        split; [auto |]. exists key'. auto.
      * split; [auto |]. exists key. split; [auto |].
        split; [right; exact Hk0 | reflexivity].
    + intros key' [HR | ->].
      * destruct (Hcov key' HR) as (key1 & p & Hel & Hs).
        destruct (Hold key1 p Hel) as [p' Hel']. eauto.
      * exists k0, (price_of key). split; [| right; exact Hk0].
        rewrite elem_of_app, elem_of_cons. auto.
  - split; [| split].
    + apply distinct_keys_snoc; assumption.
    + intros key1 p. rewrite elem_of_app, list_elem_of_singleton.
      intros [Hel | [= -> ->]].
      * destruct (Hin key1 p Hel) as (HR & key' & HR' & Hs & Hp).
        split; [auto |]. exists key'. auto.
      * split; [auto |]. exists key. split; [auto |].
        split; [left; reflexivity | reflexivity].
    + intros key' [HR | ->].
      * destruct (Hcov key' HR) as (key1 & p & Hel & Hs).
        exists key1, p. split; [apply elem_of_app; auto | exact Hs].
      * exists key, (price_of key). split; [| left; reflexivity].
        apply elem_of_app. right. apply list_elem_of_singleton. reflexivity.
Qed.

(** A loop whose body adds the pairs [Q a] for the element [a] adds the
    pairs of all the elements. *)
Lemma holds_fold_left {A : Type}
    (f : dict (train * train) -> A -> dict (train * train))
    (Q : A -> train * train -> Prop) (l : list A) :
  (forall R d a, holds R d -> holds (fun key => R key \/ Q a key) (f d a)) ->
  forall R d, holds R d ->
    holds (fun key => R key \/ exists a, a ∈ l /\ Q a key) (fold_left f l d).
Proof.
  intros Hbody. induction l as [|a l IH]; intros R d Hd.
  - cbn [fold_left]. revert Hd. apply holds_equiv. intros key. split; [auto |].
    intros [HR | (a & Hin & _)]; [exact HR | inversion Hin].
  - cbn [fold_left]. specialize (IH _ _ (Hbody R d a Hd)).
    revert IH. apply holds_equiv. intros key. split.
    + intros [[HR | HQ] | (a' & Hin & HQ)]; [auto | |].
      * right. exists a. split; [left | exact HQ].
      * right. exists a'. split; [right; exact Hin | exact HQ].
    + intros [HR | (a' & Hin & HQ)]; [auto |].
      apply elem_of_cons in Hin. destruct Hin as [-> | Hin]; [auto |].
      right. exists a'. auto.
Qed.

Lemma holds_for_each {A : Type}
    (body : dict (train * train) -> A -> result (dict (train * train)))
    (Q : A -> train * train -> Prop) (l : list A) :
  (forall R d a, a ∈ l -> holds R d ->
     exists d', body d a = Ok d' /\ holds (fun key => R key \/ Q a key) d') ->
  forall R d, holds R d ->
    exists d', Py.for_each l body d = Ok d'
               /\ holds (fun key => R key \/ exists a, a ∈ l /\ Q a key) d'.
Proof.
  induction l as [|a l IH]; intros Hbody R d Hd.
  - exists d. split; [reflexivity |].
    revert Hd. apply holds_equiv. intros key. split; [auto |].
    intros [HR | (a & Hin & _)]; [exact HR | inversion Hin].
  - destruct (Hbody R d a ltac:(left) Hd) as (d1 & Hrun1 & Hd1).
    destruct (IH (fun R d a' Hin => Hbody R d a' ltac:(right; exact Hin))
                _ _ Hd1) as (d2 & Hrun2 & Hd2).
    exists d2. split; [cbn [Py.for_each]; rewrite Hrun1; exact Hrun2 |].
    revert Hd2. apply holds_equiv. intros key. split.
    + intros [[HR | HQ] | (a' & Hin & HQ)]; [auto | |].
      * right. exists a. split; [left | exact HQ].
      * right. exists a'. split; [right; exact Hin | exact HQ].
    + intros [HR | (a' & Hin & HQ)]; [auto |].
      apply elem_of_cons in Hin. destruct Hin as [-> | Hin]; [auto |].
      right. exists a'. auto.
Qed.

Lemma holds_add_combinations (R : train * train -> Prop)
    (go_trains return_trains : list train) (d : dict (train * train)) :
  holds R d ->
  holds (fun key => R key \/ (key.1 ∈ go_trains /\ key.2 ∈ return_trains))
    (add_combinations go_trains return_trains d).
Proof.
  intros Hd. unfold add_combinations.
  pose proof (holds_fold_left
    (fun combinations go_train =>
       fold_left
         (fun combinations return_train =>
            let total_price :=
              (train_price go_train + train_price return_train)%float in
            dict_set (go_train, return_train) total_price combinations)
         return_trains combinations)
    (fun g key => key.1 = g /\ key.2 ∈ return_trains) go_trains) as Houter.
  cbv zeta in Houter. eapply holds_equiv; [| apply Houter; [| exact Hd]].
  - intros key. split.
    + intros [HR | (g & Hg & <- & Hr)]; auto.
    + intros [HR | [Hg Hr]]; [auto |]. right. exists key.1. auto.
  - clear R d Hd Houter. intros R d g Hd.
    pose proof (holds_fold_left
      (fun combinations return_train =>
         dict_set (g, return_train)
           (train_price g + train_price return_train)%float combinations)
      (fun r key => key = (g, r)) return_trains) as Hinner.
    eapply holds_equiv; [| apply Hinner; [| exact Hd]].
    + intros [g' r']. cbn [fst snd]. split.
      * intros [HR | (r & Hr & [= -> ->])]; auto.
      * intros [HR | [-> Hr]]; [auto |]. right. exists r'. auto.
    + clear. intros R d r Hd. apply (holds_set R d (g, r) Hd).
Qed.

Lemma holds_nothing (R : train * train -> Prop) (d : dict (train * train)) :
  holds R d -> (forall key, ~ R key) -> d = [].
Proof.
  intros (_ & Hin & _) Hno. destruct d as [|[key p] d]; [reflexivity |].
  exfalso. apply (Hno key). apply (Hin key p). left.
Qed.

(** A round trip: a go train of a travel date and a return train of the
    date a configured number of days later, itself a travel date. *)
Definition round_trip (available_go_trains available_return_trains
    : gmap string (list train)) (travel_dates : list string)
    (trip_days : list Z) (key : train * train) : Prop :=
  exists go_date t_day return_date go_trains return_trains,
    go_date ∈ travel_dates
    /\ available_go_trains !! go_date = Some go_trains
    /\ key.1 ∈ go_trains
    /\ t_day ∈ trip_days
    /\ dates.add_days_to_date go_date t_day = Ok return_date
    /\ return_date ∈ travel_dates
    /\ available_return_trains !! return_date = Some return_trains
    /\ key.2 ∈ return_trains.

Lemma possible_train_combinations_spec
    (available_go_trains available_return_trains : gmap string (list train))
    (travel_dates : list string) (trip_days : list Z) :
  (forall go_date t_day,
      go_date ∈ travel_dates -> is_Some (available_go_trains !! go_date) ->
      t_day ∈ trip_days ->
      exists return_date, dates.add_days_to_date go_date t_day = Ok return_date) ->
  exists combinations,
    possible_train_combinations available_go_trains available_return_trains
      travel_dates trip_days = Ok combinations
    /\ holds (round_trip available_go_trains available_return_trains
                travel_dates trip_days) combinations.
Proof.
  intros Hdates. unfold possible_train_combinations.
  set (Qt := fun (go_date : string) (go_trains : list train) (t_day : Z)
                 (key : train * train) =>
               exists return_date return_trains,
                 dates.add_days_to_date go_date t_day = Ok return_date
                 /\ return_date ∈ travel_dates
                 /\ available_return_trains !! return_date = Some return_trains
                 /\ key.1 ∈ go_trains /\ key.2 ∈ return_trains).
  set (Qd := fun (go_date : string) (key : train * train) =>
               exists go_trains,
                 available_go_trains !! go_date = Some go_trains
                 /\ exists t_day, t_day ∈ trip_days
                                  /\ Qt go_date go_trains t_day key).
  match goal with
  | |- exists c, Py.for_each _ ?body _ = _ /\ _ =>
      destruct (holds_for_each body Qd travel_dates) with (R := fun _ : train * train => False) (d := @nil (train * train * float))
        as (combinations & Hrun & Hholds)
  end.
  - intros R d go_date Hin Hd.
    destruct (available_go_trains !! go_date) as [go_trains|] eqn:Hgo.
    + match goal with
      | |- exists c, Py.for_each _ ?body _ = _ /\ _ =>
          destruct (holds_for_each body (Qt go_date go_trains) trip_days)
            with (R := R) (d := d) as (d' & Hrun & Hd')
      end.
      * intros R' d0 t_day Ht Hd0.
        destruct (Hdates go_date t_day Hin ltac:(rewrite Hgo; eauto) Ht)
          as (return_date & Hadd).
        rewrite Hadd. cbn [mbind result_bind Py.bind].
        assert (return_date ∉ travel_dates
                \/ available_return_trains !! return_date = None ->
                forall key, ~ Qt go_date go_trains t_day key) as Hno.
        { intros Hcase key (rd & rl & Hadd' & Hrd & Hret & _).
          rewrite Hadd in Hadd'. injection Hadd' as <-.
          destruct Hcase as [Hout | Hnone]; [contradiction | congruence]. }
        destruct (decide (return_date ∉ travel_dates)) as [Hout | Hrd%dec_stable].
        { exists d0. split; [reflexivity |]. revert Hd0. apply holds_equiv.
          intros key. split; [auto |]. intros [HR | HQ]; [exact HR |].
          exfalso. apply (Hno (or_introl Hout) key HQ). }
        destruct (available_return_trains !! return_date)
          as [return_trains|] eqn:Hret.
        -- eexists. split; [reflexivity |].
           eapply holds_equiv;
             [| apply (holds_add_combinations R' go_trains return_trains d0 Hd0)].
           intros key. split.
           ++ intros [HR | [Hg Hr]]; [auto |]. right.
              exists return_date, return_trains. auto.
           ++ intros [HR | (rd & rl & Hadd' & _ & Hret' & Hg & Hr)]; [auto |].
              rewrite Hadd in Hadd'. injection Hadd' as <-.
              rewrite Hret in Hret'. injection Hret' as <-. auto.
        -- exists d0. split; [reflexivity |]. revert Hd0. apply holds_equiv.
           intros key. split; [auto |]. intros [HR | HQ]; [exact HR |].
           exfalso. apply (Hno (or_intror eq_refl) key HQ).
      * exact Hd.
      * exists d'. split; [exact Hrun |]. revert Hd'. apply holds_equiv.
        intros key. split.
        -- intros [HR | (t_day & Ht & HQ)]; [auto |]. right.
           exists go_trains. split; [exact Hgo |]. exists t_day. auto.
        -- intros [HR | (gl & Hgl & t_day & Ht & HQ)]; [auto |].
           rewrite Hgo in Hgl. injection Hgl as <-.
           right. exists t_day. auto.
    + exists d. split; [reflexivity |]. revert Hd. apply holds_equiv.
      intros key. split; [auto |].
      intros [HR | (gl & Hgl & _)]; [exact HR | congruence].
  - split; [apply distinct_keys_nil |]. split.
    + intros key p Hin. inversion Hin.
    + intros key [].
  - exists combinations. split; [exact Hrun |].
    revert Hholds. apply holds_equiv. intros key. unfold round_trip. split.
    + intros [[] | (go_date & Hin & gl & Hgo & t_day & Ht & rd & rl
                              & Hadd & Hrd & Hret & Hg & Hr)].
      exists go_date, t_day, rd, gl, rl. auto 10.
    + intros (go_date & t_day & rd & gl & rl & Hin & Hgo & Hg & Ht & Hadd
              & Hrd & Hret & Hr).
      right. exists go_date. split; [exact Hin |]. exists gl. split; [exact Hgo |].
      exists t_day. split; [exact Ht |]. exists rd, rl. auto.
Qed.

End combinations.

Section combinations_claim.

Import round_trips_finder.

Lemma may_first_plus_three :
  dates.add_days_to_date "01/05/2024" 3 = Ok "04/05/2024".
Proof. vm_compute. reflexivity. Qed.

Lemma may_first_plus_four :
  dates.add_days_to_date "01/05/2024" 4 = Ok "05/05/2024".
Proof. vm_compute. reflexivity. Qed.

(** C5 (as amended).  When every date addition of the loop gives a date,
    [possible_train_combinations] returns a dictionary that holds a pair
    (g, r) exactly when g is a go train of a travel date d and r a return
    train of a travel date d + t for a configured trip length t.  Pairs
    that are equal as dictionary keys are one entry: every key is such a
    pair, priced with the sum of the two prices of such a pair that it
    stands for, no key is equal to a later one, and every such pair has a
    key that stands for it.  With go trains only on 01/05/2024 and return
    trains only on 05/05/2024, the trip length 3 gives no pair and the
    trip length 4 gives every go train with every return train. *)
Theorem possible_train_combinations_characterized :
  (forall (available_go_trains available_return_trains : gmap string (list train))
          (travel_dates : list string) (trip_days : list Z),
      (forall go_date t_day,
          go_date ∈ travel_dates -> is_Some (available_go_trains !! go_date) ->
          t_day ∈ trip_days ->
          exists return_date,
            dates.add_days_to_date go_date t_day = Ok return_date) ->
      exists combinations,
        possible_train_combinations available_go_trains available_return_trains
          travel_dates trip_days = Ok combinations
        /\ distinct_keys combinations
        /\ (forall g r p,
              (g, r, p) ∈ combinations ->
              round_trip available_go_trains available_return_trains
                travel_dates trip_days (g, r)
              /\ exists g' r',
                   round_trip available_go_trains available_return_trains
                     travel_dates trip_days (g', r')
                   /\ same_key (g, r) (g', r')
                   /\ p = (train_price g' + train_price r')%float)
        /\ (forall g r,
              round_trip available_go_trains available_return_trains
                travel_dates trip_days (g, r) ->
              exists g0 r0 p,
                (g0, r0, p) ∈ combinations /\ same_key (g0, r0) (g, r)))
  /\ (forall (travel_dates : list string) (go_trains return_trains : list train),
        possible_train_combinations {[ "01/05/2024" := go_trains ]}
          {[ "05/05/2024" := return_trains ]} travel_dates [3] = Ok [])
  /\ (forall (travel_dates : list string) (go_trains return_trains : list train),
        "01/05/2024" ∈ travel_dates -> "05/05/2024" ∈ travel_dates ->
        exists combinations,
          possible_train_combinations {[ "01/05/2024" := go_trains ]}
            {[ "05/05/2024" := return_trains ]} travel_dates [4]
          = Ok combinations
          /\ distinct_keys combinations
          /\ (forall g r p,
                (g, r, p) ∈ combinations ->
                g ∈ go_trains /\ r ∈ return_trains
                /\ exists g' r',
                     g' ∈ go_trains /\ r' ∈ return_trains
                     /\ same_key (g, r) (g', r')
                     /\ p = (train_price g' + train_price r')%float)
          /\ (forall g r,
                g ∈ go_trains -> r ∈ return_trains ->
                exists g0 r0 p,
                  (g0, r0, p) ∈ combinations /\ same_key (g0, r0) (g, r))).
Proof.
  split; [| split].
  - intros go ret travel_dates trip_days Hdates.
    destruct (possible_train_combinations_spec go ret travel_dates trip_days
                Hdates) as (combinations & Hrun & Hdist & Hin & Hcov).
    exists combinations. split; [exact Hrun |]. split; [exact Hdist |]. split.
    + intros g r p Hel.
      destruct (Hin (g, r) p Hel) as (HR & [g' r'] & HR' & Hs & Hp).
      split; [exact HR |]. exists g', r'. auto.
    + intros g r HR. destruct (Hcov (g, r) HR) as ([g0 r0] & p & Hel & Hs).
      exists g0, r0, p. auto.
  - intros travel_dates gl rl.
    destruct (possible_train_combinations_spec {[ "01/05/2024" := gl ]}
                {[ "05/05/2024" := rl ]} travel_dates [3])
      as (combinations & Hrun & Hholds).
    { intros d t _ [gl' Hgo] Ht. apply lookup_singleton_Some in Hgo as [<- _].
      apply list_elem_of_singleton in Ht as ->. eexists.
      apply may_first_plus_three. }
    rewrite Hrun. f_equal. apply (holds_nothing _ _ Hholds).
    intros key (d & t & rd & gl' & rl' & _ & Hgo & _ & Ht & Hadd & _ & Hret & _).
    apply lookup_singleton_Some in Hgo as [<- _].
    apply list_elem_of_singleton in Ht as ->.
    rewrite may_first_plus_three in Hadd. injection Hadd as <-.
    apply lookup_singleton_Some in Hret as [Heq _]. discriminate Heq.
  - intros travel_dates gl rl Hfirst Hfifth.
    destruct (possible_train_combinations_spec {[ "01/05/2024" := gl ]}
                {[ "05/05/2024" := rl ]} travel_dates [4])
      as (combinations & Hrun & Hdist & Hin & Hcov).
    { intros d t _ [gl' Hgo] Ht. apply lookup_singleton_Some in Hgo as [<- _].
      apply list_elem_of_singleton in Ht as ->. eexists.
      apply may_first_plus_four. }
    assert (forall g r,
              round_trip {[ "01/05/2024" := gl ]} {[ "05/05/2024" := rl ]}
                travel_dates [4] (g, r)
              <-> g ∈ gl /\ r ∈ rl) as Htrip.
    { intros g r. unfold round_trip. cbn [fst snd]. split.
      - intros (d & t & rd & gl' & rl' & _ & Hgo & Hg & Ht & Hadd & _
                & Hret & Hr).
        apply lookup_singleton_Some in Hgo as [<- <-].
        apply list_elem_of_singleton in Ht as ->.
        rewrite may_first_plus_four in Hadd. injection Hadd as <-.
        apply lookup_singleton_Some in Hret as [_ <-]. auto.
      - intros (Hg & Hr).
        exists "01/05/2024", 4, "05/05/2024", gl, rl.
        split; [exact Hfirst |]. split; [apply lookup_singleton_eq |].
        split; [exact Hg |]. split; [apply list_elem_of_singleton; reflexivity |].
        split; [apply may_first_plus_four |]. split; [exact Hfifth |].
        split; [apply lookup_singleton_eq | exact Hr]. }
    exists combinations. split; [exact Hrun |]. split; [exact Hdist |]. split.
    + intros g r p Hel.
      destruct (Hin (g, r) p Hel) as (HR & [g' r'] & HR' & Hs & Hp).
      apply Htrip in HR, HR'. destruct HR as [Hg Hr], HR' as [Hg' Hr'].
      split; [exact Hg |]. split; [exact Hr |]. exists g', r'. auto.
    + intros g r Hg Hr.
      destruct (Hcov (g, r)) as ([g0 r0] & p & Hel & Hs);
        [apply Htrip; auto |].
      exists g0, r0, p. auto.
Qed.

(** One go train on 01/05/2024, one return train on 05/05/2024. *)
Definition go_train_may_first : train :=
  ((Some "07:05", Some "09:50"), 9.5%float, Some "AVLO", "01/05/2024").
Definition return_train_may_fifth : train :=
  ((Some "18:00", Some "20:45"), 12%float, Some "OUIGO", "05/05/2024").
Definition first_week_of_may : list string :=
  ["01/05/2024"; "02/05/2024"; "03/05/2024"; "04/05/2024"; "05/05/2024"].

Lemma possible_train_combinations_characterized_witness :
  exists combinations,
    possible_train_combinations {[ "01/05/2024" := [go_train_may_first] ]}
      {[ "05/05/2024" := [return_train_may_fifth] ]} first_week_of_may [3; 4]
    = Ok combinations
    /\ distinct_keys combinations
    /\ (forall g r p,
          (g, r, p) ∈ combinations ->
          round_trip {[ "01/05/2024" := [go_train_may_first] ]}
            {[ "05/05/2024" := [return_train_may_fifth] ]}
            first_week_of_may [3; 4] (g, r)
          /\ exists g' r',
               round_trip {[ "01/05/2024" := [go_train_may_first] ]}
                 {[ "05/05/2024" := [return_train_may_fifth] ]}
                 first_week_of_may [3; 4] (g', r')
               /\ same_key (g, r) (g', r')
               /\ p = (train_price g' + train_price r')%float)
    /\ (forall g r,
          round_trip {[ "01/05/2024" := [go_train_may_first] ]}
            {[ "05/05/2024" := [return_train_may_fifth] ]}
            first_week_of_may [3; 4] (g, r) ->
          exists g0 r0 p,
            (g0, r0, p) ∈ combinations /\ same_key (g0, r0) (g, r)).
Proof.
  apply (proj1 possible_train_combinations_characterized).
  intros d t Hd _ Ht.
  assert (is_true (Py.is_Ok (dates.add_days_to_date d t))) as Hok.
  { unfold first_week_of_may in Hd.
    repeat (apply elem_of_cons in Hd as [-> | Hd]);
      [.. | inversion Hd];
      (repeat (apply elem_of_cons in Ht as [-> | Ht]);
         [.. | inversion Ht]); vm_compute; reflexivity. }
  destruct (dates.add_days_to_date d t) as [rd|]; [eauto | discriminate Hok].
Defined.

(** The run of the example: the one pair, priced 21.5. *)
Example possible_train_combinations_run :
  possible_train_combinations {[ "01/05/2024" := [go_train_may_first] ]}
    {[ "05/05/2024" := [return_train_may_fifth] ]} first_week_of_may [3; 4]
  = Ok [((go_train_may_first, return_train_may_fifth), 21.5%float)].
Proof. vm_compute. reflexivity. Qed.

(** C5 (the claim as first stated fails).  The last day of the calendar
    has go trains and the trip lasts one day: the day after does not
    exist, [add_days_to_date] raises OverflowError and
    [possible_train_combinations] with it, where the claim has no pair. *)
Theorem possible_train_combinations_overflows :
  possible_train_combinations
    {[ "31/12/9999" :=
         [((Some "07:05", Some "09:50"), 9.5%float, Some "AVLO", "31/12/9999")] ]}
    ∅ ["31/12/9999"] [1]
  = Raise OverflowError.
Proof. vm_compute. reflexivity. Qed.

(** Two go trains that differ in the sign of a zero price only are equal
    as keys: with one return train the dictionary has one entry, under
    the first of the two pairs and with the price of the second. *)
Example zero_prices_are_one_key :
  possible_train_combinations
    {[ "01/05/2024" :=
         [((Some "07:05", Some "09:50"), 0%float, Some "AVLO", "01/05/2024");
          ((Some "07:05", Some "09:50"), (-0)%float, Some "AVLO", "01/05/2024")] ]}
    {[ "05/05/2024" := [return_train_may_fifth] ]} first_week_of_may [4]
  = Ok [((((Some "07:05", Some "09:50"), 0%float, Some "AVLO", "01/05/2024"),
          return_train_may_fifth), (-0 + 12)%float)].
Proof. vm_compute. reflexivity. Qed.

End combinations_claim.

(** ** C2, C3, C10: the run of the orchestrator *)

Section orchestrator.

Import AVLO.

(** [print_remaining_time] returns, whatever its arguments: the divisor
    [total - remaining] is zero only when the first test has returned. *)
Lemma print_remaining_time_returns (start_datetime : Q) (total_num_processes : Z)
    (current_datetime : Q) (remaining_num_processes : Z) :
  exists printed,
    remaining_time.print_remaining_time start_datetime total_num_processes
      current_datetime remaining_num_processes = Ok printed
    /\ (remaining_num_processes = total_num_processes -> printed = None).
Proof.
  unfold remaining_time.print_remaining_time, remaining_time.truediv.
  destruct (Z.eqb_spec remaining_num_processes total_num_processes) as [Heq | Hne].
  - exists None. auto.
  - destruct (Z.eqb_spec (total_num_processes - remaining_num_processes) 0)
      as [Hzero | _]; [lia |].
    eexists. split; [reflexivity | intros Heq; contradiction].
Qed.

(** A call that finds no services writes nothing. *)
Lemma avlo_services_try_false (o d t : string) (now : web_request.datetime)
    (browser : result (list string)) (lines : list string) :
  web_request.avlo_services_try o d t now browser = (Ok false, lines) ->
  lines = [].
Proof.
  unfold web_request.avlo_services_try.
  destruct (web_request.avlo_services o d t now browser) as [written | e].
  - intros [= ].
  - destruct (web_request.caught e); intros [= <-]; reflexivity.
Qed.

Lemma choice_elem {A : Type} (r : nat) (seq : list A) :
  seq <> [] -> exists x, choice r seq = Ok x /\ x ∈ seq.
Proof.
  intros Hne. unfold choice.
  assert (Nat.modulo r (length seq) < length seq)%nat as Hlt.
  { apply Nat.mod_upper_bound. destruct seq; [contradiction | discriminate]. }
  apply lookup_lt_is_Some in Hlt. destruct Hlt as [x Hx]. rewrite Hx.
  exists x. split; [reflexivity |]. apply list_elem_of_lookup. eauto.
Qed.

(** Removing a member takes out its first occurrence. *)
Lemma list_remove_elem (x : task) (l : list task) :
  x ∈ l ->
  exists l1 l2,
    l = l1 ++ x :: l2 /\ (x ∉ l1) /\ list_remove x l = Ok (l1 ++ l2).
Proof.
  induction l as [|y l IH]; intros Hin; [inversion Hin |].
  cbn [list_remove]. destruct (decide (x = y)) as [<- | Hne].
  - exists [], l. split; [reflexivity |]. split; [apply not_elem_of_nil | reflexivity].
  - apply elem_of_cons in Hin. destruct Hin as [-> | Hin]; [contradiction |].
    destruct (IH Hin) as (l1 & l2 & -> & Hfresh & ->).
    exists (y :: l1), l2. split; [reflexivity |]. split; [| reflexivity].
    apply not_elem_of_cons. auto.
Qed.

Lemma choice_Ok_elem {A : Type} (r : nat) (seq : list A) (x : A) :
  choice r seq = Ok x -> x ∈ seq.
Proof.
  unfold choice. destruct (seq !! _) as [y|] eqn:Hy; intros [= <-].
  apply list_elem_of_lookup. eauto.
Qed.

Lemma iteration_failure (initial : nat) (start_dt : Q) (ev : event) (st : state)
    (s : task) :
  choice (ev_random ev) (services_to_request st) = Ok s ->
  (web_request.avlo_services_try s.1.1.1 s.1.1.2 s.1.2
     (ev_now ev) (ev_browser ev)).1 = Ok false ->
  iteration initial start_dt ev st
  = Ok (mk_state (services_to_request st)
          (S (last_services_not_found_count st)) (written st)
          (remaining_time_calls st)).
Proof.
  intros Hchoice Hcall. unfold iteration. rewrite Hchoice.
  cbn [mbind result_bind Py.bind]. destruct s as [[[o d] t] sd].
  cbn [fst snd] in Hcall.
  destruct (web_request.avlo_services_try o d t (ev_now ev) (ev_browser ev))
    as [found lines] eqn:Htry.
  cbn [fst] in Hcall. subst found.
  apply avlo_services_try_false in Htry. subst lines.
  cbn [Py.bind]. rewrite app_nil_r. reflexivity.
Qed.

Lemma iteration_success (initial : nat) (start_dt : Q) (ev : event) (st : state)
    (s : task) :
  choice (ev_random ev) (services_to_request st) = Ok s ->
  (web_request.avlo_services_try s.1.1.1 s.1.1.2 s.1.2
     (ev_now ev) (ev_browser ev)).1 = Ok true ->
  exists l1 l2 lines,
    services_to_request st = l1 ++ s :: l2 /\ (s ∉ l1)
    /\ iteration initial start_dt ev st
       = Ok (mk_state (l1 ++ l2) 0 (written st ++ lines)
               (remaining_time_calls st ++ [(initial, length (l1 ++ l2))])).
Proof.
  intros Hchoice Hcall.
  destruct (list_remove_elem s (services_to_request st)
              (choice_Ok_elem _ _ _ Hchoice)) as (l1 & l2 & Hsplit & Hfresh & Hrem).
  unfold iteration. rewrite Hchoice.
  cbn [mbind result_bind Py.bind]. destruct s as [[[o d] t] sd].
  cbn [fst snd] in Hcall.
  destruct (web_request.avlo_services_try o d t (ev_now ev) (ev_browser ev))
    as [found lines] eqn:Htry.
  cbn [fst] in Hcall. subst found. cbn [mbind result_bind Py.bind].
  rewrite Hrem. cbn [mbind result_bind Py.bind].
  destruct (print_remaining_time_returns start_dt (Z.of_nat initial)
              (ev_clock ev) (Z.of_nat (length (l1 ++ l2)))) as (printed & -> & _).
  cbn [Py.bind]. exists l1, l2, lines. auto.
Qed.

(** An event whose provider call finds no services, whatever the service
    requested. *)
Definition fails (ev : event) : Prop :=
  forall o d t,
    (web_request.avlo_services_try o d t (ev_now ev) (ev_browser ev)).1
    = Ok false.

Lemma iteration_fails (initial : nat) (start_dt : Q) (ev : event)
    (services : list task) (count : nat) (lines : list string)
    (calls : list (nat * nat)) :
  services <> [] -> fails ev ->
  iteration initial start_dt ev (mk_state services count lines calls)
  = Ok (mk_state services (S count) lines calls).
Proof.
  intros Hne Hfails.
  destruct (choice_elem (ev_random ev) services Hne) as (s & Hchoice & _).
  apply (iteration_failure initial start_dt ev
           (mk_state services count lines calls) s Hchoice (Hfails _ _ _)).
Qed.

(** Failures below the threshold only advance the counter. *)
Lemma main_loop_failures (initial : nat) (start_dt : Q) (evs more : list event)
    (services : list task) (count : nat) (lines : list string)
    (calls : list (nat * nat)) :
  services <> [] -> Forall fails evs -> (count + length evs <= 20)%nat ->
  main_loop initial start_dt (evs ++ more) (mk_state services count lines calls)
  = main_loop initial start_dt more
      (mk_state services (count + length evs) lines calls).
Proof.
  intros Hne. revert count.
  induction evs as [|ev evs IH]; intros count Hfails Hlen.
  - cbn [app length]. rewrite Nat.add_0_r. reflexivity.
  - apply Forall_cons in Hfails. destruct Hfails as [Hfail Hfails].
    cbn [length] in Hlen. cbn [app main_loop services_to_request].
    destruct services as [|s0 services']; [contradiction |].
    rewrite (iteration_fails _ _ _ _ _ _ _ Hne Hfail).
    cbn [last_services_not_found_count].
    destruct (Nat.ltb_spec 20 (S count)) as [|_]; [lia |].
    rewrite IH by (assumption || lia).
    cbn [length]. rewrite Nat.add_succ_r. reflexivity.
Qed.

(** The failure that takes the counter to 21 leaves the loop through the
    threshold branch. *)
Lemma main_loop_threshold (initial : nat) (start_dt : Q) (ev : event)
    (more : list event) (services : list task) (lines : list string)
    (calls : list (nat * nat)) :
  services <> [] -> fails ev ->
  main_loop initial start_dt (ev :: more) (mk_state services 20 lines calls)
  = (Ok ABORTED, mk_state services 21 lines calls).
Proof.
  intros Hne Hfail. cbn [main_loop services_to_request].
  destruct services as [|s0 services']; [contradiction |].
  rewrite (iteration_fails _ _ _ _ _ _ _ Hne Hfail). reflexivity.
Qed.

Lemma main_loop_status (initial : nat) (start_dt : Q) (evs : list event)
    (st st' : state) (status : status) :
  (last_services_not_found_count st <= 20)%nat ->
  main_loop initial start_dt evs st = (Ok status, st') ->
  (status = ABORTED <-> (20 < last_services_not_found_count st')%nat).
Proof.
  revert st. induction evs as [|ev evs IH]; intros st Hcount.
  - cbn [main_loop]. destruct (services_to_request st);
      intros [= <- <-]; split; (discriminate || lia).
  - cbn [main_loop]. destruct (services_to_request st).
    { intros [= <- <-]; split; (discriminate || lia). }
    destruct (iteration initial start_dt ev st) as [st1 | e]; [| discriminate].
    destruct (Nat.ltb_spec 20 (last_services_not_found_count st1)) as [Hgt | Hle].
    + intros [= <- <-]. split; auto.
    + apply IH. exact Hle.
Qed.

(** The pending services never outnumber the initial ones, and every call
    of print_remaining_time comes after a removal. *)
Lemma iteration_calls (initial : nat) (start_dt : Q) (ev : event)
    (st st' : state) :
  iteration initial start_dt ev st = Ok st' ->
  (length (services_to_request st) <= initial)%nat ->
  Forall (fun call => (call.2 < call.1)%nat) (remaining_time_calls st) ->
  (length (services_to_request st') <= initial)%nat
  /\ Forall (fun call => (call.2 < call.1)%nat) (remaining_time_calls st').
Proof.
  intros Hrun Hlen Hcalls.
  destruct (choice (ev_random ev) (services_to_request st)) as [s|e] eqn:Hchoice;
    [| unfold iteration in Hrun; rewrite Hchoice in Hrun; discriminate Hrun].
  destruct ((web_request.avlo_services_try s.1.1.1 s.1.1.2 s.1.2
               (ev_now ev) (ev_browser ev)).1) as [[|]|e] eqn:Hcall.
  - destruct (iteration_success initial start_dt ev st s Hchoice Hcall)
      as (l1 & l2 & lines & Hsplit & _ & Heq).
    rewrite Heq in Hrun. injection Hrun as <-.
    cbn [services_to_request remaining_time_calls].
    rewrite Hsplit, length_app in Hlen. cbn [length] in Hlen.
    rewrite length_app. split; [lia |].
    apply Forall_app. split; [exact Hcalls |].
    apply Forall_singleton. cbn [fst snd]. lia.
  - rewrite (iteration_failure initial start_dt ev st s Hchoice Hcall) in Hrun.
    injection Hrun as <-. auto.
  - exfalso. unfold iteration in Hrun. rewrite Hchoice in Hrun.
    cbn [mbind result_bind Py.bind] in Hrun. destruct s as [[[o d] t] sd].
    cbn [fst snd] in Hcall.
    destruct (web_request.avlo_services_try o d t (ev_now ev) (ev_browser ev))
      as [found lines]. cbn [fst] in Hcall. subst found. discriminate Hrun.
Qed.

Lemma main_loop_calls (initial : nat) (start_dt : Q) (evs : list event)
    (st st' : state) (outcome : result status) :
  main_loop initial start_dt evs st = (outcome, st') ->
  (length (services_to_request st) <= initial)%nat ->
  Forall (fun call => (call.2 < call.1)%nat) (remaining_time_calls st) ->
  Forall (fun call => (call.2 < call.1)%nat) (remaining_time_calls st').
Proof.
  revert st. induction evs as [|ev evs IH]; intros st.
  - cbn [main_loop]. destruct (services_to_request st);
      intros [= <- <-]; auto.
  - cbn [main_loop]. destruct (services_to_request st) eqn:Hpending.
    { intros [= <- <-]; auto. }
    destruct (iteration initial start_dt ev st) as [st1 | e] eqn:Hiter.
    + intros Hrun Hlen Hcalls. rewrite <- Hpending in Hlen.
      destruct (iteration_calls _ _ _ _ _ Hiter Hlen Hcalls) as [Hlen1 Hcalls1].
      destruct (20 <? last_services_not_found_count st1)%nat.
      * injection Hrun as <- <-. exact Hcalls1.
      * apply (IH st1 Hrun Hlen1 Hcalls1).
    + intros [= <- <-]; auto.
Qed.

End orchestrator.

Section orchestrator_claims.

Import AVLO.

(** C3.  A failed provider call adds one to the counter of consecutive
    failures and leaves the pending services as they are; a successful call
    removes the requested service and sets the counter to 0, whatever it
    was; a run that starts below the threshold leaves the loop through the
    threshold branch exactly when the counter exceeds 20; 21 failures in a
    row from the start leave it there with every service still pending and
    nothing written to the ledger, and up to 20 do not. *)
Theorem consecutive_failure_counter (initial : nat) (start_dt : Q) :
  (forall ev st s,
      choice (ev_random ev) (services_to_request st) = Ok s ->
      (web_request.avlo_services_try s.1.1.1 s.1.1.2 s.1.2
         (ev_now ev) (ev_browser ev)).1 = Ok false ->
      exists st',
        iteration initial start_dt ev st = Ok st'
        /\ services_to_request st' = services_to_request st
        /\ last_services_not_found_count st'
           = S (last_services_not_found_count st)
        /\ written st' = written st)
  /\ (forall ev st s,
        choice (ev_random ev) (services_to_request st) = Ok s ->
        (web_request.avlo_services_try s.1.1.1 s.1.1.2 s.1.2
           (ev_now ev) (ev_browser ev)).1 = Ok true ->
        exists st' l1 l2,
          iteration initial start_dt ev st = Ok st'
          /\ services_to_request st = l1 ++ s :: l2 /\ (s ∉ l1)
          /\ services_to_request st' = l1 ++ l2
          /\ last_services_not_found_count st' = 0%nat)
  /\ (forall evs st status st',
        (last_services_not_found_count st <= 20)%nat ->
        main_loop initial start_dt evs st = (Ok status, st') ->
        (status = ABORTED <-> (20 < last_services_not_found_count st')%nat))
  /\ (forall services evs more,
        services <> [] -> length evs = 21%nat -> Forall fails evs ->
        main_loop initial start_dt (evs ++ more) (mk_state services 0 [] [])
        = (Ok ABORTED, mk_state services 21 [] []))
  /\ (forall services evs,
        services <> [] -> (length evs <= 20)%nat -> Forall fails evs ->
        main_loop initial start_dt evs (mk_state services 0 [] [])
        = (Ok RUNNING, mk_state services (length evs) [] [])).
Proof.
  split; [| split; [| split; [| split]]].
  - intros ev st s Hchoice Hcall. eexists. split.
    + apply (iteration_failure _ _ _ _ _ Hchoice Hcall).
    + auto.
  - intros ev st s Hchoice Hcall.
    destruct (iteration_success initial start_dt ev st s Hchoice Hcall)
      as (l1 & l2 & lines & Hsplit & Hfresh & Heq).
    eexists. exists l1, l2. split; [exact Heq |]. auto.
  - intros evs st status st'. apply main_loop_status.
  - intros services evs more Hne Hlen Hfails.
    induction evs as [|ev evs20 _] using rev_ind; [discriminate Hlen |].
    rewrite length_app in Hlen. cbn [length] in Hlen.
    apply Forall_app in Hfails. destruct Hfails as [Hfails Hfail].
    rewrite Forall_singleton in Hfail.
    rewrite <- !app_assoc. rewrite main_loop_failures by (assumption || lia).
    cbn [app]. replace (0 + length evs20)%nat with 20%nat by lia.
    apply main_loop_threshold; assumption.
  - intros services evs Hne Hlen Hfails.
    rewrite <- (app_nil_r evs) at 1.
    rewrite main_loop_failures by (assumption || lia).
    cbn [main_loop services_to_request Nat.add].
    destruct services; [contradiction | reflexivity].
Qed.

(** The events of the examples: at 10:15 on 30/04/2024 the web site times
    out, or shows one service. *)
Definition timed_out : event :=
  mk_event 0
    (web_request.mk_datetime (dates.mk_date 2024 4 30) 10 15)
    (Raise TimeoutException) 0.

Definition one_service_found : event :=
  mk_event 0
    (web_request.mk_datetime (dates.mk_date 2024 4 30) 10 15)
    (Ok ["07:05" +:+ csv.nl +:+ "09:50" +:+ csv.nl +:+ "9,00 €"]) 120.

Definition madrid_barcelona : task :=
  ("MADRID", "BARCELONA", "01/05/2024", "30/04/2024").

Lemma consecutive_failure_counter_witness :
  main_loop 1 0 (replicate 21 timed_out) (mk_state [madrid_barcelona] 0 [] [])
  = (Ok ABORTED, mk_state [madrid_barcelona] 21 [] []).
Proof.
  rewrite <- (app_nil_r (replicate 21 timed_out)).
  apply (proj1 (proj2 (proj2 (proj2 (consecutive_failure_counter 1 0))))).
  - discriminate.
  - reflexivity.
  - repeat constructor.
Defined.

(** After 19 failures one service found sets the counter back to 0 and
    writes its line. *)
Example success_resets_counter :
  iteration 2 0 one_service_found
    (mk_state [madrid_barcelona; ("BARCELONA", "MADRID", "01/05/2024", "30/04/2024")]
       19 [] [])
  = Ok (mk_state [("BARCELONA", "MADRID", "01/05/2024", "30/04/2024")] 0
          ["MADRID|BARCELONA|01/05/2024|07:05|09:50|9,00 €|AVLO|30/04/2024|10:15"
           +:+ csv.nl]
          [(2%nat, 1%nat)]).
Proof. vm_compute. reflexivity. Qed.

(** C10.  [print_remaining_time] always returns, so it never divides by
    zero: with as many remaining as total processes it returns at once
    without printing, and otherwise the divisor is not zero.  In a run
    of the orchestrator every call of it passes fewer remaining services
    than the total, the requested service having been removed before. *)
Theorem remaining_time_never_divides_by_zero :
  (forall (start_datetime : Q) (total_num_processes : Z)
          (current_datetime : Q) (remaining_num_processes : Z),
      exists printed,
        remaining_time.print_remaining_time start_datetime total_num_processes
          current_datetime remaining_num_processes = Ok printed
        /\ (remaining_num_processes = total_num_processes -> printed = None))
  /\ (forall (start_dt : Q) (evs : list event) (services : list task)
             (outcome : result status) (st' : state),
        main_loop (length services) start_dt evs (mk_state services 0 [] [])
        = (outcome, st') ->
        Forall (fun call => (call.2 < call.1)%nat) (remaining_time_calls st')).
Proof.
  split.
  - apply print_remaining_time_returns.
  - intros start_dt evs services outcome st' Hrun.
    apply (main_loop_calls _ _ _ _ _ _ Hrun); [reflexivity | constructor].
Qed.

Lemma remaining_time_never_divides_by_zero_witness :
  Forall (fun call => (call.2 < call.1)%nat)
    (remaining_time_calls
       (main_loop 1 0 [timed_out; one_service_found]
          (mk_state [madrid_barcelona] 0 [] [])).2).
Proof.
  apply (proj2 remaining_time_never_divides_by_zero 0%Q
           [timed_out; one_service_found] [madrid_barcelona]
           (main_loop 1 0 [timed_out; one_service_found]
              (mk_state [madrid_barcelona] 0 [] [])).1).
  apply surjective_pairing.
Defined.

(** The run of the witness: one failure, then the service is found and
    the estimate is computed with one service done out of one. *)
Example remaining_time_call_run :
  main_loop 1 0 [timed_out; one_service_found]
    (mk_state [madrid_barcelona] 0 [] [])
  = (Ok DRAINED,
     mk_state [] 0
       ["MADRID|BARCELONA|01/05/2024|07:05|09:50|9,00 €|AVLO|30/04/2024|10:15"
        +:+ csv.nl]
       [(1%nat, 0%nat)]).
Proof. vm_compute. reflexivity. Qed.

Section os_path.

Variable join : string -> string -> string.
Variable dirname : string -> string.
Variable flushed : string -> nat.

Lemma substring_empty (n : nat) : substring 0 n EmptyString = EmptyString.
Proof. destruct n; reflexivity. Qed.

Lemma append_empty (s : string) : s +:+ EmptyString = s.
Proof.
  induction s as [|a s IH]; [reflexivity |].
  change (String a s +:+ EmptyString) with (String a (s +:+ EmptyString)).
  rewrite IH. reflexivity.
Qed.

(** X2.  No run writes the missing-services report.  Whenever the loop is
    left through the threshold branch, the call of write_missing_services
    raises TypeError, since it passes two arguments to three required
    parameters: the run ends with this exception, the ledger is not closed
    and holds what it held before followed by the first characters of the
    text written, as many as the buffer has passed on.  Only a run that
    drains its services closes the ledger. *)
Theorem request_services_never_reports (services : list task)
    (output_path : string) (start_dt : Q) (evs : list event) (files : fs) :
  join (dirname output_path) "missing_services.txt" <> output_path ->
  let r :=
    request_services join dirname flushed services output_path start_dt evs
      files in
  run_files r !! join (dirname output_path) "missing_services.txt"
  = files !! join (dirname output_path) "missing_services.txt"
  /\ (forall st,
        main_loop (length services) start_dt evs (mk_state services 0 [] [])
        = (Ok ABORTED, st) ->
        run_result r = Raise TypeError
        /\ run_closed r = false
        /\ run_pending r = services_to_request st
        /\ run_files r !! output_path
           = Some (default EmptyString (files !! output_path)
                   +:+ substring 0
                         (flushed (fold_right String.append EmptyString
                                     (written st)))
                         (fold_right String.append EmptyString (written st))))
  /\ (run_closed r = true -> run_result r = Ok DRAINED).
Proof.
  intros Hne. cbv zeta. unfold request_services. cbv zeta.
  destruct (main_loop (length services) start_dt evs (mk_state services 0 [] []))
    as [[[| |]|e] st]; cbn [write_missing_services.call run_files run_result
                             run_closed run_pending].
  - split; [apply lookup_insert_ne; congruence |].
    split; [intros st' [= ] | intros [= ]].
  - split; [apply lookup_insert_ne; congruence |].
    split; [intros st' [= ] | reflexivity].
  - split; [apply lookup_insert_ne; congruence |].
    split; [| intros [= ]].
    intros st' [= <-]. repeat split. apply lookup_insert_eq.
  - split; [apply lookup_insert_ne; congruence |].
    split; [intros st' [= ] | intros [= ]].
Qed.

(** C2 (the code departs from it).  One service and 21 provider calls that
    time out: the run reaches the threshold branch and ends there with
    TypeError.  The only file is the ledger that planning created, so no
    missing-services report exists, and the ledger was not closed. *)
Theorem abort_writes_no_report :
  let r :=
    main_function join dirname flushed [("MADRID", "BARCELONA")] ["01/05/2024"]
      "out.txt" (dates.mk_date 2024 4 30) 0 (replicate 21 timed_out) ∅ in
  run_result r = Raise TypeError
  /\ run_closed r = false
  /\ run_pending r = [madrid_barcelona]
  /\ run_files r
     = {[ "out.txt" :=
            "origin_station|destination_station|travel_date|departure_time|arrival_time|price|company|search_date|search_time"
            +:+ csv.nl ]}.
Proof.
  assert (main_function join dirname flushed [("MADRID", "BARCELONA")]
            ["01/05/2024"] "out.txt" (dates.mk_date 2024 4 30) 0
            (replicate 21 timed_out) ∅
          = mk_run (Raise TypeError)
              (left_open flushed "out.txt" []
                 (existing_output.initialize_output_file "out.txt" ∅))
              [madrid_barcelona] [] false) as ->
    by (vm_compute; reflexivity).
  cbn [run_result run_closed run_pending run_files].
  repeat split.
  unfold left_open, existing_output.initialize_output_file. cbv zeta.
  cbn [fold_right]. rewrite substring_empty, lookup_insert_eq. cbn [default].
  rewrite append_empty, insert_insert_eq, insert_empty. reflexivity.
Qed.

(** The function itself writes the report once it is given its three
    arguments. *)
Example write_missing_services_report :
  write_missing_services.write_missing_services join [madrid_barcelona]
    "AVLO" "out" ∅
  = {[ join "out" "missing_services.txt" :=
         "origin_station|destination_station|operator|travel_date" +:+ csv.nl
         +:+ "MADRID|BARCELONA|AVLO|01/05/2024" +:+ csv.nl ]}.
Proof. reflexivity. Qed.

End os_path.

(** [os.path.join] and [os.path.dirname] on the paths of the examples, and
    a buffer that has passed on the first ten characters. *)
Definition slash_join (d f : string) : string := d +:+ "/" +:+ f.

Definition here (_ : string) : string := ".".

Definition ten_characters (_ : string) : nat := 10.

Lemma request_services_never_reports_witness :
  run_files
    (request_services slash_join here ten_characters [madrid_barcelona]
       "out.txt" 0 (replicate 21 timed_out) ∅)
  !! slash_join (here "out.txt") "missing_services.txt"
  = (∅ : fs) !! slash_join (here "out.txt") "missing_services.txt"
  /\ (forall st,
        main_loop (length [madrid_barcelona]) 0 (replicate 21 timed_out)
          (mk_state [madrid_barcelona] 0 [] [])
        = (Ok ABORTED, st) ->
        run_result
          (request_services slash_join here ten_characters [madrid_barcelona]
             "out.txt" 0 (replicate 21 timed_out) ∅)
        = Raise TypeError
        /\ run_closed
             (request_services slash_join here ten_characters
                [madrid_barcelona] "out.txt" 0 (replicate 21 timed_out) ∅)
           = false
        /\ run_pending
             (request_services slash_join here ten_characters
                [madrid_barcelona] "out.txt" 0 (replicate 21 timed_out) ∅)
           = services_to_request st
        /\ run_files
             (request_services slash_join here ten_characters
                [madrid_barcelona] "out.txt" 0 (replicate 21 timed_out) ∅)
           !! "out.txt"
           = Some (default EmptyString ((∅ : fs) !! "out.txt")
                   +:+ substring 0
                         (ten_characters
                            (fold_right String.append EmptyString (written st)))
                         (fold_right String.append EmptyString (written st))))
  /\ (run_closed
        (request_services slash_join here ten_characters [madrid_barcelona]
           "out.txt" 0 (replicate 21 timed_out) ∅)
      = true ->
      run_result
        (request_services slash_join here ten_characters [madrid_barcelona]
           "out.txt" 0 (replicate 21 timed_out) ∅)
      = Ok DRAINED).
Proof.
  apply (request_services_never_reports slash_join here ten_characters
           [madrid_barcelona] "out.txt" 0 (replicate 21 timed_out) ∅).
  vm_compute. discriminate.
Defined.

End orchestrator_claims.

(** ** The page of one provider call *)

Section provider_call.

Import web_request.

Variables origin_station destination_station travel_date : string.
Variables search_date search_time : string.

(** An element of the results page without text is skipped. *)
Definition blank (service : string) : Prop :=
  Py.split csv.NEWLINE service = [EmptyString].

(** An element whose text has at least two lines: a departure time and an
    arrival time. *)
Definition two_lines (service : string) : Prop :=
  (2 <= length (Py.split csv.NEWLINE service))%nat.

#[global] Instance blank_dec service : Decision (blank service).
Proof. unfold blank. apply _. Defined.

#[global] Instance two_lines_dec service : Decision (two_lines service).
Proof. unfold two_lines. apply _. Defined.

(** The nine fields written for an element: its first line is the
    departure time, its second the arrival time, its last the price. *)
Definition train_service_of (service : string) : list string :=
  let service_info_list := Py.split csv.NEWLINE service in
  [origin_station; destination_station; travel_date;
   nth 0 service_info_list EmptyString; nth 1 service_info_list EmptyString;
   List.last service_info_list EmptyString; "AVLO"; search_date; search_time].

Lemma item_nth (l : list string) (i : nat) :
  (i < length l)%nat -> Py.item l i = Ok (nth i l EmptyString).
Proof.
  intros Hi. unfold Py.item.
  destruct (l !! i) as [x|] eqn:Hx.
  - f_equal. symmetry. apply nth_lookup_Some with (d := EmptyString) in Hx.
    exact Hx.
  - apply lookup_ge_None in Hx. lia.
Qed.

Lemma item_last_nonempty (l : list string) :
  l <> [] -> Py.item_last l = Ok (List.last l EmptyString).
Proof.
  intros Hne. unfold Py.item_last.
  destruct l as [|x l] using rev_ind; [contradiction |].
  rewrite last_snoc, List.last_last. reflexivity.
Qed.

Lemma parse_train_services_from (services : list string)
    (acc : list (list string)) :
  Forall (fun service => blank service \/ two_lines service) services ->
  Py.for_each services
    (fun (parsed_train_services : list (list string)) service =>
       let service_info_list := Py.split csv.NEWLINE service in
       if decide (service_info_list = [EmptyString]) then Ok parsed_train_services
       else
         departure_time ← Py.item service_info_list 0;
         arrival_time ← Py.item service_info_list 1;
         price ← Py.item_last service_info_list;
         let train_service :=
           [origin_station; destination_station; travel_date;
            departure_time; arrival_time; price; "AVLO";
            search_date; search_time] in
         Ok (parsed_train_services ++ [train_service]))
    acc
  = Ok (acc ++ map train_service_of (filter (fun service => ~ blank service) services)).
Proof.
  revert acc. induction services as [|service services IH]; intros acc Hshape.
  - cbn. rewrite app_nil_r. reflexivity.
  - apply Forall_cons in Hshape. destruct Hshape as [Hservice Hshape].
    cbn [Py.for_each]. cbv zeta. rewrite filter_cons.
    destruct (decide (Py.split csv.NEWLINE service = [EmptyString])) as [Hblank | Hfull].
    + cbn [Py.bind]. rewrite decide_False by (intros Hno; apply Hno; exact Hblank).
      apply IH, Hshape.
    + destruct Hservice as [Hblank | Htwo]; [contradiction |].
      unfold two_lines in Htwo.
      rewrite !item_nth by lia.
      rewrite item_last_nonempty
        by (intros Hnil; rewrite Hnil in Htwo; cbn in Htwo; lia).
      cbn [mbind result_bind Py.bind].
      rewrite decide_True by exact Hfull.
      rewrite IH by exact Hshape. cbn [map]. rewrite <- app_assoc. reflexivity.
Qed.

(** An element with text on a single line has no arrival time: reading
    it raises IndexError, whatever the elements around it. *)
Lemma parse_train_services_one_line (services : list string)
    (acc : list (list string)) :
  Exists (fun service => ~ blank service /\ ~ two_lines service) services ->
  Py.for_each services
    (fun (parsed_train_services : list (list string)) service =>
       let service_info_list := Py.split csv.NEWLINE service in
       if decide (service_info_list = [EmptyString]) then Ok parsed_train_services
       else
         departure_time ← Py.item service_info_list 0;
         arrival_time ← Py.item service_info_list 1;
         price ← Py.item_last service_info_list;
         let train_service :=
           [origin_station; destination_station; travel_date;
            departure_time; arrival_time; price; "AVLO";
            search_date; search_time] in
         Ok (parsed_train_services ++ [train_service]))
    acc
  = Raise IndexError.
Proof.
  revert acc. induction services as [|service services IH]; intros acc Hbad.
  - inversion Hbad.
  - cbn [Py.for_each]. cbv zeta.
    destruct (decide (Py.split csv.NEWLINE service = [EmptyString])) as [Hblank | Hfull].
    + cbn [Py.bind]. apply IH. apply Exists_cons in Hbad.
      destruct Hbad as [[Hno _] | Hbad]; [contradiction | exact Hbad].
    + destruct (decide (two_lines service)) as [Htwo | Hone].
      * unfold two_lines in Htwo. rewrite !item_nth by lia.
        rewrite item_last_nonempty
          by (intros Hnil; rewrite Hnil in Htwo; cbn in Htwo; lia).
        cbn [mbind result_bind Py.bind]. apply IH.
        apply Exists_cons in Hbad.
        destruct Hbad as [[_ Hno] | Hbad]; [contradiction | exact Hbad].
      * unfold two_lines in Hone.
        destruct (Py.split csv.NEWLINE service) as [|x [|y l]] eqn:Hsplit;
          [reflexivity | reflexivity | cbn [length] in Hone; lia].
Qed.

Lemma parse_train_services_well_formed (services : list string) :
  Forall (fun service => blank service \/ two_lines service) services ->
  parse_train_services origin_station destination_station travel_date
    search_date search_time services
  = Ok (map train_service_of (filter (fun service => ~ blank service) services)).
Proof. intros Hshape. apply (parse_train_services_from services [] Hshape). Qed.

Lemma parse_train_services_ill_formed (services : list string) :
  Exists (fun service => ~ blank service /\ ~ two_lines service) services ->
  parse_train_services origin_station destination_station travel_date
    search_date search_time services
  = Raise IndexError.
Proof. intros Hbad. apply (parse_train_services_one_line services [] Hbad). Qed.

End provider_call.

Section provider_call_result.

Import web_request.

Lemma filter_not_blank_nil (services : list string) :
  Forall blank services -> filter (fun service => ~ blank service) services = [].
Proof.
  induction 1 as [|service services Hblank _ IH]; [reflexivity |].
  rewrite filter_cons, decide_False by (intros Hno; apply Hno; exact Hblank).
  exact IH.
Qed.

(** The search date and time written with every service of a call. *)
Definition search_date_of (dt_now : datetime) : string :=
  dates.date_object_to_string_date (dt_date dt_now).

Definition search_time_of (dt_now : datetime) : string :=
  Py.zfill 2 (Py.str (hour dt_now)) +:+ ":" +:+ Py.zfill 2 (Py.str (minute dt_now)).

Lemma avlo_services_try_parsed (origin_station destination_station
    travel_date : string) (dt_now : datetime) (services : list string) :
  Forall (fun service => blank service \/ two_lines service) services ->
  Exists (fun service => ~ blank service) services ->
  avlo_services_try origin_station destination_station travel_date dt_now
    (Ok services)
  = (Ok true,
     map (fun service =>
            Py.join "|"
              (train_service_of origin_station destination_station travel_date
                 (search_date_of dt_now) (search_time_of dt_now) service)
            +:+ csv.nl)
         (filter (fun service => ~ blank service) services)).
Proof.
  intros Hshape Hsome.
  unfold avlo_services_try, avlo_services. cbv zeta.
  cbn [mbind result_bind Py.bind].
  fold (search_date_of dt_now) (search_time_of dt_now).
  rewrite (parse_train_services_well_formed _ _ _ _ _ _ Hshape).
  cbn [mbind result_bind Py.bind]. rewrite length_map, map_map.
  destruct (filter (fun service => ~ blank service) services) as [|x l] eqn:Hf.
  - exfalso. apply Exists_exists in Hsome. destruct Hsome as (x & Hin & Hx).
    assert (x ∈ filter (fun service => ~ blank service) services) as Hx'
      by (apply list_elem_of_filter; split; [exact Hx | exact Hin]).
    rewrite Hf in Hx'. inversion Hx'.
  - reflexivity.
Qed.

(** What the web site yields when no services are found: the browser
    raised one of the exceptions of the [except] clause, or no element of
    the page has text, or some element has its text on a single line. *)
Definition no_services (browser : result (list string)) : Prop :=
  match browser with
  | Raise e => caught e = true
  | Ok services =>
      Forall blank services
      \/ Exists (fun service => ~ blank service /\ ~ two_lines service) services
  end.

Lemma avlo_services_try_nothing (origin_station destination_station
    travel_date : string) (dt_now : datetime) (browser : result (list string)) :
  no_services browser ->
  avlo_services_try origin_station destination_station travel_date dt_now browser
  = (Ok false, []).
Proof.
  unfold no_services, avlo_services_try, avlo_services. cbv zeta.
  destruct browser as [services | e].
  - cbn [mbind result_bind Py.bind]. intros [Hblank | Hbad].
    + rewrite parse_train_services_well_formed
        by (eapply Forall_impl; [exact Hblank | auto]).
      cbn [mbind result_bind Py.bind].
      rewrite filter_not_blank_nil by exact Hblank. reflexivity.
    + rewrite parse_train_services_ill_formed by exact Hbad. reflexivity.
  - cbn [mbind result_bind Py.bind]. intros ->. reflexivity.
Qed.



End provider_call_result.

(** ** The loop of the orchestrator: how long it runs and what it keeps *)

Section orchestrator_loop.

Import AVLO.

(** What one iteration does to the variables of the loop: a failure, or
    the removal of the service requested. *)
Lemma iteration_cases (initial : nat) (start_dt : Q) (ev : event)
    (st st' : state) :
  iteration initial start_dt ev st = Ok st' ->
  (services_to_request st' = services_to_request st
   /\ last_services_not_found_count st' = S (last_services_not_found_count st)
   /\ written st' = written st
   /\ remaining_time_calls st' = remaining_time_calls st)
  \/ (exists s l1 l2 lines,
        services_to_request st = l1 ++ s :: l2
        /\ services_to_request st' = l1 ++ l2
        /\ last_services_not_found_count st' = 0%nat
        /\ written st' = written st ++ lines
        /\ remaining_time_calls st'
           = remaining_time_calls st ++ [(initial, length (l1 ++ l2))]).
Proof.
  intros Hrun.
  destruct (choice (ev_random ev) (services_to_request st)) as [s|e] eqn:Hchoice;
    [| unfold iteration in Hrun; rewrite Hchoice in Hrun; discriminate Hrun].
  destruct ((web_request.avlo_services_try s.1.1.1 s.1.1.2 s.1.2
               (ev_now ev) (ev_browser ev)).1) as [[|]|e] eqn:Hcall.
  - right.
    destruct (iteration_success initial start_dt ev st s Hchoice Hcall)
      as (l1 & l2 & lines & Hsplit & _ & Heq).
    rewrite Heq in Hrun. injection Hrun as <-.
    exists s, l1, l2, lines. auto.
  - left. rewrite (iteration_failure initial start_dt ev st s Hchoice Hcall) in Hrun.
    injection Hrun as <-. auto.
  - exfalso. unfold iteration in Hrun. rewrite Hchoice in Hrun.
    cbn [mbind result_bind Py.bind] in Hrun. destruct s as [[[o d] t] sd].
    cbn [fst snd] in Hcall.
    destruct (web_request.avlo_services_try o d t (ev_now ev) (ev_browser ev))
      as [found lines]. cbn [fst] in Hcall. subst found. discriminate Hrun.
Qed.

Lemma main_loop_ends (initial : nat) (start_dt : Q) (evs : list event)
    (st : state) :
  (last_services_not_found_count st <= 20)%nat ->
  (21 * length (services_to_request st)
   <= length evs + last_services_not_found_count st)%nat ->
  (main_loop initial start_dt evs st).1 <> Ok RUNNING.
Proof.
  revert st. induction evs as [|ev evs IH]; intros st Hcount Hlen.
  - cbn [main_loop]. destruct (services_to_request st); [discriminate |].
    cbn [length] in Hlen. lia.
  - cbn [main_loop].
    destruct (services_to_request st) as [|s0 pending] eqn:Hpending;
      [discriminate |].
    destruct (iteration initial start_dt ev st) as [st1|e] eqn:Hiter;
      [| discriminate].
    destruct (Nat.ltb_spec 20 (last_services_not_found_count st1)) as [_ | Hle];
      [discriminate |].
    apply IH; [exact Hle |].
    apply iteration_cases in Hiter. rewrite Hpending in Hiter.
    cbn [length] in Hlen.
    destruct Hiter as [(-> & -> & _) | (s & l1 & l2 & lines & Hsplit & -> & -> & _)].
    + cbn [length]. lia.
    + apply (f_equal length) in Hsplit. rewrite length_app in *.
      cbn [length] in Hsplit. lia.
Qed.


(** What a run keeps true of its variables. *)
Definition accounted (services : list task) (st : state) : Prop :=
  services_to_request st ⊆+ services
  /\ (length (services_to_request st) + length (remaining_time_calls st)
      = length services)%nat
  /\ forall k total remaining,
       remaining_time_calls st !! k = Some (total, remaining) ->
       total = length services /\ (remaining + k + 1 = length services)%nat.

Lemma iteration_accounted (services : list task) (start_dt : Q) (ev : event)
    (st st' : state) :
  iteration (length services) start_dt ev st = Ok st' ->
  accounted services st -> accounted services st'.
Proof.
  intros Hiter (Hsub & Hlen & Hcalls). apply iteration_cases in Hiter.
  destruct Hiter as [(Hp & _ & _ & Hc)
                    | (s & l1 & l2 & lines & Hsplit & Hp & _ & _ & Hc)].
  - unfold accounted. rewrite Hp, Hc. auto.
  - unfold accounted. rewrite Hp, Hc. rewrite Hsplit in Hsub, Hlen.
    rewrite !length_app in *. cbn [length] in *. split; [| split].
    + etransitivity; [| exact Hsub]. apply submseteq_app; [reflexivity |].
      apply submseteq_cons. reflexivity.
    + lia.
    + intros k total remaining Hk.
      apply lookup_app_Some in Hk. destruct Hk as [Hk | [Hge Hk]].
      * apply (Hcalls _ _ _ Hk).
      * apply list_lookup_singleton_Some in Hk. destruct Hk as [Hk0 [= <- <-]].
        split; [reflexivity |]. lia.
Qed.

Lemma main_loop_accounted (services : list task) (start_dt : Q)
    (evs : list event) (st st' : state) (outcome : result status) :
  main_loop (length services) start_dt evs st = (outcome, st') ->
  accounted services st -> accounted services st'.
Proof.
  revert st. induction evs as [|ev evs IH]; intros st.
  - cbn [main_loop]. destruct (services_to_request st); intros [= <- <-]; auto.
  - cbn [main_loop]. destruct (services_to_request st).
    { intros [= <- <-]; auto. }
    destruct (iteration (length services) start_dt ev st) as [st1 | e] eqn:Hiter.
    + intros Hrun Hacc.
      pose proof (iteration_accounted _ _ _ _ _ Hiter Hacc) as Hacc1.
      destruct (20 <? last_services_not_found_count st1)%nat.
      * injection Hrun as <- <-. exact Hacc1.
      * apply (IH st1 Hrun Hacc1).
    + intros [= <- <-]; auto.
Qed.


End orchestrator_loop.

(** ** Lines and fields: what is written is what is read *)

Section fields.

Import csv.

(** [c] does not occur in [s]. *)
Fixpoint free_of (c : ascii) (s : string) : bool :=
  match s with
  | EmptyString => true
  | String a r => negb (Ascii.eqb a c) && free_of c r
  end.

Lemma append_cons (a : ascii) (s r : string) :
  String a s +:+ r = String a (s +:+ r).
Proof. reflexivity. Qed.

Lemma append_nil (r : string) : EmptyString +:+ r = r.
Proof. reflexivity. Qed.

Lemma append_assoc (s r t : string) : (s +:+ r) +:+ t = s +:+ (r +:+ t).
Proof.
  induction s as [|a s IH]; [reflexivity |].
  rewrite !append_cons, IH. reflexivity.
Qed.

Lemma free_of_append (c : ascii) (s r : string) :
  free_of c (s +:+ r) = free_of c s && free_of c r.
Proof.
  induction s as [|a s IH]; [reflexivity |].
  rewrite append_cons. cbn [free_of]. rewrite IH, andb_assoc. reflexivity.
Qed.

Lemma split_free (sep : ascii) (s : string) :
  free_of sep s = true -> Py.split sep s = [s].
Proof.
  induction s as [|a s IH]; [reflexivity |].
  cbn [free_of Py.split]. rewrite andb_true_iff, negb_true_iff.
  intros [-> Hs]. rewrite (IH Hs). reflexivity.
Qed.

Lemma split_append_sep (sep : ascii) (s rest : string) :
  free_of sep s = true ->
  Py.split sep (s +:+ String sep rest) = s :: Py.split sep rest.
Proof.
  induction s as [|a s IH].
  - intros _. rewrite append_nil. cbn [Py.split].
    rewrite Ascii.eqb_refl. reflexivity.
  - cbn [free_of]. rewrite andb_true_iff, negb_true_iff. intros [Ha Hs].
    rewrite append_cons. cbn [Py.split]. rewrite Ha, (IH Hs). reflexivity.
Qed.

(** Joining fields that do not contain the separator and splitting the
    result gives the fields back. *)
Lemma split_join (sep : ascii) (l : list string) :
  l <> [] -> Forall (fun s => free_of sep s = true) l ->
  Py.split sep (Py.join (String sep EmptyString) l) = l.
Proof.
  induction l as [|x l IH]; [contradiction |]. intros _ Hfree.
  apply Forall_cons in Hfree. destruct Hfree as [Hx Hfree].
  destruct l as [|y l].
  - cbn [Py.join]. apply split_free, Hx.
  - change (Py.join (String sep EmptyString) (x :: y :: l))
      with (x +:+ (String sep EmptyString +:+ Py.join (String sep EmptyString) (y :: l))).
    rewrite append_cons, append_nil, split_append_sep by exact Hx.
    rewrite IH by (discriminate || exact Hfree). reflexivity.
Qed.

(** The pieces of a split do not contain the separator, nor any
    character the text did not contain. *)
Lemma split_pieces_free (sep c : ascii) (s : string) :
  c = sep \/ free_of c s = true ->
  Forall (fun piece => free_of c piece = true) (Py.split sep s).
Proof.
  induction s as [|a s IH]; intros Hc.
  - repeat constructor.
  - cbn [Py.split]. destruct (Ascii.eqb_spec a sep) as [-> | Hne].
    + constructor; [reflexivity |]. apply IH.
      destruct Hc as [-> | Hc]; [auto |]. right.
      cbn [free_of] in Hc. apply andb_true_iff in Hc. tauto.
    + assert (negb (Ascii.eqb a c) = true /\ (c = sep \/ free_of c s = true))
        as [Ha Hs].
      { destruct Hc as [-> | Hc].
        - split; [| auto]. apply negb_true_iff, Ascii.eqb_neq, Hne.
        - cbn [free_of] in Hc. apply andb_true_iff in Hc. tauto. }
      specialize (IH Hs). destruct (Py.split sep s) as [|w ws].
      * constructor; [| constructor]. cbn [free_of]. rewrite Ha. reflexivity.
      * apply Forall_cons in IH. destruct IH as [Hw Hws].
        constructor; [| exact Hws]. cbn [free_of]. rewrite Ha, Hw. reflexivity.
Qed.

Lemma free_of_join (c : ascii) (sep : string) (l : list string) :
  free_of c sep = true -> Forall (fun s => free_of c s = true) l ->
  free_of c (Py.join sep l) = true.
Proof.
  intros Hsep. induction l as [|x l IH]; intros Hfree; [reflexivity |].
  apply Forall_cons in Hfree. destruct Hfree as [Hx Hfree].
  destruct l as [|y l]; [exact Hx |].
  change (Py.join sep (x :: y :: l)) with (x +:+ (sep +:+ Py.join sep (y :: l))).
  rewrite !free_of_append, Hx, Hsep, (IH Hfree). reflexivity.
Qed.

Lemma join_not_empty (sep : ascii) (l : list string) :
  (2 <= length l)%nat -> Py.join (String sep EmptyString) l <> EmptyString.
Proof.
  destruct l as [|x [|y l]]; cbn [length]; try lia. intros _.
  change (Py.join (String sep EmptyString) (x :: y :: l))
    with (x +:+ (String sep EmptyString +:+ Py.join (String sep EmptyString) (y :: l))).
  destruct x; discriminate.
Qed.

(** Lines written one after the other, each followed by a newline. *)
Definition written_text (lines : list string) : string :=
  fold_right String.append EmptyString (map (fun line => line +:+ nl) lines).

Lemma split_written_text (lines : list string) :
  Forall (fun line => free_of NEWLINE line = true) lines ->
  Py.split NEWLINE (written_text lines) = lines ++ [EmptyString].
Proof.
  induction lines as [|line lines IH]; intros Hfree; [reflexivity |].
  apply Forall_cons in Hfree. destruct Hfree as [Hline Hfree].
  unfold written_text. cbn [map fold_right]. fold (written_text lines).
  unfold nl. rewrite append_assoc, append_cons, append_nil.
  rewrite split_append_sep by exact Hline. rewrite (IH Hfree). reflexivity.
Qed.

(** Reading a file line by line gives the lines written. *)
Lemma file_lines_written_text (lines : list string) :
  Forall (fun line => free_of NEWLINE line = true) lines ->
  file_lines (written_text lines) = lines.
Proof.
  intros Hfree. unfold file_lines. rewrite (split_written_text lines Hfree).
  destruct lines as [|line lines]; [reflexivity |].
  assert (exists a r, written_text (line :: lines) = String a r) as (a & r & ->).
  { unfold written_text. cbn [map fold_right]. unfold nl.
    destruct line; rewrite ?append_cons, ?append_nil; eauto. }
  rewrite last_snoc, decide_True by reflexivity.
  apply removelast_last.
Qed.

End fields.

Section ledger_rows.

Import csv.

(** The carriage return, which reading a text file turns into a newline,
    and the quote character of the csv module. *)
Definition CR : ascii := ascii_of_nat 13.
Definition QUOTE : ascii := ascii_of_nat 34.

(** A field that can be written to the ledger and read back: it holds no
    column separator, no newline or carriage return, and no quote. *)
Definition plain (s : string) : bool :=
  free_of "|" s && free_of NEWLINE s && free_of CR s && free_of QUOTE s.

(** The text of a page element that the ledger keeps line by line: it
    holds no column separator, no carriage return and no quote. *)
Definition page_text (service : string) : bool :=
  free_of "|" service && free_of CR service && free_of QUOTE service.

(** The nine columns of the ledger, in the order of its header. *)
Definition ledger_columns : list string :=
  ["origin_station"; "destination_station"; "travel_date"; "departure_time";
   "arrival_time"; "price"; "company"; "search_date"; "search_time"].

Lemma plain_free (s : string) :
  plain s = true
  <-> free_of "|" s = true /\ free_of NEWLINE s = true
      /\ free_of CR s = true /\ free_of QUOTE s = true.
Proof. unfold plain. rewrite !andb_true_iff. tauto. Qed.

(** Rows of two fields at least, written as lines, are read back by
    [csv.reader] as they were. *)
Lemma reader_written_text (rows : list (list string)) :
  Forall (fun row => (2 <= length row)%nat /\ Forall (fun s => plain s = true) row)
    rows ->
  reader (written_text (map (Py.join "|") rows)) = rows.
Proof.
  intros Hrows. unfold reader. rewrite file_lines_written_text.
  - rewrite map_map. induction Hrows as [|row rows [Hlen Hplain] _ IH];
      [reflexivity |].
    cbn [map]. rewrite IH. f_equal.
    rewrite decide_False by (apply join_not_empty, Hlen).
    apply split_join.
    + intros ->. cbn in Hlen. lia.
    + eapply Forall_impl; [exact Hplain |]. intros s Hs.
      apply plain_free in Hs. tauto.
  - apply Forall_map. eapply Forall_impl; [exact Hrows |].
    intros row [_ Hplain]. apply free_of_join; [reflexivity |].
    eapply Forall_impl; [exact Hplain |]. intros s Hs.
    apply plain_free in Hs. tauto.
Qed.

Lemma foldl_insert_lookup (l : list (string * option string))
    (acc : gmap string (option string)) (k : string) (v : option string) :
  NoDup l.*1 -> (k, v) ∈ l ->
  foldl (fun d kv => <[kv.1 := kv.2]> d) acc l !! k = Some v.
Proof.
  revert acc. induction l as [|[k' v'] l IH]; intros acc Hnd Hin;
    [inversion Hin |].
  rewrite fmap_cons in Hnd. cbn [fst] in Hnd. apply NoDup_cons in Hnd.
  destruct Hnd as [Hfresh Hnd]. cbn [foldl fst snd].
  apply elem_of_cons in Hin. destruct Hin as [[= -> ->] | Hin].
  - clear IH Hnd. revert acc Hfresh. induction l as [|[k2 v2] l IH2];
      intros acc Hfresh.
    + apply lookup_insert_eq.
    + rewrite fmap_cons, not_elem_of_cons in Hfresh. cbn [fst] in Hfresh.
      destruct Hfresh as [Hne Hfresh]. cbn [foldl fst snd].
      rewrite insert_insert_ne by congruence. apply IH2, Hfresh.
  - apply IH; assumption.
Qed.

Lemma zip_row_elem (fieldnames row : list string) (j : nat)
    (column value : string) :
  fieldnames !! j = Some column -> row !! j = Some value ->
  (column, Some value) ∈ zip_row fieldnames row.
Proof.
  revert row j. induction fieldnames as [|f fieldnames IH]; intros row j Hf Hv;
    [inversion Hf |].
  destruct row as [|v row]; [inversion Hv |].
  cbn [zip_row]. destruct j as [|j].
  - injection Hf as ->. injection Hv as ->. left.
  - right. apply (IH row j Hf Hv).
Qed.

(** A row dictionary holds, under each column of the header, the field at
    that place of the row. *)
Lemma dict_of_zip_row_lookup (fieldnames row : list string) (j : nat)
    (column value : string) :
  NoDup fieldnames ->
  fieldnames !! j = Some column -> row !! j = Some value ->
  dict_of (zip_row fieldnames row) !! column = Some (Some value).
Proof.
  intros Hnd Hf Hv. apply foldl_insert_lookup.
  - rewrite zip_row_keys. exact Hnd.
  - apply (zip_row_elem _ _ _ _ _ Hf Hv).
Qed.

(** The text of a ledger: the header line and one line per record. *)
Definition ledger_text (records : list (list string)) : string :=
  written_text (map (Py.join "|") (ledger_columns :: records)).

Lemma ledger_columns_NoDup : NoDup ledger_columns.
Proof. refine (bool_decide_unpack _ _). vm_compute. exact I. Qed.

Lemma DictReader_ledger_text (records : list (list string)) :
  Forall (fun rec => length rec = 9%nat /\ Forall (fun s => plain s = true) rec)
    records ->
  DictReader (ledger_text records)
  = map (fun rec => dict_of (zip_row ledger_columns rec)) records.
Proof.
  intros Hrecords. unfold DictReader, ledger_text.
  rewrite reader_written_text.
  - f_equal. induction Hrecords as [|rec records [Hlen _] _ IH]; [reflexivity |].
    rewrite filter_cons, decide_True, IH; [reflexivity |].
    intros ->. discriminate Hlen.
  - constructor.
    + split; [cbn; lia |]. apply Forall_forall. intros s Hs.
      unfold ledger_columns in Hs.
      repeat (apply elem_of_cons in Hs as [-> | Hs]; [reflexivity |]).
      inversion Hs.
    + eapply Forall_impl; [exact Hrecords |]. intros rec [-> Hplain].
      split; [lia | exact Hplain].
Qed.

(** The file that [initialize_output_file] creates and to which the lines
    of the records are appended holds the ledger text of the records. *)
Lemma close_initialized (output_path : string) (files : fs)
    (records : list (list string)) :
  AVLO.close output_path (map (fun rec => Py.join "|" rec +:+ nl) records)
    (existing_output.initialize_output_file output_path files) !! output_path
  = Some (ledger_text records).
Proof.
  unfold AVLO.close, existing_output.initialize_output_file.
  rewrite lookup_insert_eq, lookup_insert_eq. cbn [default]. f_equal.
  unfold ledger_text, written_text. cbn [map fold_right].
  rewrite map_map. reflexivity.
Qed.

End ledger_rows.

Section plain_numbers.

Import Py.

(** A character that no number is written with. *)
Definition no_figure (c : ascii) : Prop :=
  is_digit c = false /\ c <> "-"%char.

Lemma free_of_str_digits (c : ascii) (fuel : nat) (n : Z) (acc : string) :
  no_figure c -> free_of c acc = true ->
  free_of c (str_digits fuel n acc) = true.
Proof.
  intros [Hc _]. revert n acc. induction fuel as [|fuel IH]; intros n acc Hacc;
    [exact Hacc |].
  rewrite str_digits_step.
  assert (free_of c (String (digit_char (n mod 10)) acc) = true) as Hnext.
  { cbn [free_of]. rewrite Hacc, andb_true_r. apply negb_true_iff.
    apply Ascii.eqb_neq. intros Heq.
    destruct (digit_char_is_digit (n mod 10)) as [Hd _];
      [apply Z.mod_pos_bound; lia |].
    rewrite Heq in Hd. congruence. }
  destruct (n <? 10); [exact Hnext | apply IH, Hnext].
Qed.

Lemma free_of_str (c : ascii) (n : Z) :
  no_figure c -> free_of c (str n) = true.
Proof.
  intros Hc. unfold str. destruct (n <? 0).
  - cbn [free_of]. rewrite free_of_str_digits by (exact Hc || reflexivity).
    rewrite andb_true_r. apply negb_true_iff, Ascii.eqb_neq.
    destruct Hc as [_ Hc]. congruence.
  - apply free_of_str_digits; [exact Hc | reflexivity].
Qed.

Lemma free_of_zeros (c : ascii) (k : nat) :
  no_figure c -> free_of c (zeros k) = true.
Proof.
  intros [Hc _]. induction k as [|k IH]; [reflexivity |].
  cbn [zeros free_of]. rewrite IH, andb_true_r.
  apply negb_true_iff, Ascii.eqb_neq. intros <-. discriminate Hc.
Qed.

Lemma free_of_zfill (c : ascii) (width : nat) (s : string) :
  no_figure c -> free_of c s = true -> free_of c (zfill width s) = true.
Proof.
  intros Hc Hs. unfold zfill. destruct s as [|a r].
  - apply free_of_zeros, Hc.
  - destruct (Ascii.eqb a "+" || Ascii.eqb a "-").
    + cbn [free_of] in *. apply andb_true_iff in Hs. destruct Hs as [-> Hr].
      rewrite free_of_append, free_of_zeros, Hr by exact Hc. reflexivity.
    + rewrite free_of_append, free_of_zeros, Hs by exact Hc. reflexivity.
Qed.

Lemma no_figure_bar : no_figure "|".
Proof. split; [reflexivity | discriminate]. Qed.

Lemma no_figure_newline : no_figure csv.NEWLINE.
Proof. split; [reflexivity | discriminate]. Qed.

Lemma no_figure_return : no_figure CR.
Proof. split; [reflexivity | discriminate]. Qed.

Lemma no_figure_quote : no_figure QUOTE.
Proof. split; [reflexivity | discriminate]. Qed.

(** The search date and the search time are plain fields. *)
Lemma plain_search_date (dt_now : web_request.datetime) :
  plain (search_date_of dt_now) = true.
Proof.
  unfold search_date_of, dates.date_object_to_string_date. apply plain_free.
  repeat split; rewrite !free_of_append;
    rewrite !free_of_zfill, free_of_str;
    auto using no_figure_bar, no_figure_newline, no_figure_return,
      no_figure_quote, free_of_str.
Qed.

Lemma plain_search_time (dt_now : web_request.datetime) :
  plain (search_time_of dt_now) = true.
Proof.
  unfold search_time_of. apply plain_free.
  repeat split; rewrite !free_of_append;
    rewrite !free_of_zfill;
    auto using no_figure_bar, no_figure_newline, no_figure_return,
      no_figure_quote, free_of_str.
Qed.

End plain_numbers.

Section written_and_read.

Import csv web_request.

(** A record that the ledger keeps as it is: nine plain fields. *)
Definition ledger_record (rec : list string) : Prop :=
  length rec = 9%nat /\ Forall (fun s => plain s = true) rec.

Lemma Forall_nth_default {A : Type} (P : A -> Prop) (l : list A) (i : nat) (d : A) :
  Forall P l -> P d -> P (nth i l d).
Proof.
  intros Hl Hd. revert i. induction Hl as [|x l Hx _ IH]; intros [|i]; cbn; auto.
Qed.

Lemma Forall_last_default {A : Type} (P : A -> Prop) (l : list A) (d : A) :
  Forall P l -> P d -> P (List.last l d).
Proof.
  intros Hl Hd. induction Hl as [|x l Hx Hl IH]; [exact Hd |].
  destruct l; [exact Hx | exact IH].
Qed.

Lemma train_service_of_record (o d t sd st service : string) :
  plain o = true -> plain d = true -> plain t = true ->
  plain sd = true -> plain st = true ->
  page_text service = true ->
  ledger_record (train_service_of o d t sd st service).
Proof.
  intros Ho Hd Ht Hsd Hst Hservice. split; [reflexivity |].
  assert (Forall (fun s => plain s = true) (Py.split NEWLINE service)) as Hpieces.
  { unfold page_text in Hservice. rewrite !andb_true_iff in Hservice.
    destruct Hservice as [[Hbar Hreturn] Hquote].
    pose proof (split_pieces_free NEWLINE "|" service (or_intror Hbar)) as H1.
    pose proof (split_pieces_free NEWLINE NEWLINE service (or_introl eq_refl)) as H2.
    pose proof (split_pieces_free NEWLINE CR service (or_intror Hreturn)) as H3.
    pose proof (split_pieces_free NEWLINE QUOTE service (or_intror Hquote)) as H4.
    rewrite Forall_forall in *. intros s Hs. apply plain_free. auto. }
  unfold train_service_of.
  repeat (constructor; [first [assumption | reflexivity
                              | apply Forall_nth_default; [exact Hpieces | reflexivity]
                              | apply Forall_last_default; [exact Hpieces | reflexivity]] |]).
  constructor.
Qed.

(** A call that returns True parsed every element of the page. *)
Lemma avlo_services_try_true (o d t : string) (dt_now : datetime)
    (services : list string) (lines : list string) :
  avlo_services_try o d t dt_now (Ok services) = (Ok true, lines) ->
  lines <> []
  /\ lines
     = map (fun service =>
              Py.join "|"
                (train_service_of o d t (search_date_of dt_now)
                   (search_time_of dt_now) service) +:+ nl)
           (filter (fun service => ~ blank service) services).
Proof.
  intros Htry.
  destruct (decide (Forall (fun service => blank service \/ two_lines service)
                      services)) as [Hshape | Hbad].
  - destruct (decide (Exists (fun service => ~ blank service) services))
      as [Hsome | Hnone].
    + rewrite (avlo_services_try_parsed o d t dt_now services Hshape Hsome) in Htry.
      injection Htry as <-. split; [| reflexivity].
      apply Exists_exists in Hsome. destruct Hsome as (x & Hin & Hx).
      intros Hnil. apply map_eq_nil in Hnil.
      assert (x ∈ filter (fun service => ~ blank service) services) as Hx'
        by (apply list_elem_of_filter; auto).
      rewrite Hnil in Hx'. inversion Hx'.
    + rewrite (avlo_services_try_nothing o d t dt_now (Ok services)) in Htry;
        [discriminate Htry |].
      left. apply Forall_forall. intros x Hin.
      destruct (decide (blank x)) as [Hb | Hnb]; [exact Hb |].
      exfalso. apply Hnone. apply Exists_exists. eauto.
  - rewrite (avlo_services_try_nothing o d t dt_now (Ok services)) in Htry;
      [discriminate Htry |].
    right. apply not_Forall_Exists in Hbad; [| apply _].
    eapply Exists_impl; [exact Hbad |]. intros x Hx. cbn in Hx. tauto.
Qed.

End written_and_read.

Section written_and_read_back.

Import csv web_request.

Lemma ledger_row_of_record (f1 f2 f3 f4 f5 f6 f7 f8 f9 : string) :
  dict_of (zip_row ledger_columns [f1; f2; f3; f4; f5; f6; f7; f8; f9])
  = {[ "origin_station" := Some f1; "destination_station" := Some f2;
       "travel_date" := Some f3; "departure_time" := Some f4;
       "arrival_time" := Some f5; "price" := Some f6; "company" := Some f7;
       "search_date" := Some f8; "search_time" := Some f9 ]}.
Proof. reflexivity. Qed.


End written_and_read_back.

Section known_services.

Import csv existing_output web_request.

(** The key of a ledger record: its stations, travel date and search
    date. *)
Definition record_key (rec : list string) : task :=
  (nth 0 rec EmptyString, nth 1 rec EmptyString, nth 2 rec EmptyString,
   nth 7 rec EmptyString).

Lemma line_key_of_record (rec : list string) :
  length rec = 9%nat ->
  line_key (dict_of (zip_row ledger_columns rec)) = Some (task_key (record_key rec)).
Proof.
  intros Hlen.
  destruct rec as [|f1 [|f2 [|f3 [|f4 [|f5 [|f6 [|f7 [|f8 [|f9 [|]]]]]]]]]];
    try discriminate Hlen.
  rewrite ledger_row_of_record. vm_compute. reflexivity.
Qed.

(** On a ledger made of records, [discard_existing_services] keeps the
    tasks that are the key of no record. *)
Lemma discard_existing_services_ledger (records : list (list string))
    (tasks : list task) (output_path : string) (files : fs) :
  Forall ledger_record records ->
  files !! output_path = Some (ledger_text records) ->
  discard_existing_services tasks output_path files
  = Ok (filter (fun ser => ser ∉ map record_key records) tasks).
Proof.
  intros Hrecords Hfile. unfold discard_existing_services, read.
  rewrite Hfile. cbn [mbind result_bind Py.bind].
  rewrite DictReader_ledger_text by exact Hrecords.
  destruct (existing_services_spec
              (map (fun rec => dict_of (zip_row ledger_columns rec)) records))
    as (existing & -> & Hspec).
  { intros line k Hin Hk. apply list_elem_of_fmap in Hin.
    destruct Hin as (rec & -> & Hrec).
    apply dict_of_is_Some. rewrite zip_row_keys.
    unfold key_columns in Hk. unfold ledger_columns.
    repeat (apply elem_of_cons in Hk as [-> | Hk]; [set_solver |]).
    inversion Hk. }
  cbn [mbind result_bind Py.bind]. f_equal. apply list_filter_iff. intros ser.
  rewrite Hspec. split.
  - intros Hno Hin. apply Hno. apply list_elem_of_fmap in Hin.
    destruct Hin as (rec & -> & Hrec).
    exists (dict_of (zip_row ledger_columns rec)). split.
    + apply list_elem_of_fmap. eauto.
    + apply line_key_of_record. rewrite Forall_forall in Hrecords.
      apply (Hrecords rec Hrec).
  - intros Hno (line & Hin & Hkey). apply Hno.
    apply list_elem_of_fmap in Hin. destruct Hin as (rec & -> & Hrec).
    rewrite line_key_of_record in Hkey
      by (rewrite Forall_forall in Hrecords; apply (Hrecords rec Hrec)).
    injection Hkey as Hkey. apply list_elem_of_fmap. exists rec. split; [| exact Hrec].
    destruct ser as [[[o d] t] s]. unfold record_key.
    cbn in Hkey. congruence.
Qed.


End known_services.

Section drained_run.

Import csv existing_output web_request AVLO.

Lemma main_loop_drained (initial : nat) (start_dt : Q) (evs : list event)
    (st st' : state) :
  main_loop initial start_dt evs st = (Ok DRAINED, st') ->
  services_to_request st' = [].
Proof.
  revert st. induction evs as [|ev evs IH]; intros st.
  - cbn [main_loop]. destruct (services_to_request st) eqn:Hp;
      intros [= <-]; exact Hp.
  - cbn [main_loop]. destruct (services_to_request st) eqn:Hp.
    { intros [= <-]. exact Hp. }
    destruct (iteration initial start_dt ev st) as [st1|e]; [| discriminate].
    destruct (20 <? last_services_not_found_count st1)%nat; [discriminate |].
    apply IH.
Qed.

(** An iteration either leaves the pending services and the lines written
    as they were, or removes the service requested and writes the lines of
    a call that returned True. *)
Lemma iteration_written (initial : nat) (start_dt : Q) (ev : event)
    (st st' : state) :
  iteration initial start_dt ev st = Ok st' ->
  (services_to_request st' = services_to_request st
   /\ written st' = written st)
  \/ (exists s l1 l2 services lines,
        ev_browser ev = Ok services
        /\ avlo_services_try s.1.1.1 s.1.1.2 s.1.2 (ev_now ev) (Ok services)
           = (Ok true, lines)
        /\ services_to_request st = l1 ++ s :: l2
        /\ services_to_request st' = l1 ++ l2
        /\ written st' = written st ++ lines).
Proof.
  intros Hrun.
  destruct (choice (ev_random ev) (services_to_request st)) as [s|e] eqn:Hchoice;
    [| unfold iteration in Hrun; rewrite Hchoice in Hrun; discriminate Hrun].
  destruct (list_remove_elem s (services_to_request st)
              (choice_Ok_elem _ _ _ Hchoice)) as (l1 & l2 & Hsplit & _ & Hrem).
  unfold iteration in Hrun. rewrite Hchoice in Hrun.
  cbn [mbind result_bind Py.bind] in Hrun.
  assert (exists found lines,
             avlo_services_try s.1.1.1 s.1.1.2 s.1.2 (ev_now ev) (ev_browser ev)
             = (found, lines)) as (found & lines & Htry)
    by (destruct (avlo_services_try _ _ _ _ _); eauto).
  destruct s as [[[o d] t] sd]. cbn [fst snd] in Htry. rewrite Htry in Hrun.
  destruct found as [[|]|e]; cbn [mbind result_bind Py.bind] in Hrun;
    [| | discriminate Hrun].
  - right. rewrite Hrem in Hrun. cbn [mbind result_bind Py.bind] in Hrun.
    destruct (print_remaining_time_returns start_dt (Z.of_nat initial)
                (ev_clock ev) (Z.of_nat (length (l1 ++ l2))))
      as (printed & Hprint & _).
    rewrite Hprint in Hrun. cbn [Py.bind] in Hrun. injection Hrun as <-.
    destruct (ev_browser ev) as [services|e] eqn:Hbrowser.
    + exists (o, d, t, sd), l1, l2, services, lines. auto.
    + exfalso. unfold avlo_services_try, avlo_services in Htry.
      cbn [mbind result_bind Py.bind] in Htry.
      destruct (caught e); discriminate Htry.
  - left. injection Hrun as <-. cbn.
    apply avlo_services_try_false in Htry. subst lines.
    rewrite app_nil_r. auto.
Qed.

Variable search_date : string.

(** The services of a plan: plain stations and travel date, and the
    search date of the run. *)
Definition planned_service (s : task) : Prop :=
  plain s.1.1.1 = true /\ plain s.1.1.2 = true /\ plain s.1.2 = true
  /\ s.2 = search_date.

(** A provider call of the run: it happens on the search date, and the
    texts of the page hold no column separator, carriage return or quote. *)
Definition same_day_call (ev : event) : Prop :=
  search_date_of (ev_now ev) = search_date
  /\ match ev_browser ev with
     | Ok services => Forall (fun service => page_text service = true) services
     | Raise _ => True
     end.

(** Every planned service is still pending or has a record written. *)
Definition recorded (services : list task) (st : state) : Prop :=
  (forall s, s ∈ services_to_request st -> s ∈ services)
  /\ exists records,
       written st = map (fun rec => Py.join "|" rec +:+ nl) records
       /\ Forall ledger_record records
       /\ forall s, s ∈ services ->
            s ∈ services_to_request st \/ s ∈ map record_key records.

Lemma iteration_recorded (services : list task) (initial : nat) (start_dt : Q)
    (ev : event) (st st' : state) :
  Forall planned_service services -> same_day_call ev ->
  iteration initial start_dt ev st = Ok st' ->
  recorded services st -> recorded services st'.
Proof.
  intros Hplanned [Hday Hpage] Hiter (Hsub & records & Hwritten & Hrecords & Hall).
  apply iteration_written in Hiter.
  destruct Hiter as [(Hp & Hw)
                    | (s & l1 & l2 & page & lines & Hbrowser & Htry & Hsplit
                       & Hp & Hw)].
  - unfold recorded. rewrite Hp, Hw. eauto.
  - rewrite Hbrowser in Hpage.
    assert (planned_service s) as (Ho & Hd & Ht & Hsd).
    { rewrite Forall_forall in Hplanned. apply Hplanned, Hsub.
      rewrite Hsplit. apply elem_of_app. right. left. }
    apply avlo_services_try_true in Htry. destruct Htry as [Hsome Hlines].
    set (new := map (train_service_of s.1.1.1 s.1.1.2 s.1.2
                       (search_date_of (ev_now ev)) (search_time_of (ev_now ev)))
                  (filter (fun service => ~ blank service) page)) in *.
    assert (lines = map (fun rec => Py.join "|" rec +:+ nl) new) as Hnew
      by (subst new; rewrite map_map; exact Hlines).
    assert (Forall (fun rec => ledger_record rec /\ record_key rec = s) new)
      as Hnewrec.
    { subst new. apply Forall_map. apply Forall_forall. intros service Hin.
      apply list_elem_of_filter in Hin. destruct Hin as [_ Hin].
      rewrite Forall_forall in Hpage. split.
      - apply train_service_of_record;
          auto using plain_search_date, plain_search_time.
      - unfold record_key, train_service_of. cbn [nth]. rewrite Hday, <- Hsd.
        destruct s as [[[o d] t] sd]. reflexivity. }
    split.
    + intros s' Hin. apply Hsub. rewrite Hp in Hin. rewrite Hsplit.
      apply elem_of_app in Hin. apply elem_of_app.
      destruct Hin as [Hin | Hin]; [left | right; right]; exact Hin.
    + exists (records ++ new). split; [| split].
      * rewrite Hw, Hwritten, Hnew, map_app. reflexivity.
      * apply Forall_app. split; [exact Hrecords |].
        eapply Forall_impl; [exact Hnewrec |]. intros rec [Hrec _]. exact Hrec.
      * intros s' Hin. rewrite Hp, map_app.
        destruct (Hall s' Hin) as [Hpending | Hknown].
        -- rewrite Hsplit in Hpending. apply elem_of_app in Hpending.
           destruct Hpending as [Hl1 | Hl2].
           ++ left. apply elem_of_app. left. exact Hl1.
           ++ apply elem_of_cons in Hl2. destruct Hl2 as [-> | Hl2].
              ** right. apply elem_of_app. right.
                 destruct new as [|rec new'].
                 { exfalso. apply Hsome. rewrite Hnew. reflexivity. }
                 apply Forall_cons in Hnewrec. destruct Hnewrec as [[_ <-] _].
                 left.
              ** left. apply elem_of_app. right. exact Hl2.
        -- right. apply elem_of_app. left. exact Hknown.
Qed.

Lemma main_loop_recorded (services : list task) (initial : nat) (start_dt : Q)
    (evs : list event) (st st' : state) (outcome : result status) :
  Forall planned_service services -> Forall same_day_call evs ->
  main_loop initial start_dt evs st = (outcome, st') ->
  recorded services st -> recorded services st'.
Proof.
  intros Hplanned. revert st. induction evs as [|ev evs IH]; intros st Hcalls.
  - cbn [main_loop]. destruct (services_to_request st); intros [= <- <-]; auto.
  - apply Forall_cons in Hcalls. destruct Hcalls as [Hcall Hcalls].
    cbn [main_loop]. destruct (services_to_request st).
    { intros [= <- <-]; auto. }
    destruct (iteration initial start_dt ev st) as [st1 | e] eqn:Hiter.
    + intros Hrun Hrec.
      pose proof (iteration_recorded _ _ _ _ _ _ Hplanned Hcall Hiter Hrec) as Hrec1.
      destruct (20 <? last_services_not_found_count st1)%nat.
      * injection Hrun as <- <-. exact Hrec1.
      * apply (IH st1 Hcalls Hrun Hrec1).
    + intros [= <- <-]; auto.
Qed.

End drained_run.

Section drained_run_claim.

Import csv existing_output web_request AVLO.

Lemma filter_none {A : Type} (P : A -> Prop) `{forall x, Decision (P x)}
    (l : list A) :
  (forall x, x ∈ l -> ~ P x) -> filter P l = [].
Proof.
  induction l as [|x l IH]; intros Hno; [reflexivity |].
  rewrite filter_cons, decide_False by (apply Hno; left).
  apply IH. intros y Hy. apply Hno. right. exact Hy.
Qed.

Variable join : string -> string -> string.
Variable dirname : string -> string.
Variable flushed : string -> nat.


End drained_run_claim.

Section written_and_loaded.

Import csv web_request round_trips_finder.

Variable float_of_str : string -> option float.

Lemma ledger_row_lookups (f1 f2 f3 f4 f5 f6 f7 f8 f9 : string) :
  let line : gmap string (option string) :=
    dict_of (zip_row ledger_columns [f1; f2; f3; f4; f5; f6; f7; f8; f9]) in
  line !! "origin_station" = Some (Some f1)
  /\ line !! "destination_station" = Some (Some f2)
  /\ line !! "travel_date" = Some (Some f3)
  /\ line !! "departure_time" = Some (Some f4)
  /\ line !! "arrival_time" = Some (Some f5)
  /\ line !! "price" = Some (Some f6)
  /\ line !! "company" = Some (Some f7).
Proof. vm_compute. repeat split. Qed.

(** The train that [load_trains] makes of a page element written by a
    call for the same stations and travel date, if its last line is a
    price. *)
Definition train_of_service (travel_date service : string) : option train :=
  price ← float_of_str
            (Py.replace "€" ""
               (Py.replace "," "."
                  (List.last (Py.split NEWLINE service) EmptyString)));
  Some ((Some (nth 0 (Py.split NEWLINE service) EmptyString),
         Some (nth 1 (Py.split NEWLINE service) EmptyString)),
        price, Some "AVLO", travel_date).

Lemma train_of_written_line (o d t sd st : string) (travel_dates : list string)
    (date service : string) :
  let line :=
    dict_of (zip_row ledger_columns (train_service_of o d t sd st service)) in
  readable o d travel_dates line
  /\ train_of_line float_of_str o d travel_dates date line
     = if decide (date = t /\ t ∈ travel_dates)
       then train_of_service t service else None.
Proof.
  cbv zeta. unfold train_service_of.
  destruct (ledger_row_lookups o d t
              (nth 0 (Py.split NEWLINE service) EmptyString)
              (nth 1 (Py.split NEWLINE service) EmptyString)
              (List.last (Py.split NEWLINE service) EmptyString)
              "AVLO" sd st) as (H1 & H2 & H3 & H4 & H5 & H6 & H7).
  cbv zeta in H1, H2, H3, H4, H5, H6, H7.
  split.
  - split.
    + unfold load_columns.
      repeat (constructor; [eauto |]). constructor.
    + intros _. unfold field. rewrite H6. eauto.
  - unfold train_of_line, field. rewrite H1, H2, H3, H4, H5, H6, H7.
    destruct (decide (date = t /\ t ∈ travel_dates)) as [[-> Hin] | Hno].
    + rewrite decide_True by auto. reflexivity.
    + rewrite decide_False; [reflexivity |].
      intros (_ & _ & [= <-] & Hin). auto.
Qed.

Lemma omap_none {A B : Type} (l : list A) :
  omap (fun _ : A => @None B) l = [].
Proof. induction l as [|x l IH]; [reflexivity | exact IH]. Qed.

Lemma trains_on_written (o d t sd st : string) (travel_dates : list string)
    (date : string) (services : list string) :
  trains_on float_of_str o d travel_dates date
    (map (fun service =>
            dict_of (zip_row ledger_columns
                       (train_service_of o d t sd st service)))
         services)
  = omap (fun service =>
            if decide (date = t /\ t ∈ travel_dates)
            then train_of_service t service else None)
         services.
Proof.
  unfold trains_on.
  induction services as [|x l IH]; [reflexivity |].
  cbn [map omap list_omap].
  rewrite (proj2 (train_of_written_line o d t sd st travel_dates date x)).
  cbn [omap] in IH. rewrite IH. reflexivity.
Qed.


End written_and_loaded.

Section calendar.

Import dates.

(** The month and the day of the month of a day of the year, counted
    from 0: the end of [fromordinal]. *)
Definition month_day (leapyear : bool) (n : Z) : Z * Z :=
  let m := Z.shiftr (n + 50) 5 in
  let preceding :=
    nth (Z.to_nat m) DAYS_BEFORE_MONTH 0
    + (if (2 <? m) && leapyear then 1 else 0) in
  if n <? preceding then
    let m := m - 1 in
    let preceding :=
      preceding
      - (nth (Z.to_nat m) DAYS_IN_MONTH 0
         + (if (m =? 2) && leapyear then 1 else 0)) in
    (m, n - preceding + 1)
  else (m, n - preceding + 1).

Definition month_day_ok (leapyear : bool) (n : Z) : bool :=
  let '(m, d) := month_day leapyear n in
  (1 <=? m) && (m <=? 12) && (1 <=? d)
  && (d <=? nth (Z.to_nat m) DAYS_IN_MONTH 0
            + (if (m =? 2) && leapyear then 1 else 0))
  && (nth (Z.to_nat m) DAYS_BEFORE_MONTH 0
      + (if (2 <? m) && leapyear then 1 else 0) + d =? n + 1).

Lemma month_day_spec (leapyear : bool) (n : Z) :
  0 <= n < 365 ->
  month_day_ok leapyear n = true.
Proof.
  intros Hn.
  assert (forallb (fun n => month_day_ok true n && month_day_ok false n)
            (seqZ 0 365) = true) as Hall by (vm_compute; reflexivity).
  rewrite forallb_forall in Hall.
  specialize (Hall n). rewrite <- list_elem_of_In, elem_of_seqZ in Hall.
  specialize (Hall ltac:(lia)). apply andb_true_iff in Hall.
  destruct leapyear; tauto.
Qed.

Lemma days_before_year_decomposed (n400 n100 n4 n1 : Z) :
  0 <= n400 -> 0 <= n100 <= 3 -> 0 <= n4 <= 24 -> 0 <= n1 <= 3 ->
  days_before_year (n400 * 400 + 1 + n100 * 100 + n4 * 4 + n1)
  = n400 * 146097 + n100 * 36524 + n4 * 1461 + n1 * 365.
Proof. intros. unfold days_before_year. cbv zeta. div_lia. Qed.

Lemma is_leap_decomposed (n400 n100 n4 n1 : Z) :
  0 <= n400 -> 0 <= n100 <= 3 -> 0 <= n4 <= 24 -> 0 <= n1 <= 3 ->
  is_leap (n400 * 400 + 1 + n100 * 100 + n4 * 4 + n1)
  = (n1 =? 3) && (negb (n4 =? 24) || (n100 =? 3)).
Proof.
  intros. unfold is_leap.
  destruct (Z.eqb_spec n1 3), (Z.eqb_spec n4 24), (Z.eqb_spec n100 3);
    cbn [andb orb negb];
    repeat match goal with
           | |- context [?a =? ?b] => destruct (Z.eqb_spec a b)
           end;
    cbn [andb orb negb]; try reflexivity; exfalso; div_lia.
Qed.

Lemma valid_date_intro (y m d : Z) :
  1 <= y <= 9999 -> 1 <= m <= 12 -> 1 <= d <= days_in_month y m ->
  valid_date (mk_date y m d) = true.
Proof.
  intros Hy Hm Hd. unfold valid_date, MAXYEAR. cbn [year month day].
  rewrite !andb_true_iff, !Z.leb_le. lia.
Qed.

Lemma fromordinal_spec (n : Z) :
  1 <= n <= MAXORDINAL ->
  valid_date (fromordinal n) = true /\ toordinal (fromordinal n) = n.
Proof.
  unfold MAXORDINAL. intros Hn.
  unfold fromordinal. cbv zeta.
  set (n400 := (n - 1) / 146097).
  set (r400 := (n - 1) mod 146097).
  set (n100 := r400 / 36524).
  set (r100 := r400 mod 36524).
  set (n4 := r100 / 1461).
  set (r4 := r100 mod 1461).
  set (n1 := r4 / 365).
  set (r := r4 mod 365).
  assert (n - 1 = n400 * 146097 + r400 /\ 0 <= r400 < 146097) as [E400 B400]
    by (subst n400 r400; div_lia).
  assert (r400 = n100 * 36524 + r100 /\ 0 <= r100 < 36524) as [E100 B100]
    by (subst n100 r100; div_lia).
  assert (r100 = n4 * 1461 + r4 /\ 0 <= r4 < 1461) as [E4 B4]
    by (subst n4 r4; div_lia).
  assert (r4 = n1 * 365 + r /\ 0 <= r < 365) as [E1 B1]
    by (subst n1 r; div_lia).
  clearbody n400 r400 n100 r100 n4 r4 n1 r.
  assert (0 <= n400 <= 24) as H400 by lia.
  assert (0 <= n100 <= 4) as H100 by lia.
  assert (0 <= n4 <= 24) as H4 by lia.
  assert (0 <= n1 <= 4) as H1 by lia.
  assert (n400 * 400 + n100 * 100 + n4 * 4 + n1 <= 9998) as Hyear.
  { destruct (Z.eq_dec n400 24); [| lia].
    destruct (Z.eq_dec n100 3); [| lia].
    destruct (Z.eq_dec n4 24); lia. }
  destruct (Z.eqb_spec n1 4) as [e1 | ne1];
    [| destruct (Z.eqb_spec n100 4) as [e100 | ne100]]; cbn [orb].
  - (* the last day of a leap year *)
    assert (n100 <= 3 /\ n4 <= 23 /\ r = 0) as (? & ? & ?) by lia.
    replace (n400 * 400 + 1 + n100 * 100 + n4 * 4 + n1 - 1)
      with (n400 * 400 + 1 + n100 * 100 + n4 * 4 + 3) by lia.
    pose proof (is_leap_decomposed n400 n100 n4 3) as Hleap.
    pose proof (days_before_year_decomposed n400 n100 n4 3) as Hdays.
    destruct (Z.eqb_spec n4 24) as [|_]; [lia |].
    cbn in Hleap.
    split.
    + apply valid_date_intro; [lia | lia |].
      change (days_in_month (n400 * 400 + 1 + n100 * 100 + n4 * 4 + 3) 12)
        with 31. lia.
    + unfold toordinal, days_before_month. cbn [year month day].
      rewrite Hleap, Hdays by lia.
      change (nth (Z.to_nat 12) DAYS_BEFORE_MONTH 0
              + (if (2 <? 12) && true then 1 else 0)) with 335. lia.
  - (* the last day of the 400 years *)
    assert (n4 = 0 /\ n1 = 0 /\ r = 0) as (? & ? & ?) by lia.
    replace (n400 * 400 + 1 + n100 * 100 + n4 * 4 + n1 - 1)
      with (n400 * 400 + 1 + 3 * 100 + 24 * 4 + 3) by lia.
    pose proof (is_leap_decomposed n400 3 24 3) as Hleap.
    pose proof (days_before_year_decomposed n400 3 24 3) as Hdays.
    cbn in Hleap.
    split.
    + apply valid_date_intro; [lia | lia |].
      change (days_in_month (n400 * 400 + 1 + 3 * 100 + 24 * 4 + 3) 12)
        with 31. lia.
    + unfold toordinal, days_before_month. cbn [year month day].
      rewrite Hleap, Hdays by lia.
      change (nth (Z.to_nat 12) DAYS_BEFORE_MONTH 0
              + (if (2 <? 12) && true then 1 else 0)) with 335. lia.
  - pose proof (is_leap_decomposed n400 n100 n4 n1) as Hleap.
    pose proof (days_before_year_decomposed n400 n100 n4 n1) as Hdays.
    set (leapyear := (n1 =? 3) && (negb (n4 =? 24) || (n100 =? 3))) in *.
    set (y := n400 * 400 + 1 + n100 * 100 + n4 * 4 + n1) in *.
    assert (1 <= y <= 9999) as Hy by (subst y; lia).
    pose proof (month_day_spec leapyear r B1) as Hok.
    unfold month_day_ok in Hok.
    match goal with
    | |- valid_date ?d = true /\ _ =>
        assert (d = mk_date y (month_day leapyear r).1 (month_day leapyear r).2)
          as -> by (unfold month_day; cbv zeta; destruct (_ <? _); reflexivity)
    end.
    destruct (month_day leapyear r) as [m d]. cbn [fst snd].
    rewrite !andb_true_iff, !Z.leb_le, Z.eqb_eq in Hok.
    destruct Hok as ((((Hm1 & Hm2) & Hd1) & Hd2) & Hsum).
    specialize (Hleap ltac:(lia) ltac:(lia) ltac:(lia) ltac:(lia)).
    specialize (Hdays ltac:(lia) ltac:(lia) ltac:(lia) ltac:(lia)).
    split.
    + apply valid_date_intro; [lia | lia |].
      unfold days_in_month. rewrite Hleap.
      destruct (Z.eqb_spec m 2) as [-> | _]; cbn [andb] in *; [| lia].
      change (nth (Z.to_nat 2) DAYS_IN_MONTH 0) with 28 in *.
      destruct leapyear; lia.
    + unfold toordinal, days_before_month. cbn [year month day].
      rewrite Hleap, Hdays. lia.
Qed.


Lemma days_before_year_succ (y : Z) :
  days_before_year (y + 1)
  = days_before_year y + 365 + (if is_leap y then 1 else 0).
Proof.
  unfold days_before_year, is_leap. cbv zeta.
  replace (y + 1 - 1) with y by lia.
  destruct (Z.eqb_spec (y mod 4) 0), (Z.eqb_spec (y mod 100) 0),
    (Z.eqb_spec (y mod 400) 0); cbn [andb orb negb]; div_lia.
Qed.

Lemma days_before_year_mono (y1 y2 : Z) :
  y1 <= y2 -> days_before_year y1 <= days_before_year y2.
Proof.
  intros Hle. replace y2 with (y1 + Z.of_nat (Z.to_nat (y2 - y1))) by lia.
  induction (Z.to_nat (y2 - y1)) as [|k IH]; [rewrite Z.add_0_r; lia |].
  rewrite Nat2Z.inj_succ, <- Z.add_1_r, Z.add_assoc, days_before_year_succ.
  destruct (is_leap _); lia.
Qed.

(** The months of a year that is not a leap year (as the year 1) and of a
    leap year (as the year 4): each month starts where the one before
    ends. *)
Definition months_ok (y : Z) : bool :=
  forallb (fun m =>
             (0 <=? days_before_month y m)
             && (days_before_month y m + days_in_month y m
                 <=? 365 + (if is_leap y then 1 else 0))
             && forallb (fun m' =>
                           (m' <=? m)
                           || (days_before_month y m + days_in_month y m
                               <=? days_before_month y m'))
                  (seqZ 1 12))
    (seqZ 1 12).

Lemma months_as (y : Z) :
  exists y', (y' = 1 \/ y' = 4) /\ is_leap y = is_leap y'
             /\ (forall m, days_in_month y m = days_in_month y' m)
             /\ (forall m, days_before_month y m = days_before_month y' m).
Proof.
  exists (if is_leap y then 4 else 1).
  unfold days_in_month, days_before_month.
  destruct (is_leap y); repeat split; auto.
Qed.

Lemma months_spec (y m : Z) :
  1 <= m <= 12 ->
  0 <= days_before_month y m
  /\ days_before_month y m + days_in_month y m
     <= 365 + (if is_leap y then 1 else 0)
  /\ forall m', 1 <= m' <= 12 -> m < m' ->
       days_before_month y m + days_in_month y m <= days_before_month y m'.
Proof.
  intros Hm.
  destruct (months_as y) as (y' & Hy' & -> & Hin & Hbefore).
  rewrite !Hin, !Hbefore.
  assert (months_ok y' = true) as Hall
    by (destruct Hy' as [-> | ->]; vm_compute; reflexivity).
  unfold months_ok in Hall. rewrite forallb_forall in Hall.
  specialize (Hall m). rewrite <- list_elem_of_In, elem_of_seqZ in Hall.
  specialize (Hall ltac:(lia)).
  rewrite !andb_true_iff, !Z.leb_le, forallb_forall in Hall.
  destruct Hall as [[H0 Hend] Hnext].
  split; [exact H0 |]. split; [exact Hend |].
  intros m' Hm' Hlt. rewrite Hbefore.
  specialize (Hnext m'). rewrite <- list_elem_of_In, elem_of_seqZ in Hnext.
  specialize (Hnext ltac:(lia)).
  rewrite orb_true_iff, !Z.leb_le in Hnext. lia.
Qed.

Lemma valid_date_inv (d : date) :
  valid_date d = true ->
  1 <= year d <= 9999 /\ 1 <= month d <= 12
  /\ 1 <= day d <= days_in_month (year d) (month d).
Proof.
  unfold valid_date, MAXYEAR. rewrite !andb_true_iff, !Z.leb_le. lia.
Qed.

Lemma toordinal_bounds (d : date) :
  valid_date d = true ->
  days_before_year (year d) + 1 <= toordinal d
  /\ toordinal d <= days_before_year (year d + 1).
Proof.
  intros Hvalid. destruct (valid_date_inv d Hvalid) as (Hy & Hm & Hd).
  destruct (months_spec (year d) (month d) Hm) as (H0 & Hend & _).
  rewrite days_before_year_succ. unfold toordinal. lia.
Qed.

Lemma toordinal_range (d : date) :
  valid_date d = true -> 1 <= toordinal d <= MAXORDINAL.
Proof.
  intros Hvalid. destruct (valid_date_inv d Hvalid) as (Hy & _).
  destruct (toordinal_bounds d Hvalid) as [Hlo Hhi].
  pose proof (days_before_year_mono 1 (year d) ltac:(lia)) as H1.
  pose proof (days_before_year_mono (year d + 1) 10000 ltac:(lia)) as H2.
  change (days_before_year 1) with 0 in H1.
  change (days_before_year 10000) with 3652059 in H2.
  unfold MAXORDINAL. lia.
Qed.

Lemma toordinal_inj (d1 d2 : date) :
  valid_date d1 = true -> valid_date d2 = true ->
  toordinal d1 = toordinal d2 -> d1 = d2.
Proof.
  intros Hv1 Hv2 Heq.
  destruct (toordinal_bounds d1 Hv1) as [Hlo1 Hhi1].
  destruct (toordinal_bounds d2 Hv2) as [Hlo2 Hhi2].
  assert (year d1 = year d2) as Hyear.
  { destruct (Z.lt_trichotomy (year d1) (year d2)) as [Hlt | [Hyy | Hlt]];
      [| exact Hyy |].
    - pose proof (days_before_year_mono (year d1 + 1) (year d2) ltac:(lia)). lia.
    - pose proof (days_before_year_mono (year d2 + 1) (year d1) ltac:(lia)). lia. }
  destruct (valid_date_inv d1 Hv1) as (_ & Hm1 & Hd1).
  destruct (valid_date_inv d2 Hv2) as (_ & Hm2 & Hd2).
  destruct d1 as [y1 m1 dd1], d2 as [y2 m2 dd2].
  unfold toordinal in Heq. cbn [year month day] in *. subst y2.
  destruct (months_spec y1 m1 Hm1) as (_ & _ & Hn1).
  destruct (months_spec y1 m2 Hm2) as (_ & _ & Hn2).
  assert (m1 = m2) as ->.
  { destruct (Z.lt_trichotomy m1 m2) as [Hlt | [Hmm | Hlt]]; [| exact Hmm |].
    - specialize (Hn1 m2 Hm2 Hlt). lia.
    - specialize (Hn2 m1 Hm1 Hlt). lia. }
  f_equal. lia.
Qed.

Lemma fromordinal_toordinal (d : date) :
  valid_date d = true -> fromordinal (toordinal d) = d.
Proof.
  intros Hvalid.
  destruct (fromordinal_spec (toordinal d) (toordinal_range d Hvalid))
    as [Hv Ho].
  exact (toordinal_inj _ _ Hv Hvalid Ho).
Qed.

End calendar.

Section date_strings.

Import Py dates.

Lemma int_one_digit (a : ascii) :
  is_digit a = true -> int (String a EmptyString) = Ok (digit_val a).
Proof.
  intros Ha.
  destruct (is_digit_inv a Ha) as (Hsa & Hma & Hpa & _).
  unfold int, strip. cbn [lstrip rstrip]. rewrite Hsa. cbn [rstrip].
  rewrite Hsa, Hma, Hpa. cbn [digits_value]. rewrite Ha.
  f_equal.
Qed.

Lemma int_three_digits (a b c : ascii) :
  is_digit a = true -> is_digit b = true -> is_digit c = true ->
  int (String a (String b (String c EmptyString)))
  = Ok (100 * digit_val a + 10 * digit_val b + digit_val c).
Proof.
  intros Ha Hb Hc.
  destruct (is_digit_inv a Ha) as (Hsa & Hma & Hpa & _).
  destruct (is_digit_inv b Hb) as (Hsb & _).
  destruct (is_digit_inv c Hc) as (Hsc & _).
  unfold int, strip. cbn [lstrip rstrip]. rewrite Hsa. cbn [rstrip].
  rewrite Hsc, Hma, Hpa. cbn [digits_value]. rewrite Ha, Hb, Hc.
  f_equal. lia.
Qed.

Lemma str_three_digits (n : Z) :
  100 <= n < 1000 ->
  str n = String (digit_char (n / 100))
            (String (digit_char (n / 10 mod 10))
               (String (digit_char (n mod 10)) EmptyString)).
Proof.
  intros Hn. unfold str.
  destruct (Z.ltb_spec n 0) as [|_]; [div_lia |].
  assert (6 <= Z.log2 n) as Hlog.
  { change 6 with (Z.log2 64). apply Z.log2_le_mono. lia. }
  destruct (Z.to_nat (Z.log2 n)) as [|[|f]] eqn:Hf; [lia | lia |].
  rewrite !str_digits_step.
  destruct (Z.ltb_spec n 10) as [|_]; [div_lia |].
  destruct (Z.ltb_spec (n / 10) 10) as [|_]; [div_lia |].
  destruct (Z.ltb_spec (n / 10 / 10) 10) as [_|]; [| div_lia].
  replace (n / 10 / 10 mod 10) with (n / 100) by div_lia.
  replace (n / 10 / 10) with (n / 100) by div_lia.
  reflexivity.
Qed.

(** The year of a date string is read from its seventh character on, four
    characters at most. *)
Lemma int_str_year (y : Z) :
  1 <= y <= 9999 -> int (substring 0 4 (str y)) = Ok y.
Proof.
  intros Hy.
  destruct (Z.lt_ge_cases y 10);
    [| destruct (Z.lt_ge_cases y 100); [| destruct (Z.lt_ge_cases y 1000)]].
  - rewrite str_one_digit by lia.
    destruct (digit_char_is_digit y ltac:(lia)) as [Hi Hv].
    cbn [substring]. rewrite int_one_digit, Hv by assumption. reflexivity.
  - rewrite str_two_digits by lia.
    destruct (digit_char_is_digit (y / 10) ltac:(div_lia)) as [Hi1 Hv1].
    destruct (digit_char_is_digit (y mod 10) ltac:(div_lia)) as [Hi2 Hv2].
    cbn [substring]. rewrite int_two_digits, Hv1, Hv2 by assumption.
    f_equal. div_lia.
  - rewrite str_three_digits by lia.
    destruct (digit_char_is_digit (y / 100) ltac:(div_lia)) as [Hi1 Hv1].
    destruct (digit_char_is_digit (y / 10 mod 10) ltac:(div_lia)) as [Hi2 Hv2].
    destruct (digit_char_is_digit (y mod 10) ltac:(div_lia)) as [Hi3 Hv3].
    cbn [substring]. rewrite int_three_digits, Hv1, Hv2, Hv3 by assumption.
    f_equal. div_lia.
  - rewrite str_four_digits by lia.
    destruct (digit_char_is_digit (y / 1000) ltac:(div_lia)) as [Hi1 Hv1].
    destruct (digit_char_is_digit (y / 100 mod 10) ltac:(div_lia)) as [Hi2 Hv2].
    destruct (digit_char_is_digit (y / 10 mod 10) ltac:(div_lia)) as [Hi3 Hv3].
    destruct (digit_char_is_digit (y mod 10) ltac:(div_lia)) as [Hi4 Hv4].
    cbn [substring].
    rewrite int_four_digits, Hv1, Hv2, Hv3, Hv4 by assumption.
    f_equal. div_lia.
Qed.

(** The string of a date of the calendar is read back as that date, also
    when the year has fewer than four digits. *)
Lemma date_string_parses (d : date) :
  valid_date d = true ->
  string_date_to_date_object (date_object_to_string_date d) = Ok d.
Proof.
  intros Hvalid.
  destruct (valid_date_bounds d Hvalid) as (Hy & Hm & Hd).
  unfold string_date_to_date_object, date_object_to_string_date.
  rewrite (zfill_two (day d)), (zfill_two (month d)) by lia.
  destruct (digit_char_is_digit (day d / 10) ltac:(div_lia)) as [Hi1 Hv1].
  destruct (digit_char_is_digit (day d mod 10) ltac:(div_lia)) as [Hi2 Hv2].
  destruct (digit_char_is_digit (month d / 10) ltac:(div_lia)) as [Hi3 Hv3].
  destruct (digit_char_is_digit (month d mod 10) ltac:(div_lia)) as [Hi4 Hv4].
  pose proof (int_str_year (year d) Hy) as Hyear.
  revert Hi1 Hv1 Hi2 Hv2 Hi3 Hv3 Hi4 Hv4 Hyear.
  generalize (digit_char (day d / 10)) (digit_char (day d mod 10))
    (digit_char (month d / 10)) (digit_char (month d mod 10))
    (str (year d)).
  intros c1 c2 c3 c4 sy Hi1 Hv1 Hi2 Hv2 Hi3 Hv3 Hi4 Hv4 Hyear.
  cbv [String.append slice Nat.sub]. cbn [substring].
  rewrite Hyear, int_two_digits, int_two_digits by assumption.
  cbn [mbind result_bind bind].
  rewrite Hv1, Hv2, Hv3, Hv4.
  replace (10 * (month d / 10) + month d mod 10) with (month d) by div_lia.
  replace (10 * (day d / 10) + day d mod 10) with (day d) by div_lia.
  unfold date_new. destruct d as [y m dd]. cbn [year month day] in *.
  rewrite Hvalid. reflexivity.
Qed.

Lemma string_date_to_date_object_valid (string_date : string) (d : date) :
  string_date_to_date_object string_date = Ok d -> valid_date d = true.
Proof.
  unfold string_date_to_date_object, date_new.
  destruct (int (slice 6 10 string_date)) as [y|]; [| discriminate].
  destruct (int (slice 3 5 string_date)) as [m|]; [| discriminate].
  destruct (int (slice 0 2 string_date)) as [dd|]; [| discriminate].
  cbn [mbind result_bind bind]. cbv zeta.
  destruct (valid_date (mk_date y m dd)) eqn:Hvalid; [| discriminate].
  intros [= <-]. exact Hvalid.
Qed.

End date_strings.

Section date_intervals.

Import Py dates.

(** The string of the day with a given ordinal. *)
Definition day_string (n : Z) : string :=
  date_object_to_string_date (fromordinal n).

Lemma add_one_day (d : date) :
  valid_date d = true ->
  add_timedelta_days d 1
  = if toordinal d =? MAXORDINAL then Raise OverflowError
    else Ok (fromordinal (toordinal d + 1)).
Proof.
  intros Hvalid. pose proof (toordinal_range d Hvalid) as Hrange.
  unfold add_timedelta_days. cbv zeta.
  destruct (Z.eqb_spec (toordinal d) MAXORDINAL) as [-> | Hne].
  - reflexivity.
  - destruct (Z.ltb_spec 0 (toordinal d + 1)); [| lia].
    destruct (Z.leb_spec (toordinal d + 1) MAXORDINAL); [| lia].
    reflexivity.
Qed.

Lemma inbetween_loop_spec (last_date_object : date) (k : nat) :
  valid_date last_date_object = true ->
  forall (fuel : nat) (current_date_object : date) (inbetween_dates : list string),
    valid_date current_date_object = true ->
    toordinal current_date_object + Z.of_nat k = toordinal last_date_object + 1 ->
    (k < fuel)%nat ->
    inbetween_loop fuel current_date_object last_date_object inbetween_dates
    = if (toordinal last_date_object =? MAXORDINAL) && (0 <? Z.of_nat k)
      then Raise OverflowError
      else Ok (inbetween_dates
               ++ map day_string (seqZ (toordinal current_date_object) (Z.of_nat k))).
Proof.
  intros Hlast. apply toordinal_range in Hlast.
  induction k as [|k IH]; intros fuel cur acc Hvalid Hk Hfuel;
    (destruct fuel as [|fuel]; [lia |]); cbn [inbetween_loop]; unfold date_le.
  - destruct (Z.leb_spec (toordinal cur) (toordinal last_date_object)); [lia |].
    rewrite andb_false_r. cbn [seqZ]. rewrite app_nil_r. reflexivity.
  - destruct (Z.leb_spec (toordinal cur) (toordinal last_date_object)); [| lia].
    rewrite (add_one_day cur Hvalid).
    pose proof (toordinal_range cur Hvalid) as Hrange.
    destruct (Z.eqb_spec (toordinal cur) MAXORDINAL) as [Hmax | Hne].
    + cbn [mbind result_bind bind].
      destruct (Z.eqb_spec (toordinal last_date_object) MAXORDINAL) as [_ | Hl];
        [reflexivity |].
      lia.
    + cbn [mbind result_bind bind].
      destruct (fromordinal_spec (toordinal cur + 1) ltac:(lia)) as [Hv Ho].
      rewrite (IH fuel _ _ Hv) by lia.
      rewrite Ho.
      replace (0 <? Z.of_nat (S k)) with true by (symmetry; apply Z.ltb_lt; lia).
      destruct ((toordinal last_date_object =? MAXORDINAL) && (0 <? Z.of_nat k))
        eqn:Hover.
      * apply andb_true_iff in Hover. destruct Hover as [-> _]. reflexivity.
      * destruct (Z.eqb_spec (toordinal last_date_object) MAXORDINAL) as [Hl | _].
        { cbn [andb] in Hover. apply Z.ltb_ge in Hover. lia. }
        cbn [andb]. f_equal.
        rewrite (seqZ_cons (toordinal cur) (Z.of_nat (S k))) by lia. cbn [map].
        change (day_string (toordinal cur))
          with (date_object_to_string_date (fromordinal (toordinal cur))).
        rewrite (fromordinal_toordinal cur Hvalid), <- app_assoc.
        replace (Z.pred (Z.of_nat (S k))) with (Z.of_nat k) by lia.
        reflexivity.
Qed.

Lemma load_dates_inbetween_parsed (first_date last_date : string)
    (first_date_object last_date_object : date) :
  string_date_to_date_object first_date = Ok first_date_object ->
  string_date_to_date_object last_date = Ok last_date_object ->
  load_dates_inbetween first_date last_date
  = if toordinal last_date_object <? toordinal first_date_object
    then Raise AssertionError
    else if toordinal last_date_object =? MAXORDINAL then Raise OverflowError
    else Ok (map day_string
               (seqZ (toordinal first_date_object)
                  (toordinal last_date_object - toordinal first_date_object + 1))).
Proof.
  intros Hfirst Hlast. unfold load_dates_inbetween.
  rewrite Hfirst, Hlast. cbn [mbind result_bind bind]. unfold date_le.
  apply string_date_to_date_object_valid in Hfirst, Hlast.
  destruct (Z.ltb_spec (toordinal last_date_object) (toordinal first_date_object))
    as [Hlt | Hle].
  - destruct (Z.leb_spec (toordinal first_date_object) (toordinal last_date_object));
      [lia | reflexivity].
  - destruct (Z.leb_spec (toordinal first_date_object) (toordinal last_date_object));
      [| lia].
    cbn [negb].
    rewrite (inbetween_loop_spec last_date_object
               (Z.to_nat (toordinal last_date_object
                          - toordinal first_date_object + 1)) Hlast)
      by (assumption || lia).
    replace (0 <? Z.of_nat (Z.to_nat (toordinal last_date_object
                                      - toordinal first_date_object + 1)))
      with true by (symmetry; apply Z.ltb_lt; lia).
    rewrite andb_true_r, Z2Nat.id by lia. reflexivity.
Qed.

(** The strings of the days are read back as these days, so two days have
    different strings. *)
Lemma day_string_parses (n : Z) :
  1 <= n <= MAXORDINAL ->
  string_date_to_date_object (day_string n) = Ok (fromordinal n).
Proof.
  intros Hn. apply date_string_parses, fromordinal_spec, Hn.
Qed.

Lemma day_string_inj (n m : Z) :
  1 <= n <= MAXORDINAL -> 1 <= m <= MAXORDINAL ->
  day_string n = day_string m -> n = m.
Proof.
  intros Hn Hm Heq.
  pose proof (day_string_parses n Hn) as Pn.
  pose proof (day_string_parses m Hm) as Pm.
  rewrite Heq, Pm in Pn.
  pose proof (proj2 (fromordinal_spec n Hn)) as On.
  pose proof (proj2 (fromordinal_spec m Hm)) as Om.
  revert Pn On Om. generalize (fromordinal n) (fromordinal m).
  intros dn dm [= ->] On Om. lia.
Qed.

Lemma add_days_to_date_parsed (original_date : string) (d : date)
    (days_to_add : Z) :
  string_date_to_date_object original_date = Ok d ->
  add_days_to_date original_date days_to_add
  = if (0 <? toordinal d + days_to_add)
       && (toordinal d + days_to_add <=? MAXORDINAL)
    then Ok (day_string (toordinal d + days_to_add))
    else Raise OverflowError.
Proof.
  intros Hparse. unfold add_days_to_date, add_timedelta_days.
  rewrite Hparse. cbn [mbind result_bind bind]. cbv zeta. unfold day_string.
  destruct ((0 <? _) && (_ <=? _)); reflexivity.
Qed.





End date_intervals.

Section date_strings_restored.

Import Py dates.

(** The string of a date whose year has fewer than four digits is shorter
    than DD/MM/YYYY. *)
Lemma short_year_string (d : date) :
  valid_date d = true -> year d < 1000 ->
  (String.length (date_object_to_string_date d) < 10)%nat.
Proof.
  intros Hvalid Hyear.
  destruct (valid_date_bounds d Hvalid) as (Hy & Hm & Hd).
  unfold date_object_to_string_date.
  rewrite (zfill_two (day d)), (zfill_two (month d)) by lia.
  destruct (Z.lt_ge_cases (year d) 10);
    [| destruct (Z.lt_ge_cases (year d) 100)].
  - rewrite str_one_digit by lia. cbv [String.append String.length]. lia.
  - rewrite str_two_digits by lia. cbv [String.append String.length]. lia.
  - rewrite str_three_digits by lia. cbv [String.append String.length]. lia.
Qed.

(** A valid date string has ten characters and is read as a date of the
    calendar, of a year below 1000 when its year starts with a zero. *)
Lemma valid_date_string_parses (s : string) :
  valid_date_string s = true ->
  String.length s = 10%nat
  /\ exists d, string_date_to_date_object s = Ok d
               /\ valid_date d = true
               /\ (four_digit_year s = false -> year d < 1000).
Proof.
  destruct s as [|d1 [|d2 [|s1 [|m1 [|m2 [|s2 [|y1 [|y2 [|y3 [|y4 [|]]]]]]]]]]];
    try discriminate.
  cbn [valid_date_string]. unfold four_digit_year. cbn [String.get].
  rewrite !andb_true_iff.
  intros ((((((((((Hd1 & Hd2) & Hs1) & Hm1) & Hm2) & Hs2)
                 & Hy1) & Hy2) & Hy3) & Hy4) & Hvalid).
  split; [reflexivity |].
  destruct (is_digit_inv y1 Hy1) as (_ & _ & _ & Hb5 & _).
  destruct (is_digit_inv y2 Hy2) as (_ & _ & _ & Hb6 & _).
  destruct (is_digit_inv y3 Hy3) as (_ & _ & _ & Hb7 & _).
  destruct (is_digit_inv y4 Hy4) as (_ & _ & _ & Hb8 & _).
  eexists. split; [| split].
  - unfold string_date_to_date_object.
    cbv [slice substring Nat.sub].
    rewrite int_four_digits, int_two_digits, int_two_digits by assumption.
    cbn [mbind result_bind bind]. unfold date_new. rewrite Hvalid. reflexivity.
  - exact Hvalid.
  - rewrite negb_false_iff. intros Hzero. apply Ascii.eqb_eq in Hzero.
    subst y1. cbn [year]. change (digit_val "0") with 0. lia.
Qed.


End date_strings_restored.

(** ** Dictionaries whose key equality is symmetric *)

Section symmetric_keys.

Import round_trips_finder.

(** [==] on floats does not depend on the order of its operands. *)
Lemma float_eqb_sym (x y : float) : PrimFloat.eqb x y = PrimFloat.eqb y x.
Proof.
  rewrite !FloatAxioms.eqb_spec. unfold SFeqb, SFcompare.
  destruct (Prim2SF x) as [sx | sx | | sx mx ex],
           (Prim2SF y) as [sy | sy | | sy my ey];
    try reflexivity; try (destruct sx, sy; reflexivity).
  destruct sx, sy; try reflexivity;
    rewrite (Z.compare_antisym ey ex);
    destruct (ey ?= ex)%Z; cbn [CompOpp]; try reflexivity;
    replace (Pos.compare_cont Eq mx my)
      with (CompOpp (Pos.compare_cont Eq my mx))
      by apply Pos.compare_cont_antisym;
    destruct (Pos.compare_cont Eq my mx); reflexivity.
Qed.

Lemma bool_decide_sym {A : Type} `{EqDecision A} (x y : A) :
  bool_decide (x = y) = bool_decide (y = x).
Proof. apply bool_decide_ext. split; congruence. Qed.

(** So is [==] on trains and on pairs of trains. *)
Lemma train_eq_sym (t t' : train) : py_eq t t' = py_eq t' t.
Proof.
  destruct t as [[[times price] company] date],
           t' as [[[times' price'] company'] date'].
  cbv [py_eq py_eq_prod py_eq_decide py_eq_float fst snd].
  rewrite (float_eqb_sym price price'), (bool_decide_sym times times'),
    (bool_decide_sym company company'), (bool_decide_sym date date').
  reflexivity.
Qed.

Lemma train_pair_eq_sym (key key' : train * train) :
  py_eq key key' = py_eq key' key.
Proof.
  destruct key as [g r], key' as [g' r'].
  change (py_eq g g' && py_eq r r' = py_eq g' g && py_eq r' r).
  rewrite (train_eq_sym g g'), (train_eq_sym r r'). reflexivity.
Qed.

Context {K : Type} `{PyEq K}.

Lemma dict_set_apart (k : K) (v : float) (d : dict K) :
  Forall (fun kv => py_eq kv.1 k = false) d -> dict_set k v d = d ++ [(k, v)].
Proof.
  induction 1 as [|[k' v'] d Hk _ IH]; [reflexivity |].
  cbn [dict_set]. cbn [fst] in Hk. rewrite Hk, IH. reflexivity.
Qed.

Lemma distinct_keys_cons (x : K * float) (d : dict K) :
  distinct_keys (x :: d)
  <-> Forall (fun kv => py_eq x.1 kv.1 = false) d /\ distinct_keys d.
Proof.
  split.
  - intros Hd. split.
    + apply Forall_lookup. intros i kv Hi.
      apply (Hd 0%nat (S i) x.1 kv.1); [lia | reflexivity |].
      change ((x :: d).*1 !! S i) with (d.*1 !! i).
      rewrite list_lookup_fmap, Hi. reflexivity.
    + intros i j ki kj Hlt Hi Hj.
      apply (Hd (S i) (S j) ki kj); [lia | exact Hi | exact Hj].
  - intros [Hx Hd] i j ki kj Hlt Hi Hj.
    destruct j as [|j]; [lia |].
    change ((x :: d).*1 !! S j) with (d.*1 !! j) in Hj.
    destruct i as [|i].
    + injection Hi as <-.
      rewrite list_lookup_fmap in Hj.
      destruct (d !! j) as [kv|] eqn:Hkv; [| discriminate].
      injection Hj as <-.
      rewrite Forall_lookup in Hx. apply (Hx j kv Hkv).
    + change ((x :: d).*1 !! S i) with (d.*1 !! i) in Hi.
      apply (Hd i j ki kj); [lia | exact Hi | exact Hj].
Qed.

Lemma distinct_keys_app_cons (acc : dict K) (x : K * float) (items : dict K) :
  distinct_keys (acc ++ x :: items) ->
  Forall (fun kv => py_eq kv.1 x.1 = false) acc.
Proof.
  intros Hd. apply Forall_lookup. intros i kv Hi.
  pose proof (lookup_lt_Some _ _ _ Hi) as Hlt.
  apply (Hd i (length acc) kv.1 x.1); [exact Hlt | |].
  - rewrite list_lookup_fmap, lookup_app_l, Hi by exact Hlt. reflexivity.
  - rewrite list_lookup_fmap, lookup_app_r by lia.
    rewrite Nat.sub_diag. reflexivity.
Qed.

(** Whatever [min_i], [max_price] is infinity or the price at hand, so the
    loop never breaks: with keys that differ every item is appended. *)
Lemma select_loop_distinct (min_i : nat) (max_price : float)
    (items : list (K * float)) (acc : dict K) :
  distinct_keys (acc ++ items) ->
  (0%nat = min_i \/ max_price = infinity) ->
  select_loop min_i 0 max_price items acc = acc ++ items.
Proof.
  revert max_price acc.
  induction items as [|[k v] items IH]; intros max_price acc Hd Hmax.
  - rewrite app_nil_r. reflexivity.
  - cbn [select_loop].
    assert (PrimFloat.ltb (if decide (0%nat = min_i) then v else max_price) v
            = false) as Hkeep.
    { destruct (decide (0%nat = min_i)) as [_ | Hne].
      - apply ltb_irrefl.
      - destruct Hmax as [| ->]; [contradiction | apply ltb_infinity]. }
    rewrite Hkeep.
    rewrite (dict_set_apart k v acc (distinct_keys_app_cons acc (k, v) items Hd)).
    rewrite IH.
    + rewrite <- app_assoc. reflexivity.
    + rewrite <- app_assoc. exact Hd.
    + destruct (decide (0%nat = min_i)); [left; assumption |].
      right. destruct Hmax; [contradiction | assumption].
Qed.

Hypothesis py_eq_sym : forall k k' : K, py_eq k k' = py_eq k' k.

Lemma distinct_keys_perm (d d' : dict K) :
  d ≡ₚ d' -> distinct_keys d -> distinct_keys d'.
Proof.
  induction 1 as [| x d d' Hperm IH | x y d | d d' d'' _ IH _ IH'].
  - auto.
  - rewrite !distinct_keys_cons. intros [Hx Hd].
    split; [rewrite <- Hperm; exact Hx | apply IH, Hd].
  - rewrite !distinct_keys_cons, !Forall_cons.
    intros [[Hyx Hy] [Hx Hd]]. rewrite py_eq_sym in Hyx. auto.
  - auto.
Qed.

(** [select_cheapest] drops nothing of a dictionary, whatever [min_i]. *)
Lemma select_cheapest_sorted (combinations : dict K) (min_i : nat) :
  distinct_keys combinations ->
  select_cheapest combinations min_i = sorted_by_price combinations.
Proof.
  intros Hd. unfold select_cheapest. rewrite select_loop_distinct.
  - reflexivity.
  - cbn [app].
    apply (distinct_keys_perm combinations); [| exact Hd].
    symmetry. apply sorted_by_price_perm.
  - right. reflexivity.
Qed.

End symmetric_keys.

Section round_trips.

Import csv dates round_trips_finder.

Variable float_of_str : string -> option float.
Variable str_of_float : float -> string.

(** A ledger row with the seven columns [load_trains] reads. *)
Definition whole_row (line : gmap string (option string)) : Prop :=
  Forall (fun k => is_Some (field line k)) load_columns.

#[global] Instance whole_row_dec line : Decision (whole_row line).
Proof. unfold whole_row. apply _. Defined.

Lemma whole_row_readable (o d : string) (travel_dates : list string)
    (line : gmap string (option string)) :
  whole_row line -> readable o d travel_dates line.
Proof.
  intros Hrow. unfold whole_row in Hrow. split.
  - eapply Forall_impl; [exact Hrow |]. intros k [v Hv]. unfold field in Hv.
    destruct (line !! k); [eauto | discriminate].
  - intros _. rewrite Forall_forall in Hrow. apply Hrow. set_solver.
Qed.

(** The trains of a day do not depend on the other travel dates. *)
Lemma trains_on_one_date (o d : string) (travel_dates : list string)
    (date : string) (lines : list (gmap string (option string))) :
  date ∈ travel_dates ->
  trains_on float_of_str o d travel_dates date lines
  = trains_on float_of_str o d [date] date lines.
Proof.
  intros Hin. unfold trains_on.
  induction lines as [|line lines IH]; [reflexivity |].
  cbn [omap list_omap]. cbn [omap] in IH. rewrite IH.
  replace (train_of_line float_of_str o d travel_dates date line)
    with (train_of_line float_of_str o d [date] date line); [reflexivity |].
  unfold train_of_line.
  destruct (decide (_ /\ _ /\ _ /\ date ∈ [date])) as [(H1 & H2 & H3 & _) | Hno];
    destruct (decide (_ /\ _ /\ _ /\ date ∈ travel_dates))
      as [(H1' & H2' & H3' & _) | Hno'];
    try reflexivity; exfalso.
  - apply Hno'. auto.
  - apply Hno. repeat split; auto. set_solver.
Qed.

Lemma load_trains_spec (path o d : string) (travel_dates : list string)
    (files : fs) (text : string) :
  files !! path = Some text ->
  Forall whole_row (DictReader text) ->
  exists trains,
    load_trains float_of_str path o d travel_dates files = Ok trains
    /\ forall date,
         trains !! date
         = entry (trains_on float_of_str o d travel_dates date (DictReader text)).
Proof.
  intros Hfile Hrows. unfold load_trains, read. rewrite Hfile.
  cbn [mbind result_bind Py.bind].
  destruct (load_lines_spec float_of_str o d travel_dates (DictReader text) ∅)
    as (trains & Hrun & Hspec).
  - eapply Forall_impl; [exact Hrows |]. intros line.
    apply whole_row_readable.
  - intros date. rewrite lookup_empty. discriminate.
  - exists trains. split; [exact Hrun |]. intros date.
    rewrite Hspec, lookup_empty. reflexivity.
Qed.

Lemma entry_elem (l l' : list train) (x : train) :
  entry l = Some l' -> x ∈ l' <-> x ∈ l.
Proof. destruct l; intros [= <-]. reflexivity. Qed.

Lemma entry_Some (l : list train) (x : train) :
  x ∈ l -> entry l = Some l.
Proof. destruct l; [intros H; inversion H | reflexivity]. Qed.

Lemma holds_perm (R : train * train -> Prop)
    (d d' : dict (train * train)) :
  d ≡ₚ d' -> holds R d -> holds R d'.
Proof.
  intros Hperm (Hdist & Hin & Hcov). split; [| split].
  - apply (distinct_keys_perm train_pair_eq_sym d d' Hperm Hdist).
  - intros key p Hel. rewrite <- Hperm in Hel. apply (Hin key p Hel).
  - intros key' HR. destruct (Hcov key' HR) as (key & p & Hel & Hs).
    exists key, p. rewrite <- Hperm. auto.
Qed.

(** A round trip inside the interval of days from [first] to [last] of
    the calendar: a train from the origin to the destination on a day n
    and a train back on the day n + t, for a trip length t. *)
Definition round_trip_within (origin_station destination_station : string)
    (trip_days : list Z) (first last : Z)
    (lines : list (gmap string (option string))) (key : train * train) : Prop :=
  exists n t_day,
    first <= n <= last
    /\ t_day ∈ trip_days
    /\ first <= n + t_day <= last
    /\ key.1 ∈ trains_on float_of_str origin_station destination_station
                [day_string n] (day_string n) lines
    /\ key.2 ∈ trains_on float_of_str destination_station origin_station
                [day_string (n + t_day)] (day_string (n + t_day)) lines.


End round_trips.

Section missing_services_report.

Import csv write_missing_services.

Variable join : string -> string -> string.

Lemma fold_left_append {A : Type} (f : A -> string) (l : list A) (content : string) :
  fold_left (fun content x => content +:+ f x) l content
  = content +:+ fold_right String.append EmptyString (map f l).
Proof.
  revert content. induction l as [|x l IH]; intros content.
  - cbn [fold_left map fold_right]. rewrite append_empty. reflexivity.
  - cbn [fold_left map fold_right]. rewrite IH, append_assoc. reflexivity.
Qed.

(** The columns of the report and the row of a missing service: the
    search date of the service is left out. *)
Definition report_columns : list string :=
  ["origin_station"; "destination_station"; "operator"; "travel_date"].

Definition report_row (operator : string) (ser : task) : list string :=
  [ser.1.1.1; ser.1.1.2; operator; ser.1.2].

Lemma report_line_row (operator : string) (ser : task) :
  report_line operator ser = Py.join "|" (report_row operator ser) +:+ nl.
Proof.
  destruct ser as [[[o d] t] sd]. unfold report_line, report_row.
  cbn [fst snd Py.join]. rewrite !append_assoc. reflexivity.
Qed.


End missing_services_report.

Section ledger_kept.

Import existing_output AVLO.

Variable join : string -> string -> string.
Variable dirname : string -> string.
Variable flushed : string -> nat.

Lemma close_appends (output_path : string) (lines : list string) (files : fs)
    (text : string) :
  files !! output_path = Some text ->
  (exists suffix, close output_path lines files !! output_path
                  = Some (text +:+ suffix))
  /\ forall path, path <> output_path ->
       close output_path lines files !! path = files !! path.
Proof.
  intros Hfile. unfold close. split.
  - rewrite lookup_insert_eq, Hfile. cbn [default]. eauto.
  - intros path Hne. apply lookup_insert_ne. congruence.
Qed.

Lemma left_open_appends (output_path : string) (lines : list string)
    (files : fs) (text : string) :
  files !! output_path = Some text ->
  (exists suffix, left_open flushed output_path lines files !! output_path
                  = Some (text +:+ suffix))
  /\ forall path, path <> output_path ->
       left_open flushed output_path lines files !! path = files !! path.
Proof.
  intros Hfile. unfold left_open. cbv zeta. split.
  - rewrite lookup_insert_eq, Hfile. cbn [default]. eauto.
  - intros path Hne. apply lookup_insert_ne. congruence.
Qed.


End ledger_kept.

Section loaded_trains.

Import csv round_trips_finder.

Variable float_of_str : string -> option float.

(** What [load_trains] keeps true of its dictionary: a key is a travel
    date, its list is not empty, and its trains carry the key as their
    date. *)
Definition well_keyed (travel_dates : list string)
    (trains : gmap string (list train)) : Prop :=
  forall date l, trains !! date = Some l ->
    date ∈ travel_dates /\ l <> [] /\ Forall (fun tr : train => tr.2 = date) l.

Lemma load_line_well_keyed (o d : string) (travel_dates : list string)
    (trains trains' : gmap string (list train))
    (line : gmap string (option string)) :
  well_keyed travel_dates trains ->
  load_line float_of_str o d travel_dates trains line = Ok trains' ->
  well_keyed travel_dates trains'.
Proof.
  intros Hinv. unfold load_line, getitem.
  destruct (line !! "origin_station") as [vo|]; [| discriminate].
  cbn [mbind result_bind Py.bind].
  destruct (decide (vo <> Some o)); [intros [= <-]; exact Hinv |].
  destruct (line !! "destination_station") as [vd|]; [| discriminate].
  cbn [mbind result_bind Py.bind].
  destruct (decide (vd <> Some d)); [intros [= <-]; exact Hinv |].
  destruct (line !! "travel_date") as [vt|]; [| discriminate].
  cbn [mbind result_bind Py.bind].
  destruct vt as [travel_date|]; [| intros [= <-]; exact Hinv].
  destruct (decide (travel_date ∉ travel_dates)) as [| Hin];
    [intros [= <-]; exact Hinv |].
  apply dec_stable in Hin.
  destruct (line !! "price") as [vp|]; [| discriminate].
  cbn [mbind result_bind Py.bind].
  destruct vp as [price_text|]; [| discriminate].
  destruct (float_of_str _) as [price|]; [| intros [= <-]; exact Hinv].
  destruct (line !! "departure_time") as [vdep|]; [| discriminate].
  destruct (line !! "arrival_time") as [varr|]; [| discriminate].
  destruct (line !! "company") as [vc|]; [| discriminate].
  cbn [mbind result_bind Py.bind]. intros [= <-].
  intros date l. destruct (decide (date = travel_date)) as [-> | Hne].
  - rewrite lookup_insert_eq. intros [= <-].
    split; [exact Hin |]. split; [destruct (default [] _); discriminate |].
    apply Forall_app. split; [| repeat constructor].
    destruct (trains !! travel_date) as [l0|] eqn:Hl0; [| constructor].
    apply (Hinv _ _ Hl0).
  - rewrite lookup_insert_ne by congruence. apply Hinv.
Qed.


End loaded_trains.

Section ledger_header.

Import csv existing_output.

Lemma dict_of_None (l : list (string * option string)) (k : string) :
  k ∉ l.*1 -> dict_of l !! k = None.
Proof.
  unfold dict_of.
  enough (forall acc : gmap string (option string),
             k ∉ l.*1 -> acc !! k = None ->
             foldl (fun d kv => <[kv.1 := kv.2]> d) acc l !! k = None)
    as Hgen by (intros Hk; apply Hgen; [exact Hk | apply lookup_empty]).
  induction l as [|[k' v'] l IH]; intros acc Hk Hacc; [exact Hacc |].
  rewrite fmap_cons, not_elem_of_cons in Hk. cbn [fst] in Hk.
  destruct Hk as [Hne Hk]. cbn [foldl fst snd]. apply IH; [exact Hk |].
  rewrite lookup_insert_ne by congruence. exact Hacc.
Qed.

Lemma getitem_row (fieldnames row : list string) (k : string) :
  (k ∈ fieldnames ->
   exists v, getitem (dict_of (zip_row fieldnames row)) k = Ok v)
  /\ (k ∉ fieldnames ->
      getitem (dict_of (zip_row fieldnames row)) k = Raise (KeyError k)).
Proof.
  unfold getitem. split; intros Hk.
  - destruct (dict_of_is_Some (zip_row fieldnames row) k) as [v ->]; [| eauto].
    rewrite zip_row_keys. exact Hk.
  - rewrite dict_of_None; [reflexivity |]. rewrite zip_row_keys. exact Hk.
Qed.

Lemma filter_Exists {A : Type} (P : A -> Prop) `{forall x, Decision (P x)}
    (l : list A) :
  Exists P l -> exists x l', filter P l = x :: l'.
Proof.
  induction 1 as [x l Hx | x l _ IH].
  - rewrite filter_cons, decide_True by exact Hx. eauto.
  - rewrite filter_cons. destruct (decide (P x)); eauto.
Qed.


End ledger_header.

Section run_dates.

Import dates AVLO.

Variable join : string -> string -> string.
Variable dirname : string -> string.
Variable flushed : string -> nat.



End run_dates.

(** ** The properties of the runs on concrete inputs *)

Section run_examples.

Import csv dates existing_output web_request AVLO round_trips_finder.

(** 10:15 on 30/04/2024, and a results page with one service and one
    element without text. *)
Definition quarter_past_ten : datetime := mk_datetime (mk_date 2024 4 30) 10 15.

Definition morning_page : list string :=
  ["07:05" +:+ nl +:+ "09:50" +:+ nl +:+ "9,00 €"; EmptyString].

Definition morning_line : string :=
  "MADRID|BARCELONA|01/05/2024|07:05|09:50|9,00 €|AVLO|30/04/2024|10:15" +:+ nl.




(** The variables of the loop after the one service was found. *)
Definition drained_state : state :=
  mk_state [] 0 [morning_line] [(1%nat, 0%nat)].











(** A ledger with a service from Madrid to Barcelona on 01/05/2024, two
    services back on 05/05/2024, one of them sold out, and a service back
    on 03/05/2024. *)
Definition ledger_round_trips : string :=
  "origin_station|destination_station|travel_date|departure_time|arrival_time|price|company|search_date|search_time"
  +:+ nl +:+ "MADRID|BARCELONA|01/05/2024|07:05|09:50|9,50 €|AVLO|30/04/2024|10:15"
  +:+ nl +:+ "BARCELONA|MADRID|05/05/2024|18:00|20:45|7,00 €|AVLO|30/04/2024|10:16"
  +:+ nl +:+ "BARCELONA|MADRID|05/05/2024|20:00|22:45|COMPLETO|AVLO|30/04/2024|10:16"
  +:+ nl +:+ "BARCELONA|MADRID|03/05/2024|18:00|20:45|5,00 €|AVLO|30/04/2024|10:17"
  +:+ nl.

(** A printer of halves, which stands for [str] on floats in the examples
    below: on the multiples of one half from 0 to 2^52 it returns the text
    that Python returns. *)
Definition half_euros (x : float) : string :=
  let n := match Prim2SF (x * 2)%float with
           | S754_finite false m e =>
               if 0 <=? e then Z.pos m * 2 ^ e else Z.pos m / 2 ^ (- e)
           | _ => 0
           end in
  Py.str (n / 2) +:+ (if n mod 2 =? 0 then ".0" else ".5").


(** The run on [ledger_round_trips]: one round trip of four days, and the
    line written for it. *)
Example main_function_writes_round_trip :
  exists files,
    finder.main_function decimal_float half_euros "MADRID" "BARCELONA" [4]
      "01/05/2024" "05/05/2024" "in.txt" "out.txt"
      {[ "in.txt" := ledger_round_trips ]}
    = Ok files
    /\ files !! "out.txt"
       = Some ("0|16.5€|AVLO|9.5€|07:05|01/05/2024|MADRID|09:50|BARCELONA|"
               +:+ "|AVLO|7.0€|18:00|05/05/2024|BARCELONA" +:+ nl)
    /\ files !! "in.txt" = Some ledger_round_trips.
Proof.
  eexists. split; [vm_compute; reflexivity |].
  split; vm_compute; reflexivity.
Qed.




(** The trains from Madrid to Barcelona of [ledger_round_trips]. *)
Definition trains_to_barcelona : gmap string (list train) :=
  {[ "01/05/2024" :=
       [((Some "07:05", Some "09:50"), 9.5%float, Some "AVLO", "01/05/2024")] ]}.




End run_examples.

(** ** The embedding on concrete inputs *)

Section checks.

Example int_of_padded_digits : Py.int "05" = Ok 5.
Proof. reflexivity. Qed.

Example int_of_spaced_digits : Py.int " 12 " = Ok 12.
Proof. reflexivity. Qed.

Example int_of_letters : Py.int "1a" = Raise ValueError.
Proof. reflexivity. Qed.

Example zfill_of_day : Py.zfill 2 (Py.str 5) = "05".
Proof. reflexivity. Qed.

Example split_of_line :
  Py.split "|" "MADRID|BARCELONA||07:05" = ["MADRID"; "BARCELONA"; ""; "07:05"].
Proof. reflexivity. Qed.

Example replace_in_price :
  Py.replace "€" "" (Py.replace "," "." "9,50 €") = "9.50 ".
Proof. reflexivity. Qed.

Example DictReader_short_row :
  csv.DictReader ("a|b|c" +:+ csv.nl +:+ "1|2|3" +:+ csv.nl +:+ csv.nl
                  +:+ "4|5" +:+ csv.nl)
  = [ {[ "a" := Some "1"; "b" := Some "2"; "c" := Some "3" ]};
      {[ "a" := Some "4"; "b" := Some "5"; "c" := None ]} ].
Proof. vm_compute. reflexivity. Qed.

Example add_days_over_leap_day :
  dates.add_days_to_date "28/02/2024" 2 = Ok "01/03/2024".
Proof. vm_compute. reflexivity. Qed.

Example add_days_over_new_year :
  dates.add_days_to_date "31/12/2023" 1 = Ok "01/01/2024".
Proof. vm_compute. reflexivity. Qed.

Example add_days_past_the_calendar :
  dates.add_days_to_date "31/12/9999" 1 = Raise OverflowError.
Proof. vm_compute. reflexivity. Qed.

Example add_days_to_no_date :
  dates.add_days_to_date "30/02/2023" 1 = Raise ValueError.
Proof. vm_compute. reflexivity. Qed.

Example dates_inbetween :
  dates.load_dates_inbetween "30/04/2024" "02/05/2024"
  = Ok ["30/04/2024"; "01/05/2024"; "02/05/2024"].
Proof. vm_compute. reflexivity. Qed.

Example remaining_time_estimate :
  remaining_time.print_remaining_time 0 4 120 3 = Ok (Some (7, 3)).
Proof. vm_compute. reflexivity. Qed.

End checks.
